(** * Repurchase-prediction and consumption-analytics engine of kroger-mcp

    A shallow embedding of [kroger_mcp/analytics]: [statistics.py],
    [seasonal.py], [categories.py], [predictions.py], [pantry.py],
    [purchase_tracker.py] and [trend_analysis.py], over a model of the
    SQLite tables of [database.py].

    Conventions of the embedding.
    - Python [int] is [Z]; [//] and [%] are [Z.div] and [Z.modulo] (both
      floor, as in Python).
    - Python [float] is idealised as an exact rational [Q]: no rounding
      error, no overflow, no NaN.  Equality of floats is [Qeq].  Where the
      code rounds a float that it has computed, the rounding error can
      decide next to a half-way value: a theorem on such a value is
      stated away from the half-way values.
    - [str] is [string]; [None] is [option]'s [None].
    - A raised exception is the [Raised] outcome.
    - A [datetime] counts microseconds; the wall clock ([datetime.now()])
      is naive (no time zone) and an explicit argument.  A date that is
      parsed is naive, or aware when its string ends in a UTC offset; the
      difference of an aware date and the clock raises [TypeError], and a
      date outside the years 1 to 9999 raises [OverflowError].
    - The functions of the Python runtime that the code calls and that are
      not integer or string arithmetic (square root, the two date parsers)
      are the fields of the class [Runtime]; the theorems hold for every
      runtime, and [Reference.runtime] is one, to evaluate on sample data.
    - A table with a unique [product_id] is a [gmap] from it to the other
      columns; [purchase_events] is the list of its rows.  A call takes the
      database and returns the database it commits.  The database is
      initialised ([ensure_initialized] has run). *)

From Stdlib Require Import ZArith QArith Qround Qminmax Qabs Lia Lqa String Ascii List
  Bool.
From stdpp Require Import gmap strings list fin_maps sorting.

Local Open Scope Z_scope.

(* ===================================================================== *)
(** * The Python runtime *)
(* ===================================================================== *)

Module Py.

(** ** Outcomes of a call that may raise *)

Inductive exn := ValueError | OverflowError | TypeError | IntegrityError.

Inductive outcome (A : Type) :=
| Returned (a : A)
| Raised (e : exn).
Arguments Returned {A} a.
Arguments Raised {A} e.

Definition bind {A B} (o : outcome A) (k : A -> outcome B) : outcome B :=
  match o with
  | Returned a => k a
  | Raised e => Raised e
  end.

Notation "'try!' x ':=' o 'in' k" := (bind o (fun x => k))
  (at level 10, x name, o at level 200, k at level 200).

(** [[f(x) for x in xs]], or a loop that appends [f(x)]: the first call
    that raises ends it. *)
Fixpoint map_outcome {A B} (f : A -> outcome B) (xs : list A) : outcome (list B) :=
  match xs with
  | [] => Returned []
  | x :: rest =>
      try! y := f x in
      try! ys := map_outcome f rest in
      Returned (y :: ys)
  end.

(** ** Truthiness *)

(** [bool(s)] for a [str] or [None]: a non-empty string. *)
Definition truthy_str (s : option string) : bool :=
  match s with
  | Some (String _ _) => true
  | _ => false
  end.

(** [bool(n)] for an [int] or [None]. *)
Definition truthy_int (n : option Z) : bool :=
  match n with
  | Some n => negb (n =? 0)
  | None => false
  end.

Definition Qeqb0 (q : Q) : bool := Qnum q =? 0.

(** [bool(x)] for a [float] or [None]. *)
Definition truthy_float (x : option Q) : bool :=
  match x with
  | Some q => negb (Qeqb0 q)
  | None => false
  end.

Definition Qltb (a b : Q) : bool := negb (Qle_bool b a).

(** ** Strings *)

(** [c in s] for a one-character [c]. *)
Fixpoint contains_char (c : ascii) (s : string) : bool :=
  match s with
  | EmptyString => false
  | String a rest => Ascii.eqb a c || contains_char c rest
  end.

(** [s.replace(c, r)] for a one-character [c]. *)
Fixpoint replace_char (c : ascii) (r : string) (s : string) : string :=
  match s with
  | EmptyString => EmptyString
  | String a rest =>
      if Ascii.eqb a c then String.append r (replace_char c r rest)
      else String a (replace_char c r rest)
  end.

(** [s[:n]]. *)
Definition prefix (n : nat) (s : string) : string := String.substring 0 n s.

(** ** Numbers *)

(** [round(x)]: to the nearest integer, a tie to the even one. *)
Definition round (x : Q) : Z :=
  let f := Qfloor x in
  let r := (x - inject_Z f)%Q in
  match (r ?= 1 # 2)%Q with
  | Lt => f
  | Gt => f + 1
  | Eq => if Z.even f then f else f + 1
  end.

(** [round(x, ndigits)]. *)
Definition round_ndigits (x : Q) (ndigits : nat) : Q :=
  let p := 10 ^ Z.of_nat ndigits in
  (inject_Z (round (x * inject_Z p)) / inject_Z p)%Q.

(** [sum(xs)] of floats. *)
Definition fsum (xs : list Q) : Q := fold_left Qplus xs 0%Q.

(** [float(n)]. *)
Abbreviation float := inject_Z (only parsing).

(** ** The proleptic Gregorian calendar of [datetime] *)

Definition MINYEAR : Z := 1.
Definition MAXYEAR : Z := 9999.
Definition _MAXORDINAL : Z := 3652059.

Definition _is_leap (year : Z) : bool :=
  (year mod 4 =? 0) && (negb (year mod 100 =? 0) || (year mod 400 =? 0)).

Definition _DAYS_IN_MONTH (month : Z) : Z :=
  match month with
  | 1 => 31 | 2 => 28 | 3 => 31 | 4 => 30 | 5 => 31 | 6 => 30
  | 7 => 31 | 8 => 31 | 9 => 30 | 10 => 31 | 11 => 30 | 12 => 31
  | _ => -1
  end.

Definition _DAYS_BEFORE_MONTH (month : Z) : Z :=
  match month with
  | 1 => 0 | 2 => 31 | 3 => 59 | 4 => 90 | 5 => 120 | 6 => 151
  | 7 => 181 | 8 => 212 | 9 => 243 | 10 => 273 | 11 => 304 | 12 => 334
  | _ => -1
  end.

Definition _days_before_year (year : Z) : Z :=
  let y := year - 1 in
  y * 365 + y / 4 - y / 100 + y / 400.

Definition _days_in_month (year month : Z) : Z :=
  if (month =? 2) && _is_leap year then 29 else _DAYS_IN_MONTH month.

Definition _days_before_month (year month : Z) : Z :=
  _DAYS_BEFORE_MONTH month + (if (2 <? month) && _is_leap year then 1 else 0).

Definition _ymd2ord (year month day : Z) : Z :=
  _days_before_year year + _days_before_month year month + day.

Definition _DI400Y : Z := 146097.
Definition _DI100Y : Z := 36524.
Definition _DI4Y : Z := 1461.

Definition _ord2ymd (n : Z) : Z * Z * Z :=
  let n := n - 1 in
  let n400 := n / _DI400Y in
  let n := n mod _DI400Y in
  let year := n400 * 400 + 1 in
  let n100 := n / _DI100Y in
  let n := n mod _DI100Y in
  let n4 := n / _DI4Y in
  let n := n mod _DI4Y in
  let n1 := n / 365 in
  let n := n mod 365 in
  let year := year + n100 * 100 + n4 * 4 + n1 in
  if (n1 =? 4) || (n100 =? 4) then (year - 1, 12, 31)
  else
    let leapyear := (n1 =? 3) && (negb (n4 =? 24) || (n100 =? 3)) in
    let month := Z.shiftr (n + 50) 5 in
    let preceding :=
      _DAYS_BEFORE_MONTH month + (if (2 <? month) && leapyear then 1 else 0) in
    if n <? preceding then
      let month := month - 1 in
      let preceding :=
        preceding
        - (_DAYS_IN_MONTH month + (if (month =? 2) && leapyear then 1 else 0)) in
      (year, month, n - preceding + 1)
    else (year, month, n - preceding + 1).

(** ** [datetime.date] *)

Record date := mk_date { year : Z; month : Z; day : Z }.

(** [date(year, month, day)]: [ValueError] outside the calendar. *)
Definition date_new (y m d : Z) : outcome date :=
  if (MINYEAR <=? y) && (y <=? MAXYEAR)
     && (1 <=? m) && (m <=? 12)
     && (1 <=? d) && (d <=? _days_in_month y m)
  then Returned (mk_date y m d)
  else Raised ValueError.

Definition toordinal (d : date) : Z := _ymd2ord (year d) (month d) (day d).

Definition fromordinal (n : Z) : date :=
  let '(y, m, d) := _ord2ymd n in mk_date y m d.

(** [d.weekday()]: Monday is 0, Sunday is 6. *)
Definition weekday (d : date) : Z := (toordinal d + 6) mod 7.

(** [d + timedelta(days=k)]: [OverflowError] outside the calendar. *)
Definition date_add_days (d : date) (k : Z) : outcome date :=
  let o := toordinal d + k in
  if (0 <? o) && (o <=? _MAXORDINAL) then Returned (fromordinal o)
  else Raised OverflowError.

(** ** [datetime.datetime] (naive) and [datetime.timedelta]

    A [datetime] is the number of microseconds since the midnight that
    starts ordinal day 0; a [timedelta] is a number of microseconds. *)

Abbreviation datetime := Z (only parsing).
Abbreviation timedelta := Z (only parsing).

Definition US_PER_SECOND : Z := 1000000.
Definition US_PER_DAY : Z := 86400 * US_PER_SECOND.

Definition datetime_new (y m d hh mi ss us : Z) : datetime :=
  _ymd2ord y m d * US_PER_DAY + ((hh * 60 + mi) * 60 + ss) * US_PER_SECOND + us.

Definition dt_toordinal (t : datetime) : Z := t / US_PER_DAY.

(** [t.month]. *)
Definition dt_month (t : datetime) : Z :=
  let '(_, m, _) := _ord2ymd (dt_toordinal t) in m.

(** [timedelta(days=x)] for a float [x]: rounded to a microsecond. *)
Definition timedelta_days (x : Q) : timedelta :=
  round (x * inject_Z US_PER_DAY).

(** [td.days]. *)
Definition td_days (td : timedelta) : Z := td / US_PER_DAY.

(** The days of a [timedelta] are at most 999999999 in magnitude. *)
Definition _MAX_DELTA_DAYS : Z := 999999999.

(** [timedelta(days=x)]: [OverflowError] when the days are out of range. *)
Definition timedelta_new_days (x : Q) : outcome timedelta :=
  let td := timedelta_days x in
  if (- _MAX_DELTA_DAYS <=? td_days td) && (td_days td <=? _MAX_DELTA_DAYS)
  then Returned td
  else Raised OverflowError.

(** [t + td] for a [datetime] [t], aware or naive: [OverflowError] when the
    date of the sum is outside the calendar. *)
Definition datetime_add (t : datetime) (td : timedelta) : outcome datetime :=
  let sum := t + td in
  if (0 <? dt_toordinal sum) && (dt_toordinal sum <=? _MAXORDINAL)
  then Returned sum
  else Raised OverflowError.

(** [t - td], which is [t + (-td)]. *)
Definition datetime_sub (t : datetime) (td : timedelta) : outcome datetime :=
  datetime_add t (- td).

(** [td.total_seconds()]. *)
Definition td_total_seconds (td : timedelta) : Q :=
  (inject_Z td / inject_Z US_PER_SECOND)%Q.

Definition digit (n : Z) : ascii := ascii_of_nat (48 + Z.to_nat (n mod 10)).

Definition two_digits (n : Z) (rest : string) : string :=
  String (digit (n / 10)) (String (digit n) rest).

Definition four_digits (n : Z) (rest : string) : string :=
  two_digits (n / 100) (two_digits n rest).

Definition six_digits (n : Z) (rest : string) : string :=
  two_digits (n / 10000) (four_digits n rest).

(** [d.isoformat()]: ['YYYY-MM-DD']. *)
Definition date_isoformat (y m d : Z) (rest : string) : string :=
  four_digits y (String "-" (two_digits m (String "-" (two_digits d rest)))).

(** [t.date().isoformat()], which is [t.strftime('%Y-%m-%d')]. *)
Definition date_str (t : datetime) : string :=
  let '(y, m, d) := _ord2ymd (dt_toordinal t) in date_isoformat y m d "".

(** [t.isoformat()]: ['YYYY-MM-DDTHH:MM:SS'], and ['.ffffff'] after it when the
    microsecond is not 0. *)
Definition isoformat (t : datetime) : string :=
  let '(y, m, d) := _ord2ymd (dt_toordinal t) in
  let us_of_day := t mod US_PER_DAY in
  let s_of_day := us_of_day / US_PER_SECOND in
  let us := us_of_day mod US_PER_SECOND in
  date_isoformat y m d
    (String "T"
       (two_digits (s_of_day / 3600)
          (String ":"
             (two_digits (s_of_day / 60 mod 60)
                (String ":"
                   (two_digits (s_of_day mod 60)
                      (if us =? 0 then EmptyString
                       else String "." (six_digits us EmptyString)))))))).

(** ** What the embedding leaves to the runtime *)

Class Runtime := {
  (** [math.sqrt], a function of the value of its argument, and not
      negative *)
  fsqrt : Q -> Q;
  fsqrt_value : forall x y : Q, (x == y)%Q -> (fsqrt x == fsqrt y)%Q;
  fsqrt_nonneg : forall x : Q, (0 <= x)%Q -> (0 <= fsqrt x)%Q;
  (** [datetime.fromisoformat(s)] when it returns a naive [datetime]: [None]
      when it raises [ValueError], as it does on the empty string, and when
      it returns an aware one, which is [fromisoformat_aware] *)
  fromisoformat : string -> option datetime;
  fromisoformat_empty : fromisoformat "" = None;
  (** [datetime.fromisoformat(s)] when it returns an aware [datetime], of a
      string that ends in a UTC offset: its date and time, without the
      offset.  The difference of an aware [datetime] and the naive clock
      raises [TypeError] *)
  fromisoformat_aware : string -> option datetime;
  fromisoformat_aware_not_naive :
    forall s, is_Some (fromisoformat_aware s) -> fromisoformat s = None;
  (** [datetime.strptime(s, '%Y-%m-%d')]; [None] when it raises
      [ValueError], as it does on the empty string *)
  strptime_ymd : string -> option datetime;
  strptime_ymd_empty : strptime_ymd "" = None
}.

(** ** The [statistics] module, on lists of [int] *)

Section PyStatistics.
Context `{Runtime}.

(** [sum(xs)] of ints. *)
Definition isum (xs : list Z) : Z := fold_left Z.add xs 0.

(** [len(xs)]. *)
Definition len {A} (xs : list A) : Z := Z.of_nat (length xs).

(** [statistics.mean(xs)]. *)
Definition mean (xs : list Z) : Q := (float (isum xs) / float (len xs))%Q.

(** The sum of the squared deviations from the mean. *)
Definition sum_sq_dev (xs : list Z) : Q :=
  fsum (map (fun x => (float x - mean xs) * (float x - mean xs))%Q xs).

(** [statistics.stdev(xs)]: the square root of the sample variance.  The
    module raises [StatisticsError] on fewer than two values; every call
    of the code is on two values or more. *)
Definition stdev (xs : list Z) : Q :=
  fsqrt (sum_sq_dev xs / float (len xs - 1))%Q.
End PyStatistics.

End Py.

Import Py.

(* ===================================================================== *)
(** * database.py: the tables *)
(* ===================================================================== *)

Module Database.

(** [products]; of its columns, those the analytics code reads or writes. *)
Module Products.
Record row := mk {
  description : option string;
  category_type : option string;
  category_override : option Z;
  created_at : option string;
  updated_at : option string
}.
End Products.

(** [purchase_events], in the order of their row ids.  [modality], [price]
    and [order_id] are read by no modelled function. *)
Module PurchaseEvents.
Record row := mk {
  product_id : string;
  quantity : Z;
  event_type : string;
  event_date : string;
  event_timestamp : string
}.
End PurchaseEvents.

(** [product_statistics], keyed by [product_id]. *)
Module ProductStatistics.
Record row := mk {
  total_purchases : Z;
  total_quantity : Z;
  avg_quantity_per_purchase : Q;
  avg_days_between_purchases : option Q;
  std_dev_days : Q;
  last_purchase_date : string;
  first_purchase_date : string;
  purchase_frequency_score : Q;
  seasonality_score : Q;
  detected_category : string;
  updated_at : string
}.
End ProductStatistics.

(** [pantry_items], keyed by [product_id]. *)
Module PantryItems.
Record row := mk {
  description : option string;
  level_percent : Z;
  last_restocked_at : option string;
  last_updated_at : option string;
  auto_deplete : option Z;
  daily_depletion_rate : option Q;
  low_threshold : Z
}.
End PantryItems.

Record db := mk_db {
  products : gmap string Products.row;
  purchase_events : list PurchaseEvents.row;
  product_statistics : gmap string ProductStatistics.row;
  pantry_items : gmap string PantryItems.row
}.

(** [FOREIGN KEY (product_id) REFERENCES products(product_id)], enforced
    ([PRAGMA foreign_keys = ON]) when a child row is inserted. *)
Definition references_product (d : db) (product_id : string) : bool :=
  bool_decide (is_Some (products d !! product_id)).

Definition set_products (d : db) (ps : gmap string Products.row) : db :=
  mk_db ps (purchase_events d) (product_statistics d) (pantry_items d).

Definition set_purchase_events (d : db) (es : list PurchaseEvents.row) : db :=
  mk_db (products d) es (product_statistics d) (pantry_items d).

Definition set_product_statistics (d : db)
    (ss : gmap string ProductStatistics.row) : db :=
  mk_db (products d) (purchase_events d) ss (pantry_items d).

Definition set_pantry_items (d : db) (pi : gmap string PantryItems.row) : db :=
  mk_db (products d) (purchase_events d) (product_statistics d) pi.

End Database.

Import Database.

(* ===================================================================== *)
(** * config.py *)
(* ===================================================================== *)

Module Config.

Record PredictionConfig := mk {
  ewma_alpha : Q;
  buffer_routine : Q;
  buffer_regular : Q;
  buffer_treat : Q;
  routine_max_days : Z;
  regular_max_days : Z;
  seasonality_threshold : Q;
  urgency_critical : Q;
  urgency_high : Q;
  urgency_medium : Q;
  min_purchases_for_prediction : Z;
  max_confidence_purchases : Z
}.

(** The defaults of the dataclass. *)
Definition default : PredictionConfig :=
  mk 0.3 1.0 0.5 0.0 14 60 0.7 0.9 0.7 0.4 2 10.

End Config.

(* ===================================================================== *)
(** * seasonal.py (holiday dates) *)
(* ===================================================================== *)

Module Seasonal.

Definition _calculate_easter (year : Z) : outcome date :=
  let a := year mod 19 in
  let b := year / 100 in
  let c := year mod 100 in
  let d := b / 4 in
  let e := b mod 4 in
  let f := (b + 8) / 25 in
  let g := (b - f + 1) / 3 in
  let h := (19 * a + b - d - g + 15) mod 30 in
  let i := c / 4 in
  let k := c mod 4 in
  let el := (32 + 2 * e + 2 * i - h - k) mod 7 in
  let m := (a + 11 * h + 22 * el) / 451 in
  let month := (h + el - 7 * m + 114) / 31 in
  let day := ((h + el - 7 * m + 114) mod 31) + 1 in
  date_new year month day.

Definition get_holiday_date (holiday : string) (year : Z)
  : outcome (option date) :=
  if String.eqb holiday "thanksgiving" then
    try! nov_1 := date_new year 11 1 in
    let days_until_thursday := (3 - weekday nov_1) mod 7 in
    try! first_thursday := date_add_days nov_1 days_until_thursday in
    try! r := date_add_days first_thursday (3 * 7) in
    Returned (Some r)
  else if String.eqb holiday "christmas" then
    try! r := date_new year 12 25 in Returned (Some r)
  else if String.eqb holiday "halloween" then
    try! r := date_new year 10 31 in Returned (Some r)
  else if String.eqb holiday "easter" then
    try! r := _calculate_easter year in Returned (Some r)
  else if String.eqb holiday "july_4th" then
    try! r := date_new year 7 4 in Returned (Some r)
  else Returned None.

(** An entry of [HOLIDAY_PATTERNS]. *)
Record HolidayPattern := mk_pattern {
  months : list Z;
  peak_weeks : list Z;
  keywords : list string;
  days_before : Z
}.

(** [HOLIDAY_PATTERNS], in the order of the dict. *)
Definition HOLIDAY_PATTERNS : list (string * HolidayPattern) :=
  [("thanksgiving",
    mk_pattern [10; 11] [45; 46; 47]
      ["turkey"; "stuffing"; "cranberry"; "pie"; "gravy"] 2);
   ("christmas",
    mk_pattern [11; 12] [49; 50; 51; 52]
      ["ham"; "eggnog"; "candy cane"; "gingerbread"; "fruitcake"] 3);
   ("halloween",
    mk_pattern [9; 10] [40; 41; 42; 43; 44] ["candy"; "pumpkin"; "chocolate"] 2);
   ("easter",
    mk_pattern [3; 4] [12; 13; 14; 15; 16] ["ham"; "egg"; "chocolate"; "lamb"] 2);
   ("july_4th",
    mk_pattern [6; 7] [26; 27]
      ["hotdog"; "hamburger"; "bun"; "chips"; "watermelon"] 2)].

(** A dict of [get_upcoming_holidays]. *)
Record UpcomingHoliday := mk_upcoming {
  holiday : string;
  holiday_date : string;
  shop_by_date : string;
  days_until_shopping : Z;
  days_until_holiday : Z;
  urgency : string;
  holiday_keywords : list string
}.

(** [d.isoformat()] of a [date]. *)
Definition isoformat_date (d : date) : string :=
  date_isoformat (year d) (month d) (day d) "".

(** The body of the inner loop of [get_upcoming_holidays], for [holiday]
    in [year]: the dict it appends, [None] when it appends none. *)
Definition upcoming_holiday (today : date) (days_ahead : Z)
    (holiday : string) (patterns : HolidayPattern) (year : Z)
  : outcome (option UpcomingHoliday) :=
  try! holiday_date := get_holiday_date holiday year in
  match holiday_date with
  | None => Returned None
  | Some holiday_date =>
      try! shop_by_date := date_add_days holiday_date (- days_before patterns) in
      let days_until_shopping := toordinal shop_by_date - toordinal today in
      if (0 <=? days_until_shopping) && (days_until_shopping <=? days_ahead) then
        let urgency :=
          if days_until_shopping <=? 0 then "critical"
          else if days_until_shopping <=? 2 then "high"
          else if days_until_shopping <=? 5 then "medium"
          else "low" in
        Returned
          (Some
             (mk_upcoming holiday (isoformat_date holiday_date)
                (isoformat_date shop_by_date) days_until_shopping
                (toordinal holiday_date - toordinal today) urgency
                (keywords patterns)))
      else Returned None
  end.

(** The two loops of [get_upcoming_holidays] over the holidays and the
    years that are left: the dicts appended, or the exception that ends
    the loops. *)
Fixpoint upcoming_from (today : date) (days_ahead : Z)
    (rest : list (string * HolidayPattern * Z)) : outcome (list UpcomingHoliday) :=
  match rest with
  | [] => Returned []
  | (holiday, patterns, year) :: rest' =>
      try! entry := upcoming_holiday today days_ahead holiday patterns year in
      try! entries := upcoming_from today days_ahead rest' in
      Returned
        (match entry with
         | Some e => e :: entries
         | None => entries
         end)
  end.

(** [sorted(upcoming, key=lambda x: x['days_until_shopping'])]. *)
Definition by_days_until_shopping (a b : UpcomingHoliday) : Prop :=
  days_until_shopping a <= days_until_shopping b.

#[export] Instance by_days_until_shopping_dec : RelDecision by_days_until_shopping :=
  fun a b => decide (days_until_shopping a <= days_until_shopping b).

(** [get_upcoming_holidays(days_ahead)] on the day [today]. *)
Definition get_upcoming_holidays (today : date) (days_ahead : Z)
  : outcome (list UpcomingHoliday) :=
  let iterations :=
    flat_map
      (fun hp : string * HolidayPattern =>
         [(hp.1, hp.2, year today); (hp.1, hp.2, year today + 1)])
      HOLIDAY_PATTERNS in
  try! upcoming := upcoming_from today days_ahead iterations in
  Returned (merge_sort by_days_until_shopping upcoming).

Section Seasonality.
Context `{Runtime}.

(** The month of an event's [event_date], when the date parses (the body
    of the loop up to [monthly_counts[date.month] += 1]). *)
Definition event_month (event : PurchaseEvents.row) : option Z :=
  let date_str := PurchaseEvents.event_date event in
  match date_str with
  | EmptyString => None
  | _ =>
      let date :=
        if contains_char "T" date_str
        then fromisoformat (replace_char "Z" "+00:00" date_str)
        else strptime_ymd date_str in
      dt_month <$> date
  end.

Definition monthly_counts (purchase_events : list PurchaseEvents.row)
    (m : Z) : Z :=
  len (filter (fun e => event_month e = Some m) purchase_events).

Definition calculate_seasonality_score
    (purchase_events : list PurchaseEvents.row) : Q :=
  if len purchase_events <? 4 then 0.0%Q
  else
    let counts :=
      map (monthly_counts purchase_events) [1; 2; 3; 4; 5; 6; 7; 8; 9; 10; 11; 12] in
    let mean_count := mean counts in
    if Qeqb0 mean_count then 0.0%Q
    else
      let std_dev := if 1 <? len counts then stdev counts else 0.0%Q in
      let cv := (std_dev / mean_count)%Q in
      Qmin 1.0 (cv / 2.0)%Q.
End Seasonality.

End Seasonal.

(* ===================================================================== *)
(** * categories.py *)
(* ===================================================================== *)

Module Categories.

Record CategoryResult := mk_result {
  product_id : string;
  category : string;
  previous_category : option string;
  was_override : bool
}.

Definition detect_category (config : Config.PredictionConfig)
    (avg_days : option Q) (seasonality_score : Q) (total_purchases : Z)
  : string :=
  if total_purchases <? 3 then "uncategorized"
  else if Qltb (Config.seasonality_threshold config) seasonality_score then "treat"
  else
    match avg_days with
    | None => "uncategorized"
    | Some avg_days =>
        if Qle_bool avg_days (float (Config.routine_max_days config)) then "routine"
        else if Qle_bool avg_days (float (Config.regular_max_days config)) then "regular"
        else if Qltb 0.4 seasonality_score then "treat"
        else "regular"
    end.

Definition valid_categories : list string :=
  ["routine"; "regular"; "treat"; "uncategorized"].

(** [set_product_category(product_id, category, is_override)] at the time
    [now]; [current_timestamp] is SQLite's [CURRENT_TIMESTAMP], the default
    of [updated_at] in the inserted row. *)
Definition set_product_category (now : datetime) (current_timestamp : string)
    (product_id : string) (category : string) (is_override : bool) (d : db)
  : db * outcome CategoryResult :=
  if negb (bool_decide (category ∈ valid_categories)) then (d, Raised ValueError)
  else
    let flag := if is_override then 1 else 0 in
    match products d !! product_id with
    | Some row =>
        let previous := Products.category_type row in
        let was_override := truthy_int (Products.category_override row) in
        let row' :=
          Products.mk (Products.description row) (Some category) (Some flag)
            (Products.created_at row) (Some (isoformat now)) in
        (set_products d (<[product_id := row']> (products d)),
         Returned (mk_result product_id category previous was_override))
    | None =>
        let row' :=
          Products.mk None (Some category) (Some flag)
            (Some (isoformat now)) (Some current_timestamp) in
        (set_products d (<[product_id := row']> (products d)),
         Returned (mk_result product_id category None false))
    end.

Definition get_product_category (product_id : string) (d : db) : option string :=
  match products d !! product_id with
  | Some row => Products.category_type row
  | None => None
  end.

(** The rows of the query of [auto_categorize_all]:
    [WHERE p.category_override = 0 OR p.category_override IS NULL]. *)
Definition without_override (row : Products.row) : bool :=
  match Products.category_override row with
  | Some n => n =? 0
  | None => true
  end.

(** [detect_category] on a row of the query: the statistics of the product
    from the [LEFT JOIN], [NULL] when it has none. *)
Definition new_category (config : Config.PredictionConfig) (d : db)
    (product_id : string) : string :=
  let ps := product_statistics d !! product_id in
  detect_category config
    (ps ≫= ProductStatistics.avg_days_between_purchases)
    (default 0%Q (ProductStatistics.seasonality_score <$> ps))
    (default 0 (ProductStatistics.total_purchases <$> ps)).

Record AutoCategorizeResult := mk_auto {
  success : bool;
  categorized : gmap string Z;
  total : Z
}.

(** [auto_categorize_all()]; [now product_id] is the clock when the row of
    [product_id] is updated.  Every iteration updates the one row of
    [products] it was read from. *)
Definition auto_categorize_all (config : Config.PredictionConfig)
    (now : string -> datetime) (d : db) : db * AutoCategorizeResult :=
  let rows := filter (fun kv => without_override kv.2 = true) (map_to_list (products d)) in
  let changes0 : gmap string Z :=
    list_to_map [("routine", 0); ("regular", 0); ("treat", 0); ("uncategorized", 0)] in
  let changes :=
    fold_left
      (fun (changes : gmap string Z) kv =>
         let c := new_category config d kv.1 in
         <[c := default 0 (changes !! c) + 1]> changes)
      rows changes0 in
  let products' :=
    map_imap
      (fun product_id row =>
         Some
           (if without_override row then
              Products.mk (Products.description row)
                (Some (new_category config d product_id))
                (Products.category_override row)
                (Products.created_at row)
                (Some (isoformat (now product_id)))
            else row))
      (products d) in
  (set_products d products',
   mk_auto true changes (map_fold (fun _ n acc => n + acc) 0 changes)).


(** The columns of [product_statistics] in a dict of
    [get_items_by_category]; all are [None] for a product without
    statistics ([LEFT JOIN]). *)
Record StatsColumns := mk_columns {
  total_purchases : option Z;
  avg_days_between_purchases : option Q;
  last_purchase_date : option string;
  seasonality_score : option Q
}.

(** A dict of [get_items_by_category]: the row of the product, and the
    columns of its statistics when [include_stats] is set. *)
Record CategoryItem := mk_item {
  item_product_id : string;
  item_product : Products.row;
  item_stats : option StatsColumns
}.

(** The order of [ORDER BY] on a text column: [NULL] first, then the order
    of the bytes. *)
Definition text_leb (a b : option string) : bool :=
  match a, b with
  | None, _ => true
  | Some _, None => false
  | Some x, Some y => String.leb x y
  end.

(** [ORDER BY description]. *)
Definition by_description (a b : string * Products.row) : Prop :=
  text_leb (Products.description a.2) (Products.description b.2) = true.

#[export] Instance by_description_dec : RelDecision by_description :=
  fun a b =>
    decide (text_leb (Products.description a.2) (Products.description b.2) = true).

(** [get_items_by_category(category, include_stats)]. *)
Definition get_items_by_category (category : string) (include_stats : bool)
    (d : db) : list CategoryItem :=
  map
    (fun kv =>
       let ps := product_statistics d !! kv.1 in
       mk_item kv.1 kv.2
         (if include_stats then
            Some
              (mk_columns (ProductStatistics.total_purchases <$> ps)
                 (ps ≫= ProductStatistics.avg_days_between_purchases)
                 (ProductStatistics.last_purchase_date <$> ps)
                 (ProductStatistics.seasonality_score <$> ps))
          else None))
    (merge_sort by_description
       (filter (fun kv => Products.category_type kv.2 = Some category)
          (map_to_list (products d)))).

Definition by_text (a b : option string) : Prop := text_leb a b = true.

#[export] Instance by_text_dec : RelDecision by_text :=
  fun a b => decide (text_leb a b = true).

(** The rows of [SELECT category_type, COUNT( * ) FROM products GROUP BY
    category_type]; SQLite returns the groups in the order of
    [category_type]. *)
Definition category_groups (d : db) : list (option string * Z) :=
  let rows := map_to_list (products d) in
  map
    (fun c => (c, len (filter (fun kv => Products.category_type kv.2 = c) rows)))
    (merge_sort by_text
       (remove_dups (map (fun kv => Products.category_type kv.2) rows))).

(** [row['category_type'] or 'uncategorized']. *)
Definition summary_key (category_type : option string) : string :=
  if truthy_str category_type then default ""%string category_type
  else "uncategorized"%string.

(** [get_category_summary()]: a later group with the key of an earlier one
    replaces its count. *)
Definition get_category_summary (d : db) : gmap string Z :=
  fold_left
    (fun (result : gmap string Z) g => <[summary_key g.1 := g.2]> result)
    (category_groups d) ∅.
End Categories.


(* ===================================================================== *)
(** * statistics.py *)
(* ===================================================================== *)

Module Statistics.

Record ConsumptionRate := mk_rate {
  days_between : option Q;
  std_dev : Q;
  confidence : Q;
  sample_size : Z
}.

(** What [update_product_stats] returns: the dict of the early return, or
    the dict of the recomputed statistics ([confidence] is in the dict and
    not in the table). *)
Inductive StatsResult :=
| NoEvents (product_id : string)
| Updated (product_id : string) (stats : ProductStatistics.row) (confidence : Q).

(** The dict of [get_product_statistics]: the row of [product_statistics]
    with [description], [category_type] and [category_override] of the
    product ([LEFT JOIN]); of its keys, those the predictor reads. *)
Record StatsDict := mk_dict {
  total_purchases : Z;
  avg_days_between_purchases : option Q;
  std_dev_days : option Q;
  last_purchase_date : option string;
  description : option string;
  category_type : option string;
  category_override : option Z
}.

Section WithRuntime.
Context `{Runtime}.

Definition _parse_date (date_str : string) : option datetime :=
  match date_str with
  | EmptyString => None
  | _ =>
      if contains_char "T" date_str
      then fromisoformat (replace_char "Z" "+00:00" date_str)
      else strptime_ymd date_str
  end.

(** The loop [for i in range(1, len(purchase_events))], with
    [prev = purchase_events[i - 1]] and [rest = purchase_events[i:]]. *)
Fixpoint intervals_from (prev : PurchaseEvents.row)
    (rest : list PurchaseEvents.row) : list Z :=
  match rest with
  | [] => []
  | curr :: rest' =>
      match _parse_date (PurchaseEvents.event_date prev),
            _parse_date (PurchaseEvents.event_date curr) with
      | Some prev_date, Some curr_date =>
          let days := td_days (curr_date - prev_date) in
          if 0 <? days then days :: intervals_from curr rest'
          else intervals_from curr rest'
      | _, _ => intervals_from curr rest'
      end
  end.

Definition intervals (purchase_events : list PurchaseEvents.row) : list Z :=
  match purchase_events with
  | [] => []
  | first :: rest => intervals_from first rest
  end.

(** [[0.5 ** i for i in range(n)]], reversed. *)
Definition weights (n : nat) : list Q :=
  rev (map (fun i => 0.5 ^ Z.of_nat i)%Q (seq 0 n)).

Definition ewma_of (intervals : list Z) : Q :=
  let weights := weights (length intervals) in
  (fsum (zip_with (fun w v => w * float v)%Q weights intervals) / fsum weights)%Q.

Definition calculate_consumption_rate
    (purchase_events : list PurchaseEvents.row) : ConsumptionRate :=
  if len purchase_events <? 2 then
    mk_rate None 0.0 0.0 (len purchase_events)
  else
    let intervals := intervals purchase_events in
    match intervals with
    | [] => mk_rate None 0.0 0.0 (len purchase_events)
    | _ =>
        let ewma := ewma_of intervals in
        let std_dev := if 1 <? len intervals then stdev intervals else 0.0%Q in
        let data_confidence := Qmin 1.0 (float (len intervals) / 10)%Q in
        let consistency :=
          if Qltb 0 ewma then (1 - Qmin 1.0 (std_dev / ewma))%Q else 0.0%Q in
        let confidence := (data_confidence * consistency)%Q in
        mk_rate (Some ewma) std_dev confidence (len intervals)
    end.

(** [SELECT * FROM purchase_events WHERE product_id = ? AND event_type IN
    ('order_placed', 'pantry_depleted') ORDER BY event_date ASC]. *)
Definition qualifying (product_id : string) (e : PurchaseEvents.row) : bool :=
  String.eqb (PurchaseEvents.product_id e) product_id
  && (String.eqb (PurchaseEvents.event_type e) "order_placed"
      || String.eqb (PurchaseEvents.event_type e) "pantry_depleted").

Definition by_event_date (a b : PurchaseEvents.row) : Prop :=
  String.leb (PurchaseEvents.event_date a) (PurchaseEvents.event_date b) = true.

#[export] Instance by_event_date_dec : RelDecision by_event_date :=
  fun a b =>
    decide (String.leb (PurchaseEvents.event_date a) (PurchaseEvents.event_date b) = true).

Definition qualifying_events (product_id : string) (d : db)
  : list PurchaseEvents.row :=
  merge_sort by_event_date
    (filter (fun e => qualifying product_id e = true) (purchase_events d)).

(** The statistics computed from the events of the query (not empty):
    the values of the upsert, stamped [now]. *)
Definition compute_stats (config : Config.PredictionConfig) (now : datetime)
    (events : list PurchaseEvents.row) : ProductStatistics.row * Q :=
  let total_purchases := len events in
  let total_quantity := isum (map PurchaseEvents.quantity events) in
  let avg_quantity :=
    if 0 <? total_purchases
    then (float total_quantity / float total_purchases)%Q else 0%Q in
  let consumption := calculate_consumption_rate events in
  let first_date := default ""%string (PurchaseEvents.event_date <$> head events) in
  let last_date := default ""%string (PurchaseEvents.event_date <$> last events) in
  let frequency_score :=
    match days_between consumption with
    | Some db =>
        if negb (Qeqb0 db) && Qltb 0 db then (1.0 / db)%Q else 0.0%Q
    | None => 0.0%Q
    end in
  let seasonality := Seasonal.calculate_seasonality_score events in
  let detected_cat :=
    Categories.detect_category config (days_between consumption)
      seasonality total_purchases in
  (ProductStatistics.mk total_purchases total_quantity avg_quantity
     (days_between consumption) (std_dev consumption) last_date first_date
     frequency_score seasonality detected_cat (isoformat now),
   confidence consumption).

(** [update_product_stats(product_id)] at the time [now].  The upsert
    inserts a row, which needs the product it references, or updates the
    row of the product in place; until the commit nothing is written. *)
Definition update_product_stats (config : Config.PredictionConfig)
    (now : datetime) (product_id : string) (d : db)
  : db * outcome StatsResult :=
  let events := qualifying_events product_id d in
  match events with
  | [] => (d, Returned (NoEvents product_id))
  | _ =>
      let '(row, confidence) := compute_stats config now events in
      if bool_decide (is_Some (product_statistics d !! product_id))
         || references_product d product_id
      then
        (set_product_statistics d (<[product_id := row]> (product_statistics d)),
         Returned (Updated product_id row confidence))
      else (d, Raised IntegrityError)
  end.

Definition get_product_statistics (product_id : string) (d : db)
  : option StatsDict :=
  match product_statistics d !! product_id with
  | None => None
  | Some ps =>
      let p := products d !! product_id in
      Some
        (mk_dict (ProductStatistics.total_purchases ps)
           (ProductStatistics.avg_days_between_purchases ps)
           (Some (ProductStatistics.std_dev_days ps))
           (Some (ProductStatistics.last_purchase_date ps))
           (p ≫= Products.description)
           (p ≫= Products.category_type)
           (p ≫= Products.category_override))
  end.

(** What [update_all_product_stats] returns. *)
Record UpdateAllResult := mk_all {
  updated_count : Z;
  updated_products : list StatsResult
}.

(** The loop of [update_all_product_stats] from its [i]-th iteration on,
    with the [results] so far; [now i] is the clock of the [i]-th call of
    [update_product_stats].  An exception of a call ends the loop; what
    the calls before it committed stays. *)
Fixpoint update_all_from (config : Config.PredictionConfig) (now : nat -> datetime)
    (i : nat) (product_ids : list string) (results : list StatsResult) (d : db)
  : db * outcome UpdateAllResult :=
  match product_ids with
  | [] => (d, Returned (mk_all (len results) results))
  | product_id :: rest =>
      match update_product_stats config (now i) product_id d with
      | (d', Returned result) =>
          update_all_from config now (S i) rest (results ++ [result]) d'
      | (d', Raised e) => (d', Raised e)
      end
  end.

(** [update_all_product_stats(product_ids)]. *)
Definition update_all_product_stats (config : Config.PredictionConfig)
    (now : nat -> datetime) (product_ids : list string) (d : db)
  : db * outcome UpdateAllResult :=
  update_all_from config now 0 product_ids [] d.

(** [ORDER BY ps.last_purchase_date DESC]. *)
Definition by_last_purchase_desc (a b : string * ProductStatistics.row) : Prop :=
  String.leb (ProductStatistics.last_purchase_date b.2)
    (ProductStatistics.last_purchase_date a.2) = true.

#[export] Instance by_last_purchase_desc_dec : RelDecision by_last_purchase_desc :=
  fun a b =>
    decide (String.leb (ProductStatistics.last_purchase_date b.2)
              (ProductStatistics.last_purchase_date a.2) = true).

(** [get_all_product_statistics()]: the dict of every row of
    [product_statistics], with the [product_id] it holds. *)
Definition get_all_product_statistics (d : db) : list (string * StatsDict) :=
  map
    (fun kv =>
       let p := products d !! kv.1 in
       (kv.1,
        mk_dict (ProductStatistics.total_purchases kv.2)
          (ProductStatistics.avg_days_between_purchases kv.2)
          (Some (ProductStatistics.std_dev_days kv.2))
          (Some (ProductStatistics.last_purchase_date kv.2))
          (p ≫= Products.description)
          (p ≫= Products.category_type)
          (p ≫= Products.category_override)))
    (merge_sort by_last_purchase_desc (map_to_list (product_statistics d))).
End WithRuntime.

End Statistics.


(* ===================================================================== *)
(** * predictions.py *)
(* ===================================================================== *)

Module Predictions.

Record RepurchasePrediction := mk_prediction {
  product_id : string;
  description : option string;
  category : option string;
  predicted_date : option datetime;
  days_until : option Z;
  urgency : Q;
  urgency_label : string;
  confidence : Q;
  last_purchase_date : option string;
  avg_days_between : option Q
}.

Definition get_urgency_label (urgency : Q) : string :=
  if Qle_bool 0.9 urgency then "critical"
  else if Qle_bool 0.7 urgency then "high"
  else if Qle_bool 0.4 urgency then "medium"
  else "low".

(** [category == c]. *)
Definition category_is (category : option string) (c : string) : bool :=
  match category with
  | Some s => String.eqb s c
  | None => false
  end.

(** The multiplier of the safety buffer chosen from the category. *)
Definition buffer_multiplier (category : option string) : Q :=
  if category_is category "routine" then 1.0%Q
  else if category_is category "regular" then 0.5%Q
  else 0.0%Q.

(** The urgency computed from [days_until], with the boost of routine
    items, before it is rounded into the result. *)
Definition urgency_of (days_until : Z) (category : option string) : Q :=
  let urgency :=
    if days_until <? 0 then 1.0%Q
    else if days_until =? 0 then 0.9%Q
    else if days_until <=? 14 then (1 - float days_until / 14)%Q
    else 0.0%Q in
  if category_is category "routine" && Qltb 0 urgency
  then Qmin 1.0 (urgency * 1.2)%Q
  else urgency.

(** The confidence computed from the number of purchases and the spread,
    before it is rounded into the result. *)
Definition confidence_of (total_purchases : Z) (avg_days std_dev : Q) : Q :=
  let data_confidence := Qmin 1.0 (float total_purchases / 10)%Q in
  let consistency :=
    if Qltb 0 avg_days then (1 - Qmin 1.0 (std_dev / avg_days))%Q else 0.0%Q in
  (data_confidence * consistency)%Q.

Section WithRuntime.
Context `{Runtime}.

(** The [try] block that parses [last_date_str], when its result is a
    naive [datetime]. *)
Definition parse_last_date (last_date_str : string) : option datetime :=
  if contains_char "T" last_date_str
  then fromisoformat (replace_char "Z" "+00:00" last_date_str)
  else strptime_ymd last_date_str.

(** The same, when its result is an aware [datetime]: of a string with a
    ['T'] that ends in ['Z'] or in a UTC offset. *)
Definition parse_last_date_aware (last_date_str : string) : option datetime :=
  if contains_char "T" last_date_str
  then fromisoformat_aware (replace_char "Z" "+00:00" last_date_str)
  else None.

(** The statistics the predictor works on: the argument, or the row of
    the product when the argument is [None]. *)
Definition effective_stats (product_id : string)
    (stats : option Statistics.StatsDict) (d : db) : option Statistics.StatsDict :=
  match stats with
  | None => Statistics.get_product_statistics product_id d
  | Some _ => stats
  end.

(** [last_date + timedelta(days=avg_days) - timedelta(days=buffer_days)],
    evaluated in this order. *)
Definition predicted_date_of (last_date : datetime) (avg_days std_dev : Q)
    (category : option string) : outcome datetime :=
  try! interval := timedelta_new_days avg_days in
  try! base_prediction := datetime_add last_date interval in
  let buffer_days := (std_dev * buffer_multiplier category)%Q in
  try! buffer := timedelta_new_days buffer_days in
  datetime_sub base_prediction buffer.

(** [predict_repurchase_date(product_id, stats)] at the time [now].  The
    arithmetic on the dates is outside the [try]: its [OverflowError]
    leaves the call, and so does the [TypeError] of [predicted_date - now]
    when the last purchase date is aware. *)
Definition predict_repurchase_date (now : datetime) (product_id : string)
    (stats : option Statistics.StatsDict) (d : db)
  : outcome RepurchasePrediction :=
  let stats := effective_stats product_id stats d in
  match stats with
  | None =>
      Returned
        (mk_prediction product_id None (Some "uncategorized"%string) None None
           0.0 "low" 0.0 None None)
  | Some stats =>
      if Statistics.total_purchases stats <? 2 then
        Returned
          (mk_prediction product_id (Statistics.description stats)
             (Statistics.category_type stats) None None 0.0 "low" 0.0 None None)
      else
        let avg_days := Statistics.avg_days_between_purchases stats in
        let std_dev :=
          if truthy_float (Statistics.std_dev_days stats)
          then default 0%Q (Statistics.std_dev_days stats) else 0%Q in
        let last_date_str := Statistics.last_purchase_date stats in
        let category := Statistics.category_type stats in
        let description := Statistics.description stats in
        let no_prediction :=
          mk_prediction product_id description category None None
            0.0 "low" 0.0 last_date_str avg_days in
        match avg_days, last_date_str with
        | Some avg, Some last_str =>
            if negb (truthy_float avg_days) || negb (truthy_str last_date_str)
            then Returned no_prediction
            else
              match parse_last_date last_str, parse_last_date_aware last_str with
              | Some last_date, _ =>
                  try! predicted_date :=
                    predicted_date_of last_date avg std_dev category in
                  let days_until := td_days (predicted_date - now) in
                  let urgency := urgency_of days_until category in
                  let confidence :=
                    confidence_of (Statistics.total_purchases stats) avg std_dev in
                  Returned
                    (mk_prediction product_id description category
                       (Some predicted_date) (Some days_until)
                       (round_ndigits urgency 2) (get_urgency_label urgency)
                       (round_ndigits confidence 2) last_date_str
                       (Some (round_ndigits avg 1)))
              | None, Some last_date =>
                  try! predicted_date :=
                    predicted_date_of last_date avg std_dev category in
                  Raised TypeError
              | None, None => Returned no_prediction
              end
        | _, _ => Returned no_prediction
        end
  end.

(** A dict of the query of [get_predictions_for_period]: a row of
    [product_statistics] with [description] and [category_type] of its
    product. *)
Definition period_dict (ps : ProductStatistics.row) (p : Products.row)
  : Statistics.StatsDict :=
  Statistics.mk_dict (ProductStatistics.total_purchases ps)
    (ProductStatistics.avg_days_between_purchases ps)
    (Some (ProductStatistics.std_dev_days ps))
    (Some (ProductStatistics.last_purchase_date ps))
    (Products.description p) (Products.category_type p) None.

(** The dicts of the query of [get_predictions_for_period]: the rows of
    [product_statistics] with at least 2 purchases whose product exists
    ([JOIN]) and, when a filter is given, has the category of the
    filter. *)
Definition period_rows (category_filter : option string) (d : db)
  : list (string * Statistics.StatsDict) :=
  omap
    (fun kv : string * ProductStatistics.row =>
       match products d !! kv.1 with
       | Some p =>
           if (2 <=? ProductStatistics.total_purchases kv.2)
              && (negb (truthy_str category_filter)
                  || category_is (Products.category_type p)
                       (default ""%string category_filter))
           then Some (kv.1, period_dict kv.2 p)
           else None
       | None => None
       end)
    (map_to_list (product_statistics d)).

(** The filters of the loop of [get_predictions_for_period]: the
    prediction is kept. *)
Definition in_period (days_ahead : Z) (min_confidence : Q) (include_overdue : bool)
    (pred : RepurchasePrediction) : bool :=
  negb (Qltb (confidence pred) min_confidence)
  && match days_until pred with
     | None => false
     | Some days_until =>
         negb (negb include_overdue && (days_until <? 0))
         && negb (days_ahead <? days_until)
     end.

(** [sort(key=lambda p: p.urgency, reverse=True)]. *)
Definition by_urgency (a b : RepurchasePrediction) : Prop :=
  Qle_bool (urgency b) (urgency a) = true.

#[export] Instance by_urgency_dec : RelDecision by_urgency :=
  fun a b => decide (Qle_bool (urgency b) (urgency a) = true).

(** [get_predictions_for_period(days_ahead, category_filter,
    min_confidence, include_overdue)]; [now product_id] is the clock when
    the product is predicted.  A prediction that raises ends the call. *)
Definition get_predictions_for_period (now : string -> datetime) (days_ahead : Z)
    (category_filter : option string) (min_confidence : Q)
    (include_overdue : bool) (d : db) : outcome (list RepurchasePrediction) :=
  try! predictions :=
    map_outcome (fun kv => predict_repurchase_date (now kv.1) kv.1 (Some kv.2) d)
      (period_rows category_filter d) in
  Returned
    (merge_sort by_urgency
       (filter
          (fun pred =>
             in_period days_ahead min_confidence include_overdue pred = true)
          predictions)).

(** [p.days_until is not None and p.days_until < 0]. *)
Definition overdue (pred : RepurchasePrediction) : bool :=
  match days_until pred with
  | Some days_until => days_until <? 0
  | None => false
  end.

(** [get_overdue_items(category_filter)]. *)
Definition get_overdue_items (now : string -> datetime)
    (category_filter : option string) (d : db)
  : outcome (list RepurchasePrediction) :=
  try! predictions := get_predictions_for_period now 0 category_filter 0.0 true d in
  Returned (filter (fun pred => overdue pred = true) predictions).
End WithRuntime.

End Predictions.

(* ===================================================================== *)
(** * pantry.py *)
(* ===================================================================== *)

Module Pantry.

Record RestockResult := mk_restock {
  restock_product_id : string;
  restock_description : option string;
  restock_level_percent : Z;
  restock_daily_depletion_rate : Q;
  restocked_at : string
}.

(** What [update_pantry_level] returns: the error dict, or the dict of the
    update, with [depletion_recorded] when the event was recorded. *)
Inductive UpdateResult :=
| NotInPantry (product_id : string)
| LevelUpdated (product_id : string) (level_percent : Z) (updated_at : string)
    (depletion_recorded : bool).

Record PantryStatus := mk_status {
  product_id : string;
  description : option string;
  level_percent : Z;
  status : string;
  days_until_empty : option Q;
  last_restocked : option string;
  low_threshold : Z;
  auto_deplete : bool;
  daily_depletion_rate : Q
}.

Record AddResult := mk_add {
  add_product_id : string;
  add_description : option string;
  add_level_percent : Z;
  add_low_threshold : Z;
  add_auto_deplete : bool
}.

(** What [remove_from_pantry] returns: the dict of the removal, or the
    error dict. *)
Inductive RemoveResult :=
| Removed (product_id : string)
| NotFound (product_id : string).

Record DepletionSummary := mk_summary {
  depletion_success : bool;
  items_updated : Z;
  depletion_updated_at : string
}.

Definition calculate_depletion_rate (product_id : string) (d : db) : Q :=
  match product_statistics d !! product_id with
  | Some row =>
      match ProductStatistics.avg_days_between_purchases row with
      | Some avg_days =>
          if negb (Qeqb0 avg_days) && Qltb 0 avg_days
          then (100.0 / avg_days)%Q else 0.0%Q
      | None => 0.0%Q
      end
  | None => 0.0%Q
  end.

(** [max(0, min(100, level))]. *)
Definition clamp_level (level : Z) : Z := Z.max 0 (Z.min 100 level).

(** The description a pantry call stores: the argument, or the one of the
    product when the argument is [None] or empty. *)
Definition description_or_product (description : option string)
    (product_id : string) (d : db) : option string :=
  if truthy_str description then description
  else
    match products d !! product_id with
    | Some row => Products.description row
    | None => None
    end.

(** [restock_item(product_id, level, description)] at the time [now].  The
    upsert inserts a row, which needs the product it references, or
    updates the row of the product in place. *)
Definition restock_item (now : datetime) (product_id : string) (level : Z)
    (description : option string) (d : db) : db * outcome RestockResult :=
  let level := clamp_level level in
  let now := isoformat now in
  let depletion_rate := calculate_depletion_rate product_id d in
  let description := description_or_product description product_id d in
  let result :=
    Returned (mk_restock product_id description level
                (round_ndigits depletion_rate 2) now) in
  match pantry_items d !! product_id with
  | Some old =>
      let row :=
        PantryItems.mk
          (match description with
           | Some _ => description
           | None => PantryItems.description old
           end)
          level (Some now) (Some now) (PantryItems.auto_deplete old)
          (Some depletion_rate) (PantryItems.low_threshold old) in
      (set_pantry_items d (<[product_id := row]> (pantry_items d)), result)
  | None =>
      if references_product d product_id then
        let row :=
          PantryItems.mk description level (Some now) (Some now) (Some 1)
            (Some depletion_rate) 20 in
        (set_pantry_items d (<[product_id := row]> (pantry_items d)), result)
      else (d, Raised IntegrityError)
  end.

(** [add_to_pantry(product_id, description, level, low_threshold,
    auto_deplete)] at the time [now].  The upsert inserts a row, which
    needs the product it references, or updates [description],
    [low_threshold] and [auto_deplete] of the row of the product and no
    other column. *)
Definition add_to_pantry (now : datetime) (product_id : string)
    (description : option string) (level low_threshold : Z) (auto_deplete : bool)
    (d : db) : db * outcome AddResult :=
  let level := clamp_level level in
  let now := isoformat now in
  let depletion_rate :=
    if auto_deplete then calculate_depletion_rate product_id d else 0%Q in
  let description := description_or_product description product_id d in
  let flag := if auto_deplete then 1 else 0 in
  let result :=
    Returned (mk_add product_id description level low_threshold auto_deplete) in
  match pantry_items d !! product_id with
  | Some old =>
      let row :=
        PantryItems.mk
          (match description with
           | Some _ => description
           | None => PantryItems.description old
           end)
          (PantryItems.level_percent old) (PantryItems.last_restocked_at old)
          (PantryItems.last_updated_at old) (Some flag)
          (PantryItems.daily_depletion_rate old) low_threshold in
      (set_pantry_items d (<[product_id := row]> (pantry_items d)), result)
  | None =>
      if references_product d product_id then
        let row :=
          PantryItems.mk description level (Some now) (Some now) (Some flag)
            (Some depletion_rate) low_threshold in
        (set_pantry_items d (<[product_id := row]> (pantry_items d)), result)
      else (d, Raised IntegrityError)
  end.

(** [remove_from_pantry(product_id)]. *)
Definition remove_from_pantry (product_id : string) (d : db) : db * RemoveResult :=
  match pantry_items d !! product_id with
  | Some _ =>
      (set_pantry_items d (delete product_id (pantry_items d)), Removed product_id)
  | None => (d, NotFound product_id)
  end.

Section WithRuntime.
Context `{Runtime}.

(** [_record_depletion_event(product_id, last_restocked_at, depleted_at)];
    [now_stats] is the clock when the statistics are recomputed.  An
    exception raised inside is caught and makes the result [False]; what
    was committed before it stays. *)
Definition _record_depletion_event (config : Config.PredictionConfig)
    (now_stats : datetime) (product_id : string) (last_restocked_at : string)
    (depleted_at : string) (d : db) : db * bool :=
  if references_product d product_id then
    let event :=
      PurchaseEvents.mk product_id 1 "pantry_depleted" (prefix 10 depleted_at)
        depleted_at in
    let d1 := set_purchase_events d (purchase_events d ++ [event]) in
    match Statistics.update_product_stats config now_stats product_id d1 with
    | (d2, Returned _) =>
        let new_rate := calculate_depletion_rate product_id d2 in
        let pantry' :=
          alter
            (fun row =>
               PantryItems.mk (PantryItems.description row)
                 (PantryItems.level_percent row)
                 (PantryItems.last_restocked_at row)
                 (PantryItems.last_updated_at row)
                 (PantryItems.auto_deplete row) (Some new_rate)
                 (PantryItems.low_threshold row))
            product_id (pantry_items d2) in
        (set_pantry_items d2 pantry', true)
    | (d2, Raised _) => (d2, false)
    end
  else (d, false).

(** [update_pantry_level(product_id, level)] at the time [now]. *)
Definition update_pantry_level (config : Config.PredictionConfig)
    (now now_stats : datetime) (product_id : string) (level : Z) (d : db)
  : db * UpdateResult :=
  let level := clamp_level level in
  let now_str := isoformat now in
  match pantry_items d !! product_id with
  | None => (d, NotInPantry product_id)
  | Some row =>
      let previous_level := PantryItems.level_percent row in
      let last_restocked := PantryItems.last_restocked_at row in
      let '(d1, depletion_recorded) :=
        if (level <=? 5) && (5 <? previous_level) && truthy_str last_restocked
        then
          _record_depletion_event config now_stats product_id
            (default ""%string last_restocked) now_str d
        else (d, false) in
      let pantry' :=
        alter
          (fun row =>
             PantryItems.mk (PantryItems.description row) level
               (PantryItems.last_restocked_at row) (Some now_str)
               (PantryItems.auto_deplete row)
               (PantryItems.daily_depletion_rate row)
               (PantryItems.low_threshold row))
          product_id (pantry_items d1) in
      (set_pantry_items d1 pantry',
       LevelUpdated product_id level now_str depletion_recorded)
  end.

(** The level a status read estimates for a row: the stored level, less
    the depletion since [last_updated_at] when depletion applies.  The
    code computes it in floating point; it is exact here.  A
    [last_updated_at] that parses to an aware [datetime] is one that
    [fromisoformat] does not parse: the [TypeError] of the difference is
    caught, as the [ValueError] is. *)
Definition current_level (apply_depletion : bool) (now : datetime)
    (item : PantryItems.row) : Q :=
  let level := float (PantryItems.level_percent item) in
  if apply_depletion && truthy_int (PantryItems.auto_deplete item)
     && truthy_float (PantryItems.daily_depletion_rate item)
  then
    let last_updated := PantryItems.last_updated_at item in
    if truthy_str last_updated then
      match fromisoformat (default ""%string last_updated) with
      | Some last_dt =>
          let days_elapsed := (td_total_seconds (now - last_dt) / 86400)%Q in
          let depletion :=
            (days_elapsed * default 0 (PantryItems.daily_depletion_rate item))%Q in
          Qmax 0 (level - depletion)%Q
      | None => level
      end
    else level
  else level.

(** The body of the loop of [get_pantry_status]: the status of one row. *)
Definition pantry_status (apply_depletion : bool) (now : datetime)
    (product_id : string) (item : PantryItems.row) : PantryStatus :=
  let level := current_level apply_depletion now item in
  let rate := PantryItems.daily_depletion_rate item in
  let days_until_empty :=
    if truthy_float rate && Qltb 0 (default 0%Q rate)
    then Some (round_ndigits (level / default 0 rate)%Q 1) else None in
  let status :=
    if Qle_bool level 0 then "out"
    else if Qle_bool level (float (PantryItems.low_threshold item)) then "low"
    else "ok" in
  mk_status product_id (PantryItems.description item) (round level) status
    days_until_empty (PantryItems.last_restocked_at item)
    (PantryItems.low_threshold item) (truthy_int (PantryItems.auto_deplete item))
    (if truthy_float rate then round_ndigits (default 0%Q rate) 2 else 0%Q).

(** [ORDER BY level_percent ASC]. *)
Definition by_level (a b : string * PantryItems.row) : Prop :=
  PantryItems.level_percent a.2 <= PantryItems.level_percent b.2.

#[export] Instance by_level_dec : RelDecision by_level :=
  fun a b => decide (PantryItems.level_percent a.2 <= PantryItems.level_percent b.2).

(** [get_pantry_status(apply_depletion)] at the time [now]: it reads the
    table and writes nothing. *)
Definition get_pantry_status (apply_depletion : bool) (now : datetime) (d : db)
  : list PantryStatus :=
  map (fun kv => pantry_status apply_depletion now kv.1 kv.2)
    (merge_sort by_level (map_to_list (pantry_items d))).

(** [get_pantry_item(product_id)]. *)
Definition get_pantry_item (now : datetime) (product_id : string) (d : db)
  : option PantryStatus :=
  find (fun item => String.eqb (Pantry.product_id item) product_id)
    (get_pantry_status true now d).

(** [get_low_inventory_items(threshold)] at the time [now]. *)
Definition get_low_inventory_items (threshold : option Z) (now : datetime) (d : db)
  : list PantryStatus :=
  filter
    (fun item => level_percent item <= default (low_threshold item) threshold)
    (get_pantry_status true now d).

(** The rows of the query of [apply_daily_depletion]:
    [WHERE auto_deplete = 1 AND daily_depletion_rate > 0]. *)
Definition depleting (item : PantryItems.row) : bool :=
  match PantryItems.auto_deplete item, PantryItems.daily_depletion_rate item with
  | Some flag, Some rate => (flag =? 1) && Qltb 0 rate
  | _, _ => false
  end.

(** The body of the loop of [apply_daily_depletion] on a row of the query:
    the row that the [UPDATE] leaves, [None] when the iteration skips the
    row. *)
Definition depleted_row (now : datetime) (item : PantryItems.row)
  : option PantryItems.row :=
  let last_updated := PantryItems.last_updated_at item in
  if truthy_str last_updated then
    match fromisoformat (default ""%string last_updated) with
    | Some last_dt =>
        let days_elapsed := (td_total_seconds (now - last_dt) / 86400)%Q in
        if Qltb days_elapsed 0.01 then None
        else
          let depletion :=
            (days_elapsed * default 0 (PantryItems.daily_depletion_rate item))%Q in
          let new_level :=
            Qmax 0 (float (PantryItems.level_percent item) - depletion)%Q in
          Some
            (PantryItems.mk (PantryItems.description item) (round new_level)
               (PantryItems.last_restocked_at item) (Some (isoformat now))
               (PantryItems.auto_deplete item)
               (PantryItems.daily_depletion_rate item)
               (PantryItems.low_threshold item))
    | None => None
    end
  else None.

(** What [apply_daily_depletion] does to a row of the table. *)
Definition depletion_update (now : datetime) (item : PantryItems.row)
  : option PantryItems.row :=
  if depleting item then depleted_row now item else None.

(** [apply_daily_depletion()] at the time [now].  Every iteration updates
    the one row it was read from. *)
Definition apply_daily_depletion (now : datetime) (d : db)
  : db * DepletionSummary :=
  let pantry' :=
    (fun item => default item (depletion_update now item)) <$> pantry_items d in
  let updated_count :=
    len (filter (fun kv => is_Some (depletion_update now kv.2))
           (map_to_list (pantry_items d))) in
  (set_pantry_items d pantry', mk_summary true updated_count (isoformat now)).
End WithRuntime.

End Pantry.

(* ===================================================================== *)
(** * purchase_tracker.py *)
(* ===================================================================== *)

Module PurchaseTracker.

(** An item of [cart_items], which is also the [product_details] of its
    product: a dict, [None] for a key it lacks.  Of its keys, those that
    reach a modelled column. *)
Record CartItem := mk_item {
  product_id : option string;
  quantity : option Z;
  description : option string
}.

(** [orders], in the order of their row ids; of its columns, those
    [record_order] gives a value. *)
Record Order := mk_order {
  placed_at : string;
  item_count : Z;
  total_quantity : Z;
  notes : option string
}.

(** What [record_order] does: it returns the id of the order, or an
    [sqlite3.OperationalError] ('database is locked') leaves it. *)
Inductive OrderResult :=
| Recorded (order_id : Z)
| DatabaseLocked.

(** [ensure_product_exists(product_id, product_details)] at the time
    [now]; [description] is [product_details.get('description')], [None]
    without [product_details], and [current_timestamp] is SQLite's
    [CURRENT_TIMESTAMP].  The columns [upc], [brand] and
    [first_purchased_at] of the inserted row are read by no modelled
    function. *)
Definition ensure_product_exists (now : datetime) (current_timestamp : string)
    (product_id : string) (description : option string) (d : db) : db :=
  match products d !! product_id with
  | Some _ => d
  | None =>
      let row :=
        Products.mk description (Some "uncategorized"%string) (Some 0)
          (Some (isoformat now)) (Some current_timestamp) in
      set_products d (<[product_id := row]> (products d))
  end.

(** [cursor.lastrowid] after an [INSERT] into a table with [rows]: rows
    are never deleted from [purchase_events] and [orders], so the ids are
    1, 2, ... in the order of the rows. *)
Definition lastrowid {A} (rows : list A) : Z := len rows + 1.

(** [record_cart_add(product_id, quantity, modality, product_details,
    price)]; [now_product] is the clock of [ensure_product_exists] and
    [now] the one of the event. *)
Definition record_cart_add (now_product now : datetime) (current_timestamp : string)
    (product_id : string) (quantity : Z) (description : option string) (d : db)
  : db * Z :=
  let d1 := ensure_product_exists now_product current_timestamp product_id description d in
  let event :=
    PurchaseEvents.mk product_id quantity "cart_add" (date_str now) (isoformat now) in
  (set_purchase_events d1 (purchase_events d1 ++ [event]),
   lastrowid (purchase_events d1)).

Section WithRuntime.
Context `{Runtime}.

(** The loop of [_restock_pantry_items] from its [i]-th iteration on;
    [now_status i] and [now_restock i] are the clocks of the status read
    and of the restock of the iteration.  An exception ends the loop and
    is dropped. *)
Fixpoint _restock_from (now_status now_restock : nat -> datetime) (i : nat)
    (cart_items : list CartItem) (d : db) : db :=
  match cart_items with
  | [] => d
  | item :: rest =>
      if truthy_str (product_id item) then
        let product_id := default ""%string (product_id item) in
        match Pantry.get_pantry_item (now_status i) product_id d with
        | Some _ =>
            match
              Pantry.restock_item (now_restock i) product_id 100 (description item) d
            with
            | (d', Returned _) => _restock_from now_status now_restock (S i) rest d'
            | (d', Raised _) => d'
            end
        | None => _restock_from now_status now_restock (S i) rest d
        end
      else _restock_from now_status now_restock (S i) rest d
  end.

(** [_restock_pantry_items(cart_items)]. *)
Definition _restock_pantry_items (now_status now_restock : nat -> datetime)
    (cart_items : list CartItem) (d : db) : db :=
  _restock_from now_status now_restock 0 cart_items d.

(** The product of the item is a row of [products]: [ensure_product_exists]
    has nothing to insert. *)
Definition known (d : db) (item : CartItem) : bool :=
  match product_id item with
  | Some product_id => references_product d product_id
  | None => false
  end.

(** The event that [record_order] inserts for an item. *)
Definition order_event (now : datetime) (item : CartItem) : PurchaseEvents.row :=
  PurchaseEvents.mk (default ""%string (product_id item))
    (default 1 (quantity item)) "order_placed" (date_str now) (isoformat now).

(** [record_order(cart_items, order_notes)] at the time [now], on the
    table [orders] and the database.  The order and the events are
    written in one transaction, which holds the write lock of the
    database from the [INSERT] of the order on.  [ensure_product_exists]
    works on a connection of its own: for a product that is missing its
    [INSERT] waits for the lock and gives up with 'database is locked';
    the exception leaves [record_order], whose transaction is rolled
    back. *)
Definition record_order (now : datetime) (now_status now_restock : nat -> datetime)
    (cart_items : list CartItem) (order_notes : option string)
    (orders : list Order) (d : db) : list Order * db * OrderResult :=
  if forallb (known d) cart_items then
    let order :=
      mk_order (isoformat now) (len cart_items)
        (isum (map (fun item => default 1 (quantity item)) cart_items))
        order_notes in
    let d1 :=
      set_purchase_events d (purchase_events d ++ map (order_event now) cart_items) in
    (orders ++ [order],
     _restock_pantry_items now_status now_restock cart_items d1,
     Recorded (lastrowid orders))
  else (orders, d, DatabaseLocked).
End WithRuntime.

End PurchaseTracker.


(* ===================================================================== *)
(** * trend_analysis.py *)
(* ===================================================================== *)

Module TrendAnalysis.

(** [xs[start:]]. *)
Definition slice_from {A} (start : Z) (xs : list A) : list A :=
  let n := len xs in
  let start := if start <? 0 then Z.max 0 (n + start) else Z.min n start in
  drop (Z.to_nat start) xs.

(** [detect_trend(intervals, window)]. *)
Definition detect_trend (intervals : list Q) (window : Z) : string * Q :=
  if len intervals <? 3 then ("stable"%string, 0.0%Q)
  else
    let recent :=
      if window <=? len intervals then slice_from (- window) intervals
      else intervals in
    let n := len recent in
    if n <? 3 then ("stable"%string, 0.0%Q)
    else
      let range_n := map Z.of_nat (seq 0 (length recent)) in
      let sum_x := isum range_n in
      let sum_y := fsum recent in
      let sum_xy := fsum (zip_with (fun i v => float i * v)%Q range_n recent) in
      let sum_x2 := isum (map (fun i => i * i) range_n) in
      let denominator := n * sum_x2 - sum_x * sum_x in
      if denominator =? 0 then ("stable"%string, 0.0%Q)
      else
        let slope :=
          ((float n * sum_xy - float sum_x * sum_y) / float denominator)%Q in
        let mean := if 0 <? n then (sum_y / float n)%Q else 1%Q in
        let normalized_slope := if Qltb 0 mean then (slope / mean)%Q else 0%Q in
        let threshold := 0.05%Q in
        let result :=
          if Qltb threshold normalized_slope then
            ("decreasing"%string, Qmin 1.0 (Qabs normalized_slope / 0.3)%Q)
          else if Qltb normalized_slope (- threshold) then
            ("increasing"%string, Qmin 1.0 (Qabs normalized_slope / 0.3)%Q)
          else ("stable"%string, 0.0%Q) in
        (result.1, round_ndigits result.2 2).

(** [calculate_enhanced_confidence(sample_size, interval_consistency,
    recency_score, quantity_consistency, max_samples)]; [None] when the
    division by [max_samples] raises [ZeroDivisionError]. *)
Definition calculate_enhanced_confidence (sample_size : Z)
    (interval_consistency recency_score quantity_consistency : Q) (max_samples : Z)
  : option Q :=
  if max_samples =? 0 then None
  else
    let data_confidence := Qmin 1.0 (float sample_size / float max_samples)%Q in
    let confidence :=
      (0.35 * data_confidence + 0.30 * interval_consistency
       + 0.20 * recency_score + 0.15 * quantity_consistency)%Q in
    Some (round_ndigits (Qmin 1.0 (Qmax 0.0 confidence)) 2).

(** [predict_with_trend_adjustment(base_prediction_days, trend_direction,
    trend_strength, adjustment_factor)]. *)
Definition predict_with_trend_adjustment (base_prediction_days : Q)
    (trend_direction : string) (trend_strength adjustment_factor : Q) : Q :=
  if String.eqb trend_direction "stable" || Qltb trend_strength 0.2
  then base_prediction_days
  else
    let max_adjustment :=
      (base_prediction_days * adjustment_factor * trend_strength)%Q in
    if String.eqb trend_direction "increasing"
    then (base_prediction_days - max_adjustment)%Q
    else (base_prediction_days + max_adjustment)%Q.

Section WithRuntime.
Context `{Runtime}.

(** The [try] block that parses [last_purchase_date], when its result is
    a naive [datetime]. *)
Definition parse_last_purchase (last_purchase_date : string) : option datetime :=
  if contains_char "T" last_purchase_date
  then fromisoformat (replace_char "Z" "+00:00" last_purchase_date)
  else strptime_ymd last_purchase_date.

(** The same, when its result is an aware [datetime]. *)
Definition parse_last_purchase_aware (last_purchase_date : string)
  : option datetime :=
  if contains_char "T" last_purchase_date
  then fromisoformat_aware (replace_char "Z" "+00:00" last_purchase_date)
  else None.

(** [calculate_recency_score(last_purchase_date)] at the time [now].  The
    difference [datetime.now() - last_date] is after the [try]: for an
    aware [last_date] its [TypeError] leaves the call. *)
Definition calculate_recency_score (now : datetime)
    (last_purchase_date : option string) : outcome Q :=
  if negb (truthy_str last_purchase_date) then Returned 0.0%Q
  else
    let last_purchase_date := default ""%string last_purchase_date in
    match parse_last_purchase last_purchase_date,
          parse_last_purchase_aware last_purchase_date with
    | Some last_date, _ =>
        let days_ago := td_days (now - last_date) in
        if days_ago <=? 0 then Returned 1.0%Q
        else if 180 <=? days_ago then Returned 0.0%Q
        else Returned (1.0 - float days_ago / 180)%Q
    | None, Some _ => Raised TypeError
    | None, None => Returned 0.0%Q
    end.

(** [calculate_quantity_consistency(quantities)]; [variance ** 0.5] is the
    square root of the runtime. *)
Definition calculate_quantity_consistency (quantities : list Z) : Q :=
  if len quantities <? 2 then 0.5%Q
  else
    let mean := mean quantities in
    if Qeqb0 mean then 0.5%Q
    else
      let variance := (sum_sq_dev quantities / float (len quantities))%Q in
      let std_dev := fsqrt variance in
      let cv := (std_dev / mean)%Q in
      let consistency := Qmax 0.0 (1.0 - cv)%Q in
      round_ndigits consistency 2.
End WithRuntime.

End TrendAnalysis.

(* ===================================================================== *)
(** * The specification's own words *)
(* ===================================================================== *)

(** Definitions that follow the wording of the specification, to be
    compared with the code above. *)
Module Spec.

(** The Anonymous Gregorian algorithm for the date of Easter, as it is
    published: the golden number [a], the century [b] and its year [c], the
    epact [h], the weekday correction [l]. *)
Definition anonymous_gregorian_easter (Y : Z) : date :=
  let a := Y mod 19 in
  let '(b, c) := Z.div_eucl Y 100 in
  let '(d, e) := Z.div_eucl b 4 in
  let f := (b + 8) / 25 in
  let g := (b - f + 1) / 3 in
  let h := (19 * a + b - d - g + 15) mod 30 in
  let '(i, k) := Z.div_eucl c 4 in
  let l := (32 + 2 * e + 2 * i - h - k) mod 7 in
  let m := (a + 11 * h + 22 * l) / 451 in
  let '(n, o) := Z.div_eucl (h + l - 7 * m + 114) 31 in
  mk_date Y n (o + 1).

(** [d] is the [n]-th day of the month of [d] that falls on the weekday
    [wd]. *)
Definition nth_weekday_of_month (n wd : Z) (d : date) : bool :=
  (weekday d =? wd)
  && (len (filter (fun k => weekday (mk_date (year d) (month d) k) = wd)
             (map Z.of_nat (seq 1 (Z.to_nat (day d))))) =? n).

(** The whole-day intervals between consecutive dates. *)
Definition consecutive_intervals (ts : list datetime) : list Z :=
  zip_with (fun prev curr => td_days (curr - prev)) ts (tail ts).

(** The same, the non-positive ones discarded. *)
Definition positive_intervals (ts : list datetime) : list Z :=
  filter (fun i => 0 < i) (consecutive_intervals ts).

(** The weight of the interval [i_j] among [n] intervals, oldest first:
    [0.5^(n-j)]. *)
Definition weight (n j : nat) : Q := (0.5 ^ Z.of_nat (n - j))%Q.

(** [i_j], the [j]-th interval, counted from 1. *)
Definition interval (i : list Z) (j : nat) : Q := float (nth (j - 1) i 0).

(** The weighted average of the intervals [i_1..i_n]. *)
Definition weighted_average (i : list Z) : Q :=
  let n := length i in
  (fsum (map (fun j => weight n j * interval i j)%Q (seq 1 n))
   / fsum (map (weight n) (seq 1 n)))%Q.

(** The variance of [xs] with the divisor [divisor]. *)
Definition variance (divisor : Z) (xs : list Z) : Q :=
  let mu := (float (fold_right Z.add 0%Z xs) / float (len xs))%Q in
  (fold_right (fun x acc => (float x - mu) ^ 2 + acc) 0 xs / float divisor)%Q.

(** The sample variance: the divisor is [n - 1]. *)
Definition sample_variance (xs : list Z) : Q := variance (len xs - 1) xs.

(** The population variance: the divisor is [n]. *)
Definition population_variance (xs : list Z) : Q := variance (len xs) xs.

(** The urgency of a prediction due in [days_until] days, before the boost
    of routine items. *)
Definition base_urgency (days_until : Z) (u : Q) : Prop :=
  (days_until < 0 -> (u == 1.0)%Q)
  /\ (days_until = 0 -> (u == 0.9)%Q)
  /\ (1 <= days_until <= 14 -> (u == 1 - float days_until / 14)%Q)
  /\ (14 < days_until -> (u == 0.0)%Q).

(** The level of a pantry item [elapsed_days] after it was stored, at the
    rate [rate] per day. *)
Definition decayed_level (stored_level : Z) (elapsed_days rate : Q) : Q :=
  Qmax 0 (float stored_level - elapsed_days * rate)%Q.

(** Every column of a statistics row but [updated_at]. *)
Definition derived_columns (r : ProductStatistics.row) : ProductStatistics.row :=
  ProductStatistics.mk
    (ProductStatistics.total_purchases r) (ProductStatistics.total_quantity r)
    (ProductStatistics.avg_quantity_per_purchase r)
    (ProductStatistics.avg_days_between_purchases r)
    (ProductStatistics.std_dev_days r) (ProductStatistics.last_purchase_date r)
    (ProductStatistics.first_purchase_date r)
    (ProductStatistics.purchase_frequency_score r)
    (ProductStatistics.seasonality_score r)
    (ProductStatistics.detected_category r) "".

(** The multiplier of the safety buffer for a category: 1.0 for routine,
    0.5 for regular and 0.0 for any other. *)
Definition buffer_multiplier (category : option string) (m : Q) : Prop :=
  (category = Some "routine"%string -> m = 1.0%Q)
  /\ (category = Some "regular"%string -> m = 0.5%Q)
  /\ (category <> Some "routine"%string -> category <> Some "regular"%string ->
      m = 0.0%Q).

(** The date of [t] is in the calendar of [datetime]: in the years 1 to
    9999. *)
Definition in_calendar (t : datetime) : Prop :=
  0 < dt_toordinal t <= _MAXORDINAL.

(** The days of the [timedelta] are in its range. *)
Definition timedelta_in_range (td : timedelta) : Prop :=
  - _MAX_DELTA_DAYS <= td_days td <= _MAX_DELTA_DAYS.

(** The dates of a prediction are in range: the interval and the buffer
    are [timedelta]s, and the last purchase date with the interval, and
    less the buffer, are in the calendar. *)
Definition prediction_in_range (last_date : datetime) (interval buffer : timedelta)
  : Prop :=
  timedelta_in_range interval
  /\ in_calendar (last_date + interval)
  /\ timedelta_in_range buffer
  /\ in_calendar (last_date + interval - buffer).

(** The result of the predictor when it does not predict. *)
Definition no_prediction (r : Predictions.RepurchasePrediction) : Prop :=
  Predictions.predicted_date r = None
  /\ Predictions.days_until r = None
  /\ (Predictions.urgency r == 0)%Q
  /\ (Predictions.confidence r == 0)%Q.

(** The synthetic [pantry_depleted] event of the product, dated [now]. *)
Definition depletion_event (product_id : string) (now : datetime)
  : PurchaseEvents.row :=
  PurchaseEvents.mk product_id 1 "pantry_depleted" (date_str now) (isoformat now).

(** The foreign keys of the schema hold: every row that names a product
    names a row of [products]. *)
Definition foreign_keys_hold (d : db) : Prop :=
  dom (pantry_items d) ⊆ dom (products d)
  /\ dom (product_statistics d) ⊆ dom (products d)
  /\ Forall (fun e => PurchaseEvents.product_id e ∈ dom (products d))
       (purchase_events d).

End Spec.

(* ===================================================================== *)
(** * Notions of the theorems *)
(* ===================================================================== *)

Module Notions.

(** The level that [apply_daily_depletion] computes for a row last updated
    at [last_dt]. *)
Definition depleted_level (now last_dt : Z) (level : Z) (rate : Q) : Q :=
  Qmax 0 (float level - td_total_seconds (now - last_dt) / 86400 * rate)%Q.

(** The number of products whose [category_type] is [category]. *)
Definition products_of_category (d : db) (category : option string) : Z :=
  len (filter (fun kv => Products.category_type kv.2 = category)
         (map_to_list (products d))).

Section WithRuntime.
Context `{Runtime}.

(** What [update_all_product_stats] reports for [product_id] in the
    database [d]. *)
Definition reported (config : Config.PredictionConfig) (d : db)
    (product_id : string) (result : Statistics.StatsResult) : Prop :=
  let events := Statistics.qualifying_events product_id d in
  match result with
  | Statistics.NoEvents id => id = product_id /\ events = []
  | Statistics.Updated id row confidence =>
      id = product_id /\ events <> []
      /\ exists now, row = (Statistics.compute_stats config now events).1
                     /\ confidence = (Statistics.compute_stats config now events).2
  end.

End WithRuntime.

End Notions.

(* ===================================================================== *)
(** * Invariants of the database *)
(* ===================================================================== *)

Module Invariants.

(** Every pantry level is a percentage. *)
Definition levels_in_range (d : db) : Prop :=
  map_Forall
    (fun _ item => 0 <= PantryItems.level_percent item <= 100)
    (pantry_items d).

(** Every product has one of the categories that [set_product_category]
    accepts. *)
Definition categories_valid (d : db) : Prop :=
  map_Forall
    (fun _ row =>
       exists c, Products.category_type row = Some c
                 /\ c ∈ Categories.valid_categories)
    (products d).

End Invariants.

(* ===================================================================== *)
(** * A runtime and sample data *)
(* ===================================================================== *)

(** A runtime to evaluate the code on sample data: its parsers read what
    [isoformat] and [strftime('%Y-%m-%d')] write; its square root is exact
    to six decimal places. *)
Module Reference.

Definition digit_value (c : ascii) : option Z :=
  let n := Z.of_nat (nat_of_ascii c) in
  if (48 <=? n) && (n <=? 57) then Some (n - 48) else None.

(** Reads [k] decimal digits after the value [acc]. *)
Fixpoint digits (k : nat) (acc : Z) (s : string) : option (Z * string) :=
  match k, s with
  | O, _ => Some (acc, s)
  | S k', String c rest =>
      match digit_value c with
      | Some v => digits k' (10 * acc + v) rest
      | None => None
      end
  | S _, EmptyString => None
  end.

Definition expect (c : ascii) (s : string) : option string :=
  match s with
  | String a rest => if Ascii.eqb a c then Some rest else None
  | EmptyString => None
  end.

Definition at_end {A} (s : string) (a : A) : option A :=
  match s with
  | EmptyString => Some a
  | _ => None
  end.

Definition parse_date_part (s : string) : option (Z * Z * Z * string) :=
  '(y, s) ← digits 4 0 s;
  s ← expect "-" s;
  '(m, s) ← digits 2 0 s;
  s ← expect "-" s;
  '(d, s) ← digits 2 0 s;
  match date_new y m d with
  | Returned _ => Some (y, m, d, s)
  | Raised _ => None
  end.

Definition strptime_ymd (s : string) : option datetime :=
  '(y, m, d, rest) ← parse_date_part s;
  at_end rest (datetime_new y m d 0 0 0 0).

Definition fromisoformat (s : string) : option datetime :=
  '(y, m, d, rest) ← parse_date_part s;
  match rest with
  | EmptyString => Some (datetime_new y m d 0 0 0 0)
  | String _ rest =>
      '(hh, rest) ← digits 2 0 rest;
      rest ← expect ":" rest;
      '(mi, rest) ← digits 2 0 rest;
      rest ← expect ":" rest;
      '(ss, rest) ← digits 2 0 rest;
      if (hh <? 24) && (mi <? 60) && (ss <? 60) then
        match rest with
        | EmptyString => Some (datetime_new y m d hh mi ss 0)
        | String c rest =>
            if Ascii.eqb c "." then
              '(us, rest) ← digits 6 0 rest;
              at_end rest (datetime_new y m d hh mi ss us)
            else None
        end
      else None
  end.

(** A UTC offset, [+HH:MM] or [-HH:MM], at the end of the string. *)
Definition parse_offset (s : string) : option unit :=
  match s with
  | String c rest =>
      if Ascii.eqb c "+" || Ascii.eqb c "-" then
        '(hh, rest) ← digits 2 0 rest;
        rest ← expect ":" rest;
        '(mi, rest) ← digits 2 0 rest;
        if (hh <? 24) && (mi <? 60) then at_end rest tt else None
      else None
  | EmptyString => None
  end.

Definition fromisoformat_aware (s : string) : option datetime :=
  match fromisoformat s with
  | Some _ => None
  | None =>
      '(y, m, d, rest) ← parse_date_part s;
      match rest with
      | EmptyString => None
      | String _ rest =>
          '(hh, rest) ← digits 2 0 rest;
          rest ← expect ":" rest;
          '(mi, rest) ← digits 2 0 rest;
          rest ← expect ":" rest;
          '(ss, rest) ← digits 2 0 rest;
          if (hh <? 24) && (mi <? 60) && (ss <? 60) then
            match rest with
            | EmptyString => None
            | String c rest' =>
                if Ascii.eqb c "." then
                  '(us, rest) ← digits 6 0 rest';
                  _ ← parse_offset rest;
                  Some (datetime_new y m d hh mi ss us)
                else
                  _ ← parse_offset rest;
                  Some (datetime_new y m d hh mi ss 0)
            end
          else None
      end
  end.

Lemma fromisoformat_aware_not_naive (s : string) :
  is_Some (fromisoformat_aware s) -> fromisoformat s = None.
Proof.
  unfold fromisoformat_aware. destruct (fromisoformat s); [|reflexivity].
  intros [t Ht]. discriminate.
Qed.

Definition fsqrt (x : Q) : Q :=
  Z.sqrt (Qfloor (x * float (10 ^ 12))) # 10 ^ 6.

Lemma fsqrt_value (x y : Q) : (x == y -> fsqrt x == fsqrt y)%Q.
Proof.
  intros Hxy. unfold fsqrt.
  assert (Qfloor (x * float (10 ^ 12)) = Qfloor (y * float (10 ^ 12))) as ->.
  { apply Qfloor_comp. now rewrite Hxy. }
  reflexivity.
Qed.

Lemma fsqrt_nonneg (x : Q) : (0 <= x -> 0 <= fsqrt x)%Q.
Proof.
  intros _. unfold fsqrt, Qle. cbn [Qnum Qden]. rewrite Z.mul_0_l, Z.mul_1_r.
  apply Z.sqrt_nonneg.
Qed.

Definition runtime : Runtime :=
  {| Py.fsqrt := fsqrt;
     Py.fsqrt_value := fsqrt_value;
     Py.fsqrt_nonneg := fsqrt_nonneg;
     Py.fromisoformat := fromisoformat;
     Py.fromisoformat_empty := eq_refl;
     Py.fromisoformat_aware := fromisoformat_aware;
     Py.fromisoformat_aware_not_naive := fromisoformat_aware_not_naive;
     Py.strptime_ymd := strptime_ymd;
     Py.strptime_ymd_empty := eq_refl |}.

(** ** Sample data *)

(** An order of one unit of [product_id] placed at noon of [date]. *)
Definition order (product_id date : string) : PurchaseEvents.row :=
  PurchaseEvents.mk product_id 1 "order_placed" date (date +:+ "T12:00:00").

(** Four orders 20, 10 and 10 days apart. *)
Definition orders_20_10_10 : list PurchaseEvents.row :=
  [order "milk" "2024-01-01"; order "milk" "2024-01-21";
   order "milk" "2024-01-31"; order "milk" "2024-02-10"].

Definition dates_20_10_10 : list datetime :=
  [datetime_new 2024 1 1 0 0 0 0; datetime_new 2024 1 21 0 0 0 0;
   datetime_new 2024 1 31 0 0 0 0; datetime_new 2024 2 10 0 0 0 0].

(** Three orders 10 and 20 days apart. *)
Definition orders_10_20 : list PurchaseEvents.row :=
  [order "eggs" "2024-01-01"; order "eggs" "2024-01-11"; order "eggs" "2024-01-31"].

Definition dates_10_20 : list datetime :=
  [datetime_new 2024 1 1 0 0 0 0; datetime_new 2024 1 11 0 0 0 0;
   datetime_new 2024 1 31 0 0 0 0].

(** A database with no row. *)
Definition empty_db : db := mk_db ∅ [] ∅ ∅.

(** The statistics of a routine product bought every 7 days, last on
    2024-01-15. *)
Definition stats_weekly : Statistics.StatsDict :=
  Statistics.mk_dict 3 (Some 7.0%Q) (Some 0.0%Q) (Some "2024-01-15"%string)
    (Some "Milk"%string) (Some "routine"%string) (Some 0).


(** A statistics row of a product bought 5 times, every 7 days. *)
Definition weekly_row : ProductStatistics.row :=
  ProductStatistics.mk 5 5 1.0 (Some 7.0%Q) 0.0 "2024-01-29" "2024-01-01"
    (1 # 7) 0.0 "routine" "2024-01-29T12:00:00".

(** Two products, both bought every 7 days and not categorized yet. *)
Definition two_products : db :=
  mk_db
    (<["turkey"%string := Products.mk (Some "Turkey"%string)
                            (Some "uncategorized"%string) (Some 0) None None]>
       (<["milk"%string := Products.mk (Some "Milk"%string)
                             (Some "uncategorized"%string) (Some 0) None None]> ∅))
    []
    (<["turkey"%string := weekly_row]> (<["milk"%string := weekly_row]> ∅))
    ∅.

(** A statistics row of a product bought every 10 days. *)
Definition ten_day_row : ProductStatistics.row :=
  ProductStatistics.mk 4 4 1.0 (Some 10.0%Q) 0.0 "2024-01-31" "2024-01-01"
    0.1 0.0 "routine" "2024-01-31T12:00:00".

Definition milk : Products.row :=
  Products.mk (Some "Milk"%string) (Some "routine"%string) (Some 0) None None.

(** Milk, bought every 10 days and not in the pantry. *)
Definition ten_day_db : db :=
  mk_db (<["milk"%string := milk]> ∅) [] (<["milk"%string := ten_day_row]> ∅) ∅.

(** A pantry row at 100%, updated on 2024-03-01 at 09:00, that loses a
    quarter of a percent a day. *)
Definition slow_item : PantryItems.row :=
  PantryItems.mk (Some "Salt"%string) 100 (Some "2024-03-01T09:00:00"%string)
    (Some "2024-03-01T09:00:00"%string) (Some 1) (Some 0.25%Q) 20.

(** A pantry row at 80%, restocked on 2024-03-01 at 09:00. *)
Definition item_at_80 : PantryItems.row :=
  PantryItems.mk (Some "Milk"%string) 80 (Some "2024-03-01T09:00:00"%string)
    (Some "2024-03-05T09:00:00"%string) (Some 1) (Some 7.0%Q) 20.

(** A pantry row at 80% with auto-depletion switched off. *)
Definition manual_item : PantryItems.row :=
  PantryItems.mk (Some "Flour"%string) 80 (Some "2024-03-01T09:00:00"%string)
    (Some "2024-03-05T09:00:00"%string) (Some 0) (Some 7.0%Q) 20.

(** The row that [restock_item] stores for milk in [ten_day_db] on
    2024-03-01 at 09:00. *)
Definition restocked_item : PantryItems.row :=
  PantryItems.mk (Some "Milk"%string) 100 (Some "2024-03-01T09:00:00"%string)
    (Some "2024-03-01T09:00:00"%string) (Some 1) (Some (100.0 / 10.0)%Q) 20.

(** Milk, ordered three times, in the pantry at 80%. *)
Definition milk_db : db :=
  mk_db (<["milk"%string := milk]> ∅)
    [order "milk" "2024-02-01"; order "milk" "2024-02-15"; order "milk" "2024-03-01"]
    ∅
    (<["milk"%string := item_at_80]> ∅).

(** Milk, ordered on 2024-01-01, 2024-01-08 and 2024-01-15. *)
Definition weekly_orders_db : db :=
  mk_db (<["milk"%string := milk]> ∅)
    [order "milk" "2024-01-01"; order "milk" "2024-01-08"; order "milk" "2024-01-15"]
    ∅ ∅.

End Reference.


(* ===================================================================== *)
(** * Checks over a range of years *)
(* ===================================================================== *)

Module YearCheck.

(** [f] holds of the [n] integers from [lo] on. *)
Fixpoint forall_from (f : Z -> bool) (lo : Z) (n : nat) : bool :=
  match n with
  | O => true
  | S n' => f lo && forall_from f (lo + 1) n'
  end.

Definition date_eqb (a b : date) : bool :=
  (year a =? year b) && (month a =? month b) && (day a =? day b).

(** Thanksgiving of the year [y] is a date of November of [y], and the
    fourth Thursday of its month. *)
Definition thanksgiving_ok (y : Z) : bool :=
  match Seasonal.get_holiday_date "thanksgiving" y with
  | Returned (Some d) =>
      (year d =? y) && (month d =? 11) && Spec.nth_weekday_of_month 4 3 d
  | _ => false
  end.

(** Easter of the year [y] is the date of the published algorithm, a
    Sunday from 22 March to 25 April. *)
Definition easter_ok (y : Z) : bool :=
  match Seasonal.get_holiday_date "easter" y with
  | Returned (Some d) =>
      date_eqb d (Spec.anonymous_gregorian_easter y)
      && (weekday d =? 6)
      && ((month d =? 3) && (22 <=? day d) || (month d =? 4) && (day d <=? 25))
  | _ => false
  end.

(** The day to shop for every holiday of the year [y] is a day of the
    calendar, [days_before] days before the holiday, which is a day of
    [y]. *)
Definition shop_by_ok (y : Z) : bool :=
  forallb
    (fun hp : string * Seasonal.HolidayPattern =>
       match Seasonal.get_holiday_date hp.1 y with
       | Returned (Some holiday_date) =>
           match date_add_days holiday_date (- Seasonal.days_before hp.2) with
           | Returned shop_by_date =>
               (toordinal shop_by_date
                =? toordinal holiday_date - Seasonal.days_before hp.2)
               && (year holiday_date =? y)
           | Raised _ => false
           end
       | _ => false
       end)
    Seasonal.HOLIDAY_PATTERNS.

(** The same holiday of the year after [y] is at least 350 days after the
    one of [y]. *)
Definition next_year_ok (y : Z) : bool :=
  forallb
    (fun hp : string * Seasonal.HolidayPattern =>
       match Seasonal.get_holiday_date hp.1 y,
             Seasonal.get_holiday_date hp.1 (y + 1) with
       | Returned (Some this_year), Returned (Some next_year) =>
           350 <=? toordinal next_year - toordinal this_year
       | _, _ => false
       end)
    Seasonal.HOLIDAY_PATTERNS.

End YearCheck.

(* ===================================================================== *)
(** * Theorems: the Python runtime *)
(* ===================================================================== *)

Section RuntimeFacts.

Lemma Qeqb0_true (q : Q) : Qeqb0 q = true <-> (q == 0)%Q.
Proof.
  unfold Qeqb0, Qeq. cbn. rewrite Z.eqb_eq. lia.
Qed.

Lemma truthy_float_Some (q : Q) : truthy_float (Some q) = true <-> ~ (q == 0)%Q.
Proof.
  cbn. rewrite negb_true_iff, <- not_true_iff_false, Qeqb0_true. reflexivity.
Qed.

Lemma truthy_float_false (x : option Q) :
  truthy_float x = false <-> x = None \/ exists q, x = Some q /\ (q == 0)%Q.
Proof.
  destruct x as [q|]; cbn.
  - rewrite negb_false_iff, Qeqb0_true. split.
    + intros Hq. right. exists q. split; [reflexivity | exact Hq].
    + intros [Hnone | (q' & Hq' & Hzero)]; [discriminate|]. congruence.
  - split; [intros _; left; reflexivity | reflexivity].
Qed.

Lemma truthy_str_Some (s : string) : truthy_str (Some s) = true <-> s <> ""%string.
Proof.
  destruct s; cbn; split; congruence.
Qed.

Lemma truthy_int_false (n : option Z) :
  truthy_int n = false <-> n = None \/ n = Some 0.
Proof.
  destruct n as [n|]; cbn.
  - rewrite negb_false_iff, Z.eqb_eq. split.
    + intros ->. right. reflexivity.
    + intros [Hnone | Hzero]; congruence.
  - split; [intros _; left; reflexivity | reflexivity].
Qed.

Lemma Qltb_lt (a b : Q) : Qltb a b = true <-> (a < b)%Q.
Proof.
  unfold Qltb. rewrite negb_true_iff, <- not_true_iff_false, Qle_bool_iff.
  split; [apply Qnot_le_lt | apply Qlt_not_le].
Qed.

Lemma Qltb_ge (a b : Q) : Qltb a b = false <-> (b <= a)%Q.
Proof.
  unfold Qltb. rewrite negb_false_iff. apply Qle_bool_iff.
Qed.

Lemma round_value (x y : Q) : (x == y)%Q -> round x = round y.
Proof.
  intros Hxy. unfold round.
  rewrite (Qfloor_comp x y Hxy).
  assert ((x - float (Qfloor y) ?= 1 # 2) = (y - float (Qfloor y) ?= 1 # 2))%Q as ->
      by (apply Qcompare_comp; [rewrite Hxy|]; reflexivity).
  reflexivity.
Qed.

Lemma round_float (z : Z) : round (float z) = z.
Proof.
  unfold round. rewrite Qfloor_Z.
  assert ((float z - float z ?= 1 # 2) = Lt)%Q as ->; [|reflexivity].
  apply Qlt_alt. ring_simplify (float z - float z)%Q. reflexivity.
Qed.

Lemma timedelta_days_value (x y : Q) :
  (x == y)%Q -> timedelta_days x = timedelta_days y.
Proof.
  intros Hxy. apply round_value. now rewrite Hxy.
Qed.

(** The first ten characters of [isoformat] are the calendar date. *)
Lemma isoformat_date (t : Z) : prefix 10 (isoformat t) = date_str t.
Proof.
  unfold isoformat, date_str. destruct (_ord2ymd (dt_toordinal t)) as [[y m] d].
  reflexivity.
Qed.

End RuntimeFacts.

(* ===================================================================== *)
(** * Theorems: rounding *)
(* ===================================================================== *)

Section Rounding.

Lemma round_bounds (x : Q) : Qfloor x <= round x <= Qfloor x + 1.
Proof.
  unfold round. destruct (_ ?= _)%Q; [destruct (Z.even _)|..]; lia.
Qed.

(** [round] does not reverse the order. *)
Lemma round_monotone (x y : Q) : (x <= y)%Q -> round x <= round y.
Proof.
  intros Hxy. pose proof (Qfloor_resp_le _ _ Hxy) as Hfloor.
  destruct (Z.eq_dec (Qfloor x) (Qfloor y)) as [Heq|Hne].
  - unfold round. rewrite Heq.
    destruct (Qcompare_spec (x - float (Qfloor y)) (1 # 2)) as [Hx|Hx|Hx];
      destruct (Qcompare_spec (y - float (Qfloor y)) (1 # 2)) as [Hy|Hy|Hy];
      try (destruct (Z.even (Qfloor y)); lia); try lia; lra.
  - pose proof (round_bounds x). pose proof (round_bounds y). lia.
Qed.

Lemma round_le (x : Q) (k : Z) : (x <= float k)%Q -> round x <= k.
Proof.
  intros Hx. rewrite <- (round_float k). apply round_monotone, Hx.
Qed.

Lemma round_ge (x : Q) (k : Z) : (float k <= x)%Q -> k <= round x.
Proof.
  intros Hx. rewrite <- (round_float k) at 1. apply round_monotone, Hx.
Qed.

(** A number is at most half a unit above what it rounds to. *)
Lemma round_above (x : Q) : (x <= float (round x) + (1 # 2))%Q.
Proof.
  unfold round. pose proof (Qlt_floor x) as Hlt. pose proof (Qfloor_le x) as Hle.
  rewrite inject_Z_plus in Hlt.
  destruct (Qcompare_spec (x - float (Qfloor x)) (1 # 2)) as [Hx|Hx|Hx].
  - destruct (Z.even (Qfloor x)); [|rewrite inject_Z_plus]; lra.
  - lra.
  - rewrite inject_Z_plus. lra.
Qed.

(** And at most half a unit below. *)
Lemma round_below (x : Q) : (float (round x) - (1 # 2) <= x)%Q.
Proof.
  unfold round. pose proof (Qlt_floor x) as Hlt. pose proof (Qfloor_le x) as Hle.
  rewrite inject_Z_plus in Hlt.
  destruct (Qcompare_spec (x - float (Qfloor x)) (1 # 2)) as [Hx|Hx|Hx].
  - destruct (Z.even (Qfloor x)); [|rewrite inject_Z_plus; change (float 1) with 1%Q];
      lra.
  - lra.
  - rewrite inject_Z_plus. change (float 1) with 1%Q. lra.
Qed.

(** A number within 0.49 of an integer rounds to it. *)
Lemma round_near (x : Q) (k : Z) :
  (float k - 0.49 <= x <= float k + 0.49)%Q -> round x = k.
Proof.
  intros [Hlow Hhigh].
  pose proof (round_above x) as Habove. pose proof (round_below x) as Hbelow.
  assert (float k - 1 < float (round x))%Q as Hgt by lra.
  assert (float (round x) < float k + 1)%Q as Hlt by lra.
  change 1%Q with (float 1) in Hgt, Hlt.
  rewrite <- inject_Z_plus in Hlt.
  unfold Qminus in Hgt. rewrite <- inject_Z_opp, <- inject_Z_plus in Hgt.
  rewrite <- Zlt_Qlt in Hgt, Hlt. lia.
Qed.

End Rounding.

(* ===================================================================== *)
(** * Theorems: lists *)
(* ===================================================================== *)

Section Lists.

Lemma fmap_fst_map {A B C} (f : A * B -> A * C) (l : list (A * B)) :
  (forall x, (f x).1 = x.1) -> (map f l).*1 = l.*1.
Proof.
  intros Hf. induction l as [|x l IH]; [reflexivity|].
  cbn. rewrite Hf. f_equal. exact IH.
Qed.

Lemma filter_none {A} (P : A -> Prop) `{forall x, Decision (P x)} (l : list A) :
  (forall x, x ∈ l -> ~ P x) -> filter P l = [].
Proof.
  induction l as [|x l IH]; intros Hnone; [reflexivity|].
  rewrite filter_cons_False by (apply Hnone; left).
  apply IH. intros y Hy. apply Hnone. right. exact Hy.
Qed.

End Lists.

(* ===================================================================== *)
(** * Theorems: holiday dates (seasonal.py) *)
(* ===================================================================== *)

Section HolidayDates.

Lemma forall_from_spec (f : Z -> bool) (n : nat) :
  forall lo, YearCheck.forall_from f lo n = true ->
  forall z, lo <= z < lo + Z.of_nat n -> f z = true.
Proof.
  induction n as [|n IH]; intros lo Hall z Hz; [lia|].
  cbn [YearCheck.forall_from] in Hall.
  apply andb_prop in Hall as [Hlo Hrest].
  destruct (Z.eq_dec z lo) as [->|Hne]; [exact Hlo|].
  apply (IH (lo + 1) Hrest). lia.
Qed.

Lemma date_eqb_eq (a b : date) : YearCheck.date_eqb a b = true -> a = b.
Proof.
  destruct a, b. unfold YearCheck.date_eqb. cbn.
  rewrite !andb_true_iff, !Z.eqb_eq. intros [[-> ->] ->]. reflexivity.
Qed.

Lemma thanksgiving_all_years :
  YearCheck.forall_from YearCheck.thanksgiving_ok MINYEAR (Z.to_nat MAXYEAR) = true.
Proof. vm_compute. reflexivity. Qed.

Lemma easter_all_years :
  YearCheck.forall_from YearCheck.easter_ok MINYEAR (Z.to_nat MAXYEAR) = true.
Proof. vm_compute. reflexivity. Qed.

Lemma fixed_holiday (y m d : Z) :
  MINYEAR <= y <= MAXYEAR -> 1 <= m <= 12 -> m <> 2 -> 1 <= d <= _DAYS_IN_MONTH m ->
  date_new y m d = Returned (mk_date y m d).
Proof.
  intros Hy Hm Hfeb Hd. unfold date_new, _days_in_month.
  replace (m =? 2) with false by (symmetry; apply Z.eqb_neq; exact Hfeb).
  cbn [andb].
  repeat match goal with
         | |- context [?a <=? ?b] =>
             replace (a <=? b) with true by (symmetry; apply Z.leb_le; lia)
         end.
  reflexivity.
Qed.

Lemma unknown_holiday (holiday : string) (y : Z) :
  holiday ∉ ["thanksgiving"; "christmas"; "halloween"; "easter"; "july_4th"]%string ->
  Seasonal.get_holiday_date holiday y = Returned None.
Proof.
  intros Hnot. unfold Seasonal.get_holiday_date.
  repeat match goal with
         | |- context [String.eqb holiday ?name] =>
             destruct (String.eqb_spec holiday name) as [->|_];
             [exfalso; apply Hnot; set_solver|]
         end.
  reflexivity.
Qed.

(** C9. For every year of the calendar, [get_holiday_date] returns: for
    'thanksgiving' the fourth Thursday of November; for 'easter' the date of
    the Anonymous Gregorian algorithm (a Sunday from 22 March to 25 April);
    for 'christmas' 25 December, for 'halloween' 31 October, for 'july_4th'
    4 July.  For every year whatever and every other holiday name it
    returns [None].  Thanksgiving 2024 is 2024-11-28, Easter 2024 is
    2024-03-31 and Easter 2025 is 2025-04-20. *)
Theorem get_holiday_date_correct (year : Z) :
  (MINYEAR <= year <= MAXYEAR ->
   (exists d,
       Seasonal.get_holiday_date "thanksgiving" year = Returned (Some d)
       /\ Py.year d = year /\ month d = 11
       /\ Spec.nth_weekday_of_month 4 3 d = true)
   /\ (Seasonal.get_holiday_date "easter" year
       = Returned (Some (Spec.anonymous_gregorian_easter year))
       /\ weekday (Spec.anonymous_gregorian_easter year) = 6)
   /\ Seasonal.get_holiday_date "christmas" year = Returned (Some (mk_date year 12 25))
   /\ Seasonal.get_holiday_date "halloween" year = Returned (Some (mk_date year 10 31))
   /\ Seasonal.get_holiday_date "july_4th" year = Returned (Some (mk_date year 7 4)))
  /\ (forall holiday : string,
         holiday ∉ ["thanksgiving"; "christmas"; "halloween"; "easter"; "july_4th"]%string ->
         Seasonal.get_holiday_date holiday year = Returned None)
  /\ Seasonal.get_holiday_date "thanksgiving" 2024 = Returned (Some (mk_date 2024 11 28))
  /\ Seasonal.get_holiday_date "easter" 2024 = Returned (Some (mk_date 2024 3 31))
  /\ Seasonal.get_holiday_date "easter" 2025 = Returned (Some (mk_date 2025 4 20)).
Proof.
  split; [|split; [intros h; apply unknown_holiday | repeat split; reflexivity]].
  intros Hyear.
  assert (MINYEAR <= year < MINYEAR + Z.of_nat (Z.to_nat MAXYEAR)) as Hrange
    by (unfold MINYEAR, MAXYEAR in *; lia).
  repeat split.
  - pose proof (forall_from_spec _ _ _ thanksgiving_all_years year Hrange) as Hok.
    unfold YearCheck.thanksgiving_ok in Hok.
    destruct (Seasonal.get_holiday_date "thanksgiving" year) as [[d|]|]; try discriminate.
    apply andb_prop in Hok as [Hok Hnth]. apply andb_prop in Hok as [Hy Hm].
    exists d. repeat split; [apply Z.eqb_eq, Hy | apply Z.eqb_eq, Hm | exact Hnth].
  - pose proof (forall_from_spec _ _ _ easter_all_years year Hrange) as Hok.
    unfold YearCheck.easter_ok in Hok.
    destruct (Seasonal.get_holiday_date "easter" year) as [[d|]|]; try discriminate.
    apply andb_prop in Hok as [Hok _]. apply andb_prop in Hok as [Heq _].
    apply date_eqb_eq in Heq. now rewrite Heq.
  - pose proof (forall_from_spec _ _ _ easter_all_years year Hrange) as Hok.
    unfold YearCheck.easter_ok in Hok.
    destruct (Seasonal.get_holiday_date "easter" year) as [[d|]|]; try discriminate.
    apply andb_prop in Hok as [Hok _]. apply andb_prop in Hok as [Heq Hwd].
    apply date_eqb_eq in Heq. rewrite <- Heq. apply Z.eqb_eq, Hwd.
  - unfold Seasonal.get_holiday_date. cbn [String.eqb Ascii.eqb Bool.eqb].
    rewrite fixed_holiday; cbn; [reflexivity | lia..].
  - unfold Seasonal.get_holiday_date. cbn [String.eqb Ascii.eqb Bool.eqb].
    rewrite fixed_holiday; cbn; [reflexivity | lia..].
  - unfold Seasonal.get_holiday_date. cbn [String.eqb Ascii.eqb Bool.eqb].
    rewrite fixed_holiday; cbn; [reflexivity | lia..].
Qed.

(** The year 2024 in [get_holiday_date_correct]. *)
Lemma get_holiday_date_2024 :
  MINYEAR <= 2024 <= MAXYEAR
  /\ exists d,
      Seasonal.get_holiday_date "thanksgiving" 2024 = Returned (Some d)
      /\ Py.year d = 2024 /\ month d = 11
      /\ Spec.nth_weekday_of_month 4 3 d = true.
Proof.
  assert (MINYEAR <= 2024 <= MAXYEAR) as Hyear by (unfold MINYEAR, MAXYEAR; lia).
  split; [exact Hyear|].
  exact (proj1 (proj1 (get_holiday_date_correct 2024) Hyear)).
Defined.

End HolidayDates.

(* ===================================================================== *)
(** * Theorems: the consumption rate (statistics.py) *)
(* ===================================================================== *)

Section ConsumptionRate.
Context `{Runtime}.

Lemma weights_spec (n : nat) :
  Statistics.weights n = map (Spec.weight n) (seq 1 n).
Proof.
  unfold Statistics.weights, Spec.weight.
  induction n as [|n IH]; [reflexivity|].
  rewrite seq_S, map_app, rev_app_distr. cbn [rev map app Nat.add].
  rewrite IH. cbn [seq map]. replace (S n - 1)%nat with n by lia. f_equal.
  rewrite <- (seq_shift n 1), map_map. reflexivity.
Qed.

Lemma zip_weights (g : nat -> Q) (i : list Z) :
  forall start,
    zip_with (fun w v => w * float v)%Q (map g (seq start (length i))) i
    = map (fun j => g j * float (nth (j - start) i 0%Z))%Q (seq start (length i)).
Proof.
  induction i as [|x i IH]; intros start; [reflexivity|].
  cbn [length seq map zip_with]. rewrite Nat.sub_diag. cbn [nth]. f_equal.
  rewrite IH. apply map_ext_in. intros j Hj. apply in_seq in Hj.
  replace (j - start)%nat with (S (j - S start)) by lia. reflexivity.
Qed.

Lemma ewma_of_weighted_average (i : list Z) :
  Statistics.ewma_of i = Spec.weighted_average i.
Proof.
  unfold Statistics.ewma_of, Spec.weighted_average, Spec.interval.
  rewrite weights_spec, zip_weights. reflexivity.
Qed.

Lemma intervals_from_parsed (rest : list PurchaseEvents.row) (ts : list Z) :
  Forall2 (fun e t => Statistics._parse_date (PurchaseEvents.event_date e) = Some t) rest ts ->
  forall prev t,
    Statistics._parse_date (PurchaseEvents.event_date prev) = Some t ->
    Statistics.intervals_from prev rest = Spec.positive_intervals (t :: ts).
Proof.
  unfold Spec.positive_intervals, Spec.consecutive_intervals. cbn [tail].
  induction 1 as [|curr t' rest ts Hcurr _ IH]; intros prev t Hprev; [reflexivity|].
  cbn [Statistics.intervals_from zip_with]. rewrite Hprev, Hcurr.
  rewrite (IH curr t' Hcurr).
  destruct (Z.ltb_spec 0 (td_days (t' - t))) as [Hpos|Hneg].
  - rewrite filter_cons_True by exact Hpos. reflexivity.
  - rewrite filter_cons_False by lia. reflexivity.
Qed.

Lemma intervals_parsed (events : list PurchaseEvents.row) (ts : list Z) :
  Forall2 (fun e t => Statistics._parse_date (PurchaseEvents.event_date e) = Some t) events ts ->
  Statistics.intervals events = Spec.positive_intervals ts.
Proof.
  destruct 1 as [|first t rest ts Hfirst Hrest]; [reflexivity|].
  exact (intervals_from_parsed rest ts Hrest first t Hfirst).
Qed.

Lemma intervals_two_events (events : list PurchaseEvents.row) :
  Statistics.intervals events <> [] -> (len events <? 2) = false.
Proof.
  destruct events as [|e [|e' rest]]; cbn; try congruence.
  intros _. apply Z.ltb_ge. unfold len. cbn [length]. lia.
Qed.

Lemma days_between_ewma (events : list PurchaseEvents.row) :
  Statistics.intervals events <> [] ->
  Statistics.days_between (Statistics.calculate_consumption_rate events)
  = Some (Statistics.ewma_of (Statistics.intervals events)).
Proof.
  intros Hne. unfold Statistics.calculate_consumption_rate.
  rewrite (intervals_two_events events Hne).
  destruct (Statistics.intervals events); [congruence | reflexivity].
Qed.

(** C2. For every event list whose dates parse, with the positive whole-day
    intervals between consecutive events [i_1..i_n] (oldest first, [n >= 1]),
    [calculate_consumption_rate] returns as [days_between] the weighted
    average in which [i_j] has the weight [0.5^(n-j)]; for the intervals
    [20, 10, 10] it is [80/7], which is 11.43 to two places. *)
Theorem ewma_weighted_average
    (events : list PurchaseEvents.row) (ts : list Z) (i : list Z) :
  Forall2 (fun e t => Statistics._parse_date (PurchaseEvents.event_date e) = Some t)
    events ts ->
  Spec.positive_intervals ts = i ->
  i <> [] ->
  Statistics.days_between (Statistics.calculate_consumption_rate events)
  = Some (Spec.weighted_average i)
  /\ (i = [20; 10; 10] ->
      (Spec.weighted_average i == 80 # 7)%Q
      /\ (Spec.weighted_average i == (20 * 0.25 + 10 * 0.5 + 10 * 1.0) / 1.75)%Q
      /\ (round_ndigits (Spec.weighted_average i) 2 == 11.43)%Q).
Proof.
  intros Hparsed Hi Hne.
  pose proof (intervals_parsed events ts Hparsed) as Hiv. rewrite Hi in Hiv.
  split.
  - rewrite days_between_ewma by (rewrite Hiv; exact Hne).
    rewrite Hiv, ewma_of_weighted_average. reflexivity.
  - intros ->. repeat split; reflexivity.
Qed.

Lemma isum_fold_right (xs : list Z) : isum xs = fold_right Z.add 0 xs.
Proof.
  unfold isum. apply fold_symmetric; intros; lia.
Qed.

Lemma fsum_from (l : list Q) :
  forall a : Q, (fold_left Qplus l a == a + fold_right Qplus 0 l)%Q.
Proof.
  induction l as [|x l IH]; intros a; cbn [fold_left fold_right].
  - ring.
  - rewrite IH. ring.
Qed.

Lemma fsum_fold_right (l : list Q) : (fsum l == fold_right Qplus 0 l)%Q.
Proof. unfold fsum. rewrite fsum_from. ring. Qed.

Lemma sum_sq_dev_variance (divisor : Z) (xs : list Z) :
  (sum_sq_dev xs / float divisor == Spec.variance divisor xs)%Q.
Proof.
  unfold sum_sq_dev, Spec.variance, mean. rewrite fsum_fold_right, isum_fold_right.
  set (mu := (float (fold_right Z.add 0%Z xs) / float (len xs))%Q).
  apply Qdiv_comp; [|reflexivity].
  clearbody mu. induction xs as [|x xs IH]; cbn [map fold_right]; [reflexivity|].
  rewrite IH. cbn [Qpower Qpower_positive pow_pos]. ring.
Qed.

Lemma std_dev_of_intervals (events : list PurchaseEvents.row) :
  Statistics.intervals events <> [] ->
  Statistics.std_dev (Statistics.calculate_consumption_rate events)
  = if 1 <? len (Statistics.intervals events)
    then stdev (Statistics.intervals events) else 0.0%Q.
Proof.
  intros Hne. unfold Statistics.calculate_consumption_rate.
  rewrite (intervals_two_events events Hne).
  destruct (Statistics.intervals events); [congruence | reflexivity].
Qed.

(** C3, as amended. For every event list whose dates parse, with the
    positive whole-day intervals [i] between consecutive events: when
    there are two intervals or more, the [std_dev] of
    [calculate_consumption_rate] is the square root of their unweighted
    sample variance, whose divisor is [n - 1]; when there is one interval
    it is 0. *)
Theorem std_dev_sample_formula
    (events : list PurchaseEvents.row) (ts : list Z) (i : list Z) :
  Forall2 (fun e t => Statistics._parse_date (PurchaseEvents.event_date e) = Some t)
    events ts ->
  Spec.positive_intervals ts = i ->
  (2 <= len i ->
   (Statistics.std_dev (Statistics.calculate_consumption_rate events)
    == fsqrt (Spec.sample_variance i))%Q)
  /\ (len i = 1 ->
      (Statistics.std_dev (Statistics.calculate_consumption_rate events) == 0)%Q).
Proof.
  intros Hparsed Hi.
  pose proof (intervals_parsed events ts Hparsed) as Hiv. rewrite Hi in Hiv.
  split; intros Hlen.
  - rewrite std_dev_of_intervals by (rewrite Hiv; intros ->; unfold len in Hlen; cbn in Hlen; lia).
    rewrite Hiv. replace (1 <? len i) with true by (symmetry; apply Z.ltb_lt; lia).
    unfold stdev, Spec.sample_variance. apply fsqrt_value, sum_sq_dev_variance.
  - rewrite std_dev_of_intervals by (rewrite Hiv; intros ->; unfold len in Hlen; cbn in Hlen; lia).
    rewrite Hiv, Hlen. reflexivity.
Qed.

End ConsumptionRate.

Section ConsumptionRateExamples.
#[local] Existing Instance Reference.runtime.

(** The four orders 20, 10 and 10 days apart in [ewma_weighted_average]. *)
Lemma ewma_of_orders_20_10_10 :
  Statistics.days_between
    (Statistics.calculate_consumption_rate Reference.orders_20_10_10)
  = Some (Spec.weighted_average [20; 10; 10]%Z)
  /\ (Spec.weighted_average [20; 10; 10]%Z == 80 # 7)%Q
  /\ (Spec.weighted_average [20; 10; 10]%Z
      == (20 * 0.25 + 10 * 0.5 + 10 * 1.0) / 1.75)%Q
  /\ (round_ndigits (Spec.weighted_average [20; 10; 10]%Z) 2 == 11.43)%Q.
Proof.
  assert (Forall2
            (fun e t => Statistics._parse_date (PurchaseEvents.event_date e) = Some t)
            Reference.orders_20_10_10 Reference.dates_20_10_10) as Hparsed
    by repeat constructor.
  assert (Spec.positive_intervals Reference.dates_20_10_10 = [20; 10; 10]) as Hintervals
    by (vm_compute; reflexivity).
  destruct (ewma_weighted_average Reference.orders_20_10_10 Reference.dates_20_10_10
              [20; 10; 10] Hparsed Hintervals ltac:(discriminate))
    as [Hdays Hvalue].
  split; [exact Hdays | exact (Hvalue eq_refl)].
Defined.

(** The three orders 10 and 20 days apart in [std_dev_sample_formula]. *)
Lemma std_dev_of_orders_10_20 :
  (Statistics.std_dev (Statistics.calculate_consumption_rate Reference.orders_10_20)
   == fsqrt (Spec.sample_variance [10; 20]%Z))%Q.
Proof.
  refine (proj1 (std_dev_sample_formula Reference.orders_10_20
                   Reference.dates_10_20 [10; 20] _ _) _).
  - repeat constructor.
  - vm_compute. reflexivity.
  - vm_compute. discriminate.
Defined.

(** C3, as claimed, fails. Three orders 10 and 20 days apart: the intervals
    are [10, 20], their sample variance is 50 and their population variance
    25; [std_dev] is the square root of 50, not 5. *)
Lemma std_dev_not_population_formula :
  Statistics.intervals Reference.orders_10_20 = [10; 20]
  /\ (Spec.sample_variance [10; 20]%Z == 50)%Q
  /\ (Spec.population_variance [10; 20]%Z == 25)%Q
  /\ (Statistics.std_dev (Statistics.calculate_consumption_rate Reference.orders_10_20)
      == 7.071067)%Q
  /\ (fsqrt (Spec.population_variance [10; 20]%Z) == 5)%Q
  /\ ~ (Statistics.std_dev (Statistics.calculate_consumption_rate Reference.orders_10_20)
        == fsqrt (Spec.population_variance [10; 20]%Z))%Q.
Proof.
  repeat split; try (vm_compute; reflexivity).
  vm_compute. discriminate.
Qed.

End ConsumptionRateExamples.

(* ===================================================================== *)
(** * Theorems: the repurchase predictor (predictions.py) *)
(* ===================================================================== *)

Section Predictor.
Context `{Runtime}.

Lemma category_is_true (category : option string) (c : string) :
  Predictions.category_is category c = true <-> category = Some c.
Proof.
  destruct category as [s|]; cbn; [|split; discriminate].
  rewrite String.eqb_eq. split; congruence.
Qed.

Lemma category_is_false (category : option string) (c : string) :
  Predictions.category_is category c = false <-> category <> Some c.
Proof.
  rewrite <- not_true_iff_false, category_is_true. reflexivity.
Qed.

(** The multiplier that the code chooses is the one of the specification. *)
Lemma buffer_multiplier_spec (category : option string) (m : Q) :
  Spec.buffer_multiplier category m -> m = Predictions.buffer_multiplier category.
Proof.
  intros (Hroutine & Hregular & Hother). unfold Predictions.buffer_multiplier.
  destruct (Predictions.category_is category "routine") eqn:Hr.
  - apply Hroutine, category_is_true, Hr.
  - destruct (Predictions.category_is category "regular") eqn:Hg.
    + apply Hregular, category_is_true, Hg.
    + apply Hother; apply category_is_false; assumption.
Qed.

(** [std_dev_days or 0]. *)
Lemma std_dev_or_zero (std_dev_days : option Q) :
  ((if truthy_float std_dev_days then default 0 std_dev_days else 0)
   == default 0 std_dev_days)%Q.
Proof.
  destruct (truthy_float std_dev_days) eqn:Hsd; [reflexivity|].
  apply truthy_float_false in Hsd as [-> | (q & -> & Hq)]; [reflexivity|].
  cbn [default]. rewrite Hq. reflexivity.
Qed.

Lemma timedelta_new_days_spec (x : Q) :
  (Spec.timedelta_in_range (timedelta_days x) ->
   timedelta_new_days x = Returned (timedelta_days x))
  /\ (~ Spec.timedelta_in_range (timedelta_days x) ->
      timedelta_new_days x = Raised OverflowError).
Proof.
  unfold timedelta_new_days, Spec.timedelta_in_range.
  destruct (Z.leb_spec (- _MAX_DELTA_DAYS) (td_days (timedelta_days x)));
    destruct (Z.leb_spec (td_days (timedelta_days x)) _MAX_DELTA_DAYS);
    cbn [andb]; split; intros Hrange; try reflexivity; try lia;
    exfalso; apply Hrange; lia.
Qed.

Lemma datetime_add_spec (t td : Z) :
  (Spec.in_calendar (t + td) -> datetime_add t td = Returned (t + td))
  /\ (~ Spec.in_calendar (t + td) -> datetime_add t td = Raised OverflowError).
Proof.
  unfold datetime_add, Spec.in_calendar.
  destruct (Z.ltb_spec 0 (dt_toordinal (t + td)));
    destruct (Z.leb_spec (dt_toordinal (t + td)) _MAXORDINAL);
    cbn [andb]; split; intros Hrange; try reflexivity; try lia;
    exfalso; apply Hrange; lia.
Qed.

(** The arithmetic of the predicted date: the date when every step is in
    range, and [OverflowError] when one is not. *)
Lemma predicted_date_of_spec (last_date : Z) (avg std_dev : Q)
    (category : option string) :
  let interval := timedelta_days avg in
  let buffer :=
    timedelta_days (std_dev * Predictions.buffer_multiplier category)%Q in
  (Spec.prediction_in_range last_date interval buffer ->
   Predictions.predicted_date_of last_date avg std_dev category
   = Returned (last_date + interval - buffer))
  /\ (~ Spec.prediction_in_range last_date interval buffer ->
      Predictions.predicted_date_of last_date avg std_dev category
      = Raised OverflowError).
Proof.
  intros interval buffer. unfold Predictions.predicted_date_of, datetime_sub.
  fold interval buffer. unfold Spec.prediction_in_range.
  destruct (timedelta_new_days_spec avg) as [Hin1 Hout1]. fold interval in Hin1, Hout1.
  destruct (timedelta_new_days_spec
              (std_dev * Predictions.buffer_multiplier category)%Q) as [Hin3 Hout3].
  fold buffer in Hin3, Hout3.
  destruct (datetime_add_spec last_date interval) as [Hin2 Hout2].
  destruct (datetime_add_spec (last_date + interval) (- buffer)) as [Hin4 Hout4].
  replace (last_date + interval + - buffer) with (last_date + interval - buffer)
    in Hin4, Hout4 by lia.
  split.
  - intros (H1 & H2 & H3 & H4).
    rewrite (Hin1 H1). cbn [bind]. rewrite (Hin2 H2). cbn [bind].
    rewrite (Hin3 H3). cbn [bind]. exact (Hin4 H4).
  - intros Hnot.
    destruct (decide (Spec.timedelta_in_range interval)) as [H1|H1];
      [rewrite (Hin1 H1) | rewrite (Hout1 H1); reflexivity].
    cbn [bind].
    destruct (decide (Spec.in_calendar (last_date + interval))) as [H2|H2];
      [rewrite (Hin2 H2) | rewrite (Hout2 H2); reflexivity].
    cbn [bind].
    destruct (decide (Spec.timedelta_in_range buffer)) as [H3|H3];
      [rewrite (Hin3 H3) | rewrite (Hout3 H3); reflexivity].
    cbn [bind]. apply Hout4. intros H4. apply Hnot.
    split; [exact H1|]. split; [exact H2|]. split; [exact H3|exact H4].
Qed.

Lemma parse_last_date_nonempty (last_str : string) (last_date : Z) :
  Predictions.parse_last_date last_str = Some last_date -> last_str <> ""%string.
Proof.
  intros Hparse ->. unfold Predictions.parse_last_date in Hparse. cbn in Hparse.
  rewrite strptime_ymd_empty in Hparse. discriminate.
Qed.


(** The call on statistics that pass the guards of the predictor: what is
    left is the parsing and the arithmetic. *)
Lemma predict_repurchase_date_guards (now : Z) (product_id : string)
    (stats : option Statistics.StatsDict) (d : db)
    (st : Statistics.StatsDict) (avg : Q) (last_str : string) :
  Predictions.effective_stats product_id stats d = Some st ->
  2 <= Statistics.total_purchases st ->
  Statistics.avg_days_between_purchases st = Some avg ->
  ~ (avg == 0)%Q ->
  Statistics.last_purchase_date st = Some last_str ->
  last_str <> ""%string ->
  let std_dev :=
    if truthy_float (Statistics.std_dev_days st)
    then default 0%Q (Statistics.std_dev_days st) else 0%Q in
  let category := Statistics.category_type st in
  Predictions.predict_repurchase_date now product_id stats d
  = match Predictions.parse_last_date last_str,
          Predictions.parse_last_date_aware last_str with
    | Some last_date, _ =>
        try! predicted_date :=
          Predictions.predicted_date_of last_date avg std_dev category in
        let days_until := td_days (predicted_date - now) in
        let urgency := Predictions.urgency_of days_until category in
        let confidence :=
          Predictions.confidence_of (Statistics.total_purchases st) avg std_dev in
        Returned
          (Predictions.mk_prediction product_id (Statistics.description st)
             category (Some predicted_date) (Some days_until)
             (round_ndigits urgency 2) (Predictions.get_urgency_label urgency)
             (round_ndigits confidence 2) (Some last_str)
             (Some (round_ndigits avg 1)))
    | None, Some last_date =>
        try! predicted_date :=
          Predictions.predicted_date_of last_date avg std_dev category in
        Raised TypeError
    | None, None =>
        Returned
          (Predictions.mk_prediction product_id (Statistics.description st)
             category None None 0.0 "low" 0.0 (Some last_str) (Some avg))
    end.
Proof.
  intros Heff Htotal Havg Hnz Hlast Hne std_dev category.
  unfold Predictions.predict_repurchase_date. rewrite Heff.
  replace (Statistics.total_purchases st <? 2) with false
    by (symmetry; apply Z.ltb_ge; lia).
  rewrite Havg, Hlast.
  rewrite (proj2 (truthy_float_Some avg) Hnz), (proj2 (truthy_str_Some last_str) Hne).
  cbn [negb orb]. reflexivity.
Qed.

(** A call that returns a prediction with a [days_until] has computed the
    predicted date, and the urgency from the whole days to it. *)
Lemma predict_repurchase_date_predicted (now : Z) (product_id : string)
    (stats : option Statistics.StatsDict) (d : db)
    (r : Predictions.RepurchasePrediction) (days : Z) :
  Predictions.predict_repurchase_date now product_id stats d = Returned r ->
  Predictions.days_until r = Some days ->
  Predictions.product_id r = product_id
  /\ (exists predicted,
         Predictions.predicted_date r = Some predicted
         /\ days = td_days (predicted - now))
  /\ Predictions.urgency r
     = round_ndigits (Predictions.urgency_of days (Predictions.category r)) 2
  /\ Predictions.urgency_label r
     = Predictions.get_urgency_label
         (Predictions.urgency_of days (Predictions.category r)).
Proof.
  unfold Predictions.predict_repurchase_date.
  destruct (Predictions.effective_stats product_id stats d) as [st|];
    [|intros [= <-]; discriminate].
  destruct (Statistics.total_purchases st <? 2); [intros [= <-]; discriminate|].
  destruct (Statistics.avg_days_between_purchases st) as [avg|];
    [|intros [= <-]; discriminate].
  destruct (Statistics.last_purchase_date st) as [last_str|];
    [|intros [= <-]; discriminate].
  destruct (negb (truthy_float (Some avg)) || negb (truthy_str (Some last_str)));
    [intros [= <-]; discriminate|].
  destruct (Predictions.parse_last_date last_str) as [last_date|].
  - destruct (Predictions.predicted_date_of _ _ _ _) as [predicted|e];
      [|discriminate].
    cbn [bind]. intros [= <-]. cbn. intros [= <-].
    split; [reflexivity|]. split; [eexists; split; reflexivity|].
    split; reflexivity.
  - destruct (Predictions.parse_last_date_aware last_str) as [last_date|].
    + destruct (Predictions.predicted_date_of _ _ _ _); discriminate.
    + intros [= <-]; discriminate.
Qed.

(** The urgency of a prediction that is due in [days_until] days, in the
    cases of the specification. *)
Lemma urgency_of_cases (days_until : Z) (category : option string) :
  let urgency := round_ndigits (Predictions.urgency_of days_until category) 2 in
  (days_until < 0 -> (urgency == 1.0)%Q)
  /\ (days_until = 0 ->
      (category = Some "routine"%string -> (urgency == 1.0)%Q)
      /\ (category <> Some "routine"%string -> (urgency == 0.9)%Q))
  /\ (1 <= days_until <= 14 ->
      (category = Some "routine"%string ->
       urgency = round_ndigits (Qmin 1.0 ((1 - float days_until / 14) * 1.2)) 2)
      /\ (category <> Some "routine"%string ->
          urgency = round_ndigits (1 - float days_until / 14) 2))
  /\ (14 < days_until -> (urgency == 0.0)%Q).
Proof.
  assert (forall x y : Q, (x == y)%Q -> round_ndigits x 2 = round_ndigits y 2)
    as Hround.
  { intros x y Hxy. unfold round_ndigits. f_equal. f_equal.
    apply round_value. rewrite Hxy. reflexivity. }
  cbv zeta. unfold Predictions.urgency_of. split; [|split; [|split]].
  - intros Hneg. replace (days_until <? 0) with true by (symmetry; apply Z.ltb_lt; lia).
    destruct (_ && _); vm_compute; reflexivity.
  - intros ->. cbn [Z.ltb Z.eqb Z.compare]. split.
    + intros Hroutine. apply category_is_true in Hroutine. rewrite Hroutine.
      vm_compute. reflexivity.
    + intros Hother. apply category_is_false in Hother. rewrite Hother.
      vm_compute. reflexivity.
  - intros Hdays.
    replace (days_until <? 0) with false by (symmetry; apply Z.ltb_ge; lia).
    replace (days_until =? 0) with false by (symmetry; apply Z.eqb_neq; lia).
    replace (days_until <=? 14) with true by (symmetry; apply Z.leb_le; lia).
    split.
    + intros Hroutine. apply category_is_true in Hroutine. rewrite Hroutine.
      cbn [andb].
      destruct (Qltb 0 (1 - float days_until / 14)) eqn:Hpos; [reflexivity|].
      apply Qltb_ge in Hpos. apply Hround.
      assert (float days_until / 14 * 14 == float days_until)%Q as Hshare by field.
      assert (float days_until <= 14)%Q as Hle
        by (change 14%Q with (float 14); rewrite <- Zle_Qle; lia).
      set (share := (float days_until / 14)%Q) in *. clearbody share.
      assert (share == 1)%Q as -> by lra. reflexivity.
    + intros Hother. apply category_is_false in Hother. rewrite Hother.
      reflexivity.
  - intros Hlate.
    replace (days_until <? 0) with false by (symmetry; apply Z.ltb_ge; lia).
    replace (days_until =? 0) with false by (symmetry; apply Z.eqb_neq; lia).
    replace (days_until <=? 14) with false by (symmetry; apply Z.leb_gt; lia).
    destruct (Predictions.category_is category "routine"); vm_compute; reflexivity.
Qed.

(** C5, as amended. When the statistics of the product pass the guards of
    the predictor, the last purchase date parses to a naive [datetime] and
    the dates of the prediction are in range, the call returns a
    prediction with a [days_until], and its urgency is: 1.0 when
    [days_until < 0]; 0.9 when [days_until = 0], and 1.0 for the category
    routine; [1 - days_until/14] from 1 to 14 days, multiplied by 1.2 and
    capped at 1.0 for the category routine, and then rounded to two
    places; 0.0 beyond 14 days.  At 14 days it is 0.0 and at -1 day it is
    1.0, whatever the category. *)
Theorem urgency_piecewise (now : Z) (product_id : string)
    (stats : option Statistics.StatsDict) (d : db)
    (st : Statistics.StatsDict) (avg : Q) (last_str : string) (last_date : Z)
    (m : Q) :
  Predictions.effective_stats product_id stats d = Some st ->
  2 <= Statistics.total_purchases st ->
  Statistics.avg_days_between_purchases st = Some avg ->
  ~ (avg == 0)%Q ->
  Statistics.last_purchase_date st = Some last_str ->
  Predictions.parse_last_date last_str = Some last_date ->
  Spec.buffer_multiplier (Statistics.category_type st) m ->
  Spec.prediction_in_range last_date (timedelta_days avg)
    (timedelta_days (default 0%Q (Statistics.std_dev_days st) * m)%Q) ->
  exists r days_until,
    Predictions.predict_repurchase_date now product_id stats d = Returned r
    /\ Predictions.days_until r = Some days_until
    /\ Predictions.category r = Statistics.category_type st
    /\ (days_until < 0 -> (Predictions.urgency r == 1.0)%Q)
    /\ (days_until = 0 ->
        (Predictions.category r = Some "routine"%string ->
         (Predictions.urgency r == 1.0)%Q)
        /\ (Predictions.category r <> Some "routine"%string ->
            (Predictions.urgency r == 0.9)%Q))
    /\ (1 <= days_until <= 14 ->
        (Predictions.category r = Some "routine"%string ->
         Predictions.urgency r
         = round_ndigits (Qmin 1.0 ((1 - float days_until / 14) * 1.2)) 2)
        /\ (Predictions.category r <> Some "routine"%string ->
            Predictions.urgency r
            = round_ndigits (1 - float days_until / 14) 2))
    /\ (14 < days_until -> (Predictions.urgency r == 0.0)%Q)
    /\ (days_until = 14 -> (Predictions.urgency r == 0.0)%Q)
    /\ (days_until = -1 -> (Predictions.urgency r == 1.0)%Q).
Proof.
  intros Heff Htotal Havg Hnz Hlast Hparse Hm Hrange.
  pose proof (parse_last_date_nonempty last_str last_date Hparse) as Hne.
  rewrite (predict_repurchase_date_guards now product_id stats d st avg last_str
             Heff Htotal Havg Hnz Hlast Hne).
  rewrite Hparse. cbv zeta.
  set (std_dev := if truthy_float (Statistics.std_dev_days st)
                  then default 0%Q (Statistics.std_dev_days st) else 0%Q).
  rewrite (buffer_multiplier_spec _ _ Hm) in Hrange.
  rewrite (timedelta_days_value
             (default 0%Q (Statistics.std_dev_days st)
              * Predictions.buffer_multiplier (Statistics.category_type st))
             (std_dev * Predictions.buffer_multiplier (Statistics.category_type st)))
    in Hrange by (subst std_dev; rewrite std_dev_or_zero; reflexivity).
  rewrite (proj1 (predicted_date_of_spec last_date avg std_dev
                    (Statistics.category_type st)) Hrange).
  cbn [bind]. eexists. eexists. split; [reflexivity|].
  cbn [Predictions.days_until Predictions.category Predictions.urgency].
  split; [reflexivity|]. split; [reflexivity|].
  match goal with
  | |- context [Predictions.urgency_of ?k ?c] =>
      destruct (urgency_of_cases k c) as (Hover & Htoday & Hsoon & Hlate)
  end.
  cbv zeta in Hover, Htoday, Hsoon, Hlate.
  split; [exact Hover|]. split; [exact Htoday|]. split; [exact Hsoon|].
  split; [exact Hlate|]. split.
  - intros Hdays.
    destruct (decide (Statistics.category_type st = Some "routine"%string))
      as [Hroutine|Hother].
    + rewrite (proj1 (Hsoon ltac:(lia)) Hroutine), Hdays.
      vm_compute. reflexivity.
    + rewrite (proj2 (Hsoon ltac:(lia)) Hother), Hdays.
      vm_compute. reflexivity.
  - intros Hdays. apply Hover. lia.
Qed.


End Predictor.

Section PredictorExamples.
#[local] Existing Instance Reference.runtime.



(** A routine product due in 2 days in [urgency_piecewise]: the base
    urgency [1 - 2/14] is boosted to [min(1.0, 1.2 * (1 - 2/14))], 1.0. *)
Lemma urgency_of_routine_in_two_days :
  exists r,
    Predictions.predict_repurchase_date (datetime_new 2024 1 20 0 0 0 0) "milk"
      (Some Reference.stats_weekly) Reference.empty_db
    = Returned r
    /\ Predictions.days_until r = Some 2
    /\ Predictions.category r = Some "routine"%string
    /\ Predictions.urgency r
       = round_ndigits (Qmin 1.0 ((1 - float 2 / 14) * 1.2)) 2
    /\ (Predictions.urgency r == 1.0)%Q.
Proof.
  destruct (urgency_piecewise (datetime_new 2024 1 20 0 0 0 0) "milk"
              (Some Reference.stats_weekly) Reference.empty_db
              Reference.stats_weekly 7.0%Q "2024-01-15"%string
              (datetime_new 2024 1 15 0 0 0 0) 1.0%Q)
    as (r & days_until & Hrun & Hdays & Hcategory & _ & _ & Hsoon & _).
  - reflexivity.
  - cbn. lia.
  - reflexivity.
  - vm_compute. discriminate.
  - reflexivity.
  - reflexivity.
  - split; [reflexivity|]. split; [discriminate|]. intros Hne. contradiction.
  - vm_compute. repeat split; discriminate.
  - assert (days_until = 2) as ->.
    { vm_compute in Hrun. injection Hrun as <-. vm_compute in Hdays.
      injection Hdays as <-. reflexivity. }
    exists r. split; [exact Hrun|]. split; [exact Hdays|].
    split; [exact Hcategory|].
    pose proof (proj1 (Hsoon ltac:(lia)) Hcategory) as Hurgency.
    split; [exact Hurgency|]. rewrite Hurgency. vm_compute. reflexivity.
Defined.

(** C5, as claimed, fails. A regular product bought every 7 days, last on
    2024-01-15, seen at noon of 2024-01-20: the prediction is due in 1
    day, and its urgency is 0.93, where the claim has [1 - 1/14]. *)
Lemma urgency_is_rounded :
  let stats :=
    Statistics.mk_dict 3 (Some 7.0%Q) (Some 0.0%Q) (Some "2024-01-15"%string)
      (Some "Bread"%string) (Some "regular"%string) (Some 0) in
  exists r,
    Predictions.predict_repurchase_date (datetime_new 2024 1 20 12 0 0 0) "bread"
      (Some stats) Reference.empty_db
    = Returned r
    /\ Predictions.days_until r = Some 1
    /\ Predictions.category r = Some "regular"%string
    /\ (Predictions.urgency r == 0.93)%Q
    /\ ~ (Predictions.urgency r == 1 - 1 / 14)%Q.
Proof.
  intros stats. eexists. split; [vm_compute; reflexivity|].
  split; [reflexivity|]. split; [reflexivity|].
  split; [vm_compute; reflexivity|]. vm_compute. discriminate.
Qed.

End PredictorExamples.

(* ===================================================================== *)
(** * Theorems: what each call leaves alone *)
(* ===================================================================== *)

Section Frames.
Context `{Runtime}.

Lemma update_product_stats_frame (config : Config.PredictionConfig) (now : Z)
    (product_id : string) (d : db) :
  let d' := (Statistics.update_product_stats config now product_id d).1 in
  products d' = products d
  /\ purchase_events d' = purchase_events d
  /\ pantry_items d' = pantry_items d.
Proof.
  unfold Statistics.update_product_stats.
  destruct (Statistics.qualifying_events product_id d); [repeat split|].
  destruct (Statistics.compute_stats _ _ _) as [row c].
  destruct (_ || _); repeat split.
Qed.

Lemma _record_depletion_event_products (config : Config.PredictionConfig)
    (now_stats : Z) (product_id last_restocked_at depleted_at : string) (d : db) :
  products (Pantry._record_depletion_event config now_stats product_id
              last_restocked_at depleted_at d).1
  = products d.
Proof.
  unfold Pantry._record_depletion_event.
  destruct (references_product d product_id); [|reflexivity].
  match goal with
  | |- context [Statistics.update_product_stats ?c ?n ?p ?d1] =>
      pose proof (update_product_stats_frame c n p d1) as (Hp & _ & _);
      destruct (Statistics.update_product_stats c n p d1) as [d2 [r|e]]
  end; cbn in *; exact Hp.
Qed.

Lemma update_pantry_level_products (config : Config.PredictionConfig)
    (now now_stats : Z) (product_id : string) (level : Z) (d : db) :
  products (Pantry.update_pantry_level config now now_stats product_id level d).1
  = products d.
Proof.
  unfold Pantry.update_pantry_level.
  destruct (pantry_items d !! product_id) as [row|]; [|reflexivity].
  destruct (_ && _ && _).
  - match goal with
    | |- context [Pantry._record_depletion_event ?c ?n ?p ?l ?s ?d0] =>
        pose proof (_record_depletion_event_products c n p l s d0) as Hp;
        destruct (Pantry._record_depletion_event c n p l s d0) as [d1 b]
    end. exact Hp.
  - reflexivity.
Qed.

Lemma restock_item_products (now : Z) (product_id : string) (level : Z)
    (description : option string) (d : db) :
  products (Pantry.restock_item now product_id level description d).1 = products d.
Proof.
  unfold Pantry.restock_item.
  destruct (pantry_items d !! product_id); [reflexivity|].
  destruct (references_product d product_id); reflexivity.
Qed.

End Frames.

(* ===================================================================== *)
(** * Theorems: categories (categories.py) *)
(* ===================================================================== *)

Section CategoryOverride.
Context `{Runtime}.

Lemma auto_categorize_all_lookup (config : Config.PredictionConfig)
    (now : string -> Z) (d : db) (product_id : string) :
  products (Categories.auto_categorize_all config now d).1 !! product_id
  = (fun row =>
       if Categories.without_override row then
         Products.mk (Products.description row)
           (Some (Categories.new_category config d product_id))
           (Products.category_override row) (Products.created_at row)
           (Some (isoformat (now product_id)))
       else row) <$> (products d !! product_id).
Proof.
  unfold Categories.auto_categorize_all. cbn [fst products set_products].
  rewrite map_lookup_imap. destruct (products d !! product_id); reflexivity.
Qed.

Lemma without_override_false (row : Products.row) :
  Categories.without_override row = false
  <-> exists flag, Products.category_override row = Some flag /\ flag <> 0.
Proof.
  unfold Categories.without_override.
  destruct (Products.category_override row) as [n|].
  - rewrite Z.eqb_neq. split; [eauto | intros (flag & [= <-] & Hne); exact Hne].
  - split; [discriminate | intros (flag & Hflag & _); discriminate].
Qed.

(** C6. [auto_categorize_all] leaves every row of [products] whose override
    flag is set as it is, and changes the override flag of no row.  After
    [set_product_category] with [is_override=True], the product has the
    category of the call and the flag 1, and [auto_categorize_all] leaves
    both.  The other calls that write ([update_product_stats],
    [update_pantry_level], [restock_item]) leave the table [products] as it
    is. *)
Theorem override_is_sticky (config : Config.PredictionConfig)
    (now_at : string -> Z) (d : db) :
  let d' := (Categories.auto_categorize_all config now_at d).1 in
  (forall product_id row flag,
      products d !! product_id = Some row ->
      Products.category_override row = Some flag -> flag <> 0 ->
      products d' !! product_id = Some row)
  /\ (forall product_id,
         Products.category_override <$> (products d' !! product_id)
         = Products.category_override <$> (products d !! product_id))
  /\ (forall now current_timestamp product_id category d0 result,
         Categories.set_product_category now current_timestamp product_id
           category true d0 = (d, Returned result) ->
         exists row,
           products d !! product_id = Some row
           /\ Products.category_type row = Some category
           /\ Products.category_override row = Some 1
           /\ products d' !! product_id = Some row)
  /\ (forall now now_stats product_id level description,
         products (Statistics.update_product_stats config now product_id d).1
         = products d
         /\ products (Pantry.update_pantry_level config now now_stats product_id
                        level d).1
            = products d
         /\ products (Pantry.restock_item now product_id level description d).1
            = products d).
Proof.
  intros d'. subst d'.
  assert (forall product_id row flag,
             products d !! product_id = Some row ->
             Products.category_override row = Some flag -> flag <> 0 ->
             products (Categories.auto_categorize_all config now_at d).1 !! product_id
             = Some row) as Hkept.
  { intros product_id row flag Hrow Hflag Hne.
    rewrite auto_categorize_all_lookup, Hrow. cbn.
    rewrite (proj2 (without_override_false row)) by eauto. reflexivity. }
  split; [exact Hkept|]. split; [|split].
  - intros product_id. rewrite auto_categorize_all_lookup.
    destruct (products d !! product_id) as [row|]; [|reflexivity]. cbn.
    destruct (Categories.without_override row); reflexivity.
  - intros now current_timestamp product_id category d0 result Hset.
    unfold Categories.set_product_category in Hset.
    destruct (negb _); [discriminate|].
    destruct (products d0 !! product_id) as [old|];
      injection Hset as <- _; cbn [products set_products];
      eexists; (split; [apply lookup_insert_eq|]);
      (split; [reflexivity|]); (split; [reflexivity|]);
      (eapply Hkept; [apply lookup_insert_eq | reflexivity | discriminate]).
  - intros now now_stats product_id level description. split; [|split].
    + apply update_product_stats_frame.
    + apply update_pantry_level_products.
    + apply restock_item_products.
Qed.

End CategoryOverride.

Section CategoryOverrideExamples.
#[local] Existing Instance Reference.runtime.

(** Two products bought every 7 days; 'turkey' is set to 'treat' by hand,
    then [auto_categorize_all] runs: 'milk' becomes 'routine' and 'turkey'
    stays 'treat', with its flag ([override_is_sticky]). *)
Lemma turkey_stays_a_treat :
  let now := datetime_new 2024 3 1 9 0 0 0 in
  let d := (Categories.set_product_category now "2024-03-01 09:00:00" "turkey"
              "treat" true Reference.two_products).1 in
  let d' := (Categories.auto_categorize_all Config.default (fun _ => now) d).1 in
  (exists row,
      products d !! "turkey"%string = Some row
      /\ Products.category_type row = Some "treat"%string
      /\ Products.category_override row = Some 1
      /\ products d' !! "turkey"%string = Some row)
  /\ Products.category_type <$> (products d' !! "milk"%string)
     = Some (Some "routine"%string).
Proof.
  intros now d d'. split.
  - refine (proj1 (proj2 (proj2 (override_is_sticky Config.default (fun _ => now) d)))
              now "2024-03-01 09:00:00"%string "turkey"%string "treat"%string
              Reference.two_products
              (Categories.mk_result "turkey" "treat" (Some "uncategorized"%string) false)
              _).
    vm_compute. reflexivity.
  - vm_compute. reflexivity.
Defined.

End CategoryOverrideExamples.

(* ===================================================================== *)
(** * Theorems: the pantry (pantry.py) *)
(* ===================================================================== *)

Section PantryStatus.
Context `{Runtime}.

Lemma find_by_product_id (f : string -> PantryItems.row -> Pantry.PantryStatus)
    (product_id : string) (item : PantryItems.row) :
  (forall k v, Pantry.product_id (f k v) = k) ->
  forall rows : list (string * PantryItems.row),
    NoDup rows.*1 ->
    (product_id, item) ∈ rows ->
    find (fun st => String.eqb (Pantry.product_id st) product_id)
      (map (fun kv => f kv.1 kv.2) rows)
    = Some (f product_id item).
Proof.
  intros Hid rows. induction rows as [|[k v] rows IH]; intros Hnodup Hin.
  - apply elem_of_nil in Hin. contradiction.
  - cbn [map find fst snd]. rewrite Hid.
    apply NoDup_cons in Hnodup as [Hfresh Hnodup].
    apply elem_of_cons in Hin as [[= <- <-] | Hin].
    + rewrite String.eqb_refl. reflexivity.
    + destruct (String.eqb_spec k product_id) as [->|_].
      * exfalso. apply Hfresh. apply list_elem_of_fmap.
        exists (product_id, item). split; [reflexivity | exact Hin].
      * apply IH; assumption.
Qed.

(** A status read of one product is the status of its row. *)
Lemma get_pantry_item_lookup (now : Z) (product_id : string) (d : db)
    (item : PantryItems.row) :
  pantry_items d !! product_id = Some item ->
  Pantry.get_pantry_item now product_id d
  = Some (Pantry.pantry_status true now product_id item).
Proof.
  intros Hitem. unfold Pantry.get_pantry_item, Pantry.get_pantry_status.
  apply find_by_product_id.
  - reflexivity.
  - rewrite (merge_sort_Permutation Pantry.by_level). apply NoDup_fst_map_to_list.
  - rewrite (merge_sort_Permutation Pantry.by_level).
    apply elem_of_map_to_list. exact Hitem.
Qed.

Lemma current_level_stored (now : Z) (item : PantryItems.row) :
  truthy_int (PantryItems.auto_deplete item) = false
  \/ truthy_float (PantryItems.daily_depletion_rate item) = false ->
  Pantry.current_level true now item = float (PantryItems.level_percent item).
Proof.
  unfold Pantry.current_level. intros [-> | ->]; cbn [andb]; [reflexivity|].
  rewrite andb_false_r. reflexivity.
Qed.

Lemma current_level_decayed (now : Z) (item : PantryItems.row)
    (rate : Q) (last_updated : string) (last_dt : Z) :
  truthy_int (PantryItems.auto_deplete item) = true ->
  PantryItems.daily_depletion_rate item = Some rate ->
  (0 < rate)%Q ->
  PantryItems.last_updated_at item = Some last_updated ->
  fromisoformat last_updated = Some last_dt ->
  Pantry.current_level true now item
  = Spec.decayed_level (PantryItems.level_percent item)
      (td_total_seconds (now - last_dt) / 86400)%Q rate.
Proof.
  intros Hauto Hrate Hpos Hlast Hparse.
  assert (last_updated <> ""%string) as Hne
    by (intros ->; rewrite fromisoformat_empty in Hparse; discriminate).
  unfold Pantry.current_level.
  rewrite Hauto, Hrate, Hlast.
  rewrite (proj2 (truthy_float_Some rate)) by (intros Hz; rewrite Hz in Hpos; inversion Hpos).
  rewrite (proj2 (truthy_str_Some last_updated) Hne).
  cbn [andb].
  change (default ""%string (Some last_updated)) with last_updated.
  change (default 0%Q (Some rate)) with rate.
  rewrite Hparse. reflexivity.
Qed.

(** C10. For every pantry row whose [auto_deplete] flag is false (0 or
    null) or whose [daily_depletion_rate] is zero (or null), a status read
    with [apply_depletion=True] reports as [level_percent] the stored
    level, whatever the time since [last_updated_at]: the level it works
    with is the stored one.  So a read that works with another level than
    the stored one is of a row with the flag set and a rate that is not
    zero. *)
Theorem no_decay_without_auto_deplete_or_rate (now : Z) (product_id : string)
    (item : PantryItems.row) :
  (PantryItems.auto_deplete item = None
   \/ PantryItems.auto_deplete item = Some 0
   \/ PantryItems.daily_depletion_rate item = None
   \/ (exists rate, PantryItems.daily_depletion_rate item = Some rate /\ (rate == 0)%Q) ->
   Pantry.current_level true now item = float (PantryItems.level_percent item)
   /\ Pantry.level_percent (Pantry.pantry_status true now product_id item)
      = PantryItems.level_percent item
   /\ forall d,
       pantry_items d !! product_id = Some item ->
       Pantry.level_percent <$> Pantry.get_pantry_item now product_id d
       = Some (PantryItems.level_percent item))
  /\ (Pantry.current_level true now item <> float (PantryItems.level_percent item) ->
      (exists flag, PantryItems.auto_deplete item = Some flag /\ flag <> 0)
      /\ (exists rate,
             PantryItems.daily_depletion_rate item = Some rate /\ ~ (rate == 0)%Q)).
Proof.
  assert (truthy_int (PantryItems.auto_deplete item) = false
          \/ truthy_float (PantryItems.daily_depletion_rate item) = false ->
          Pantry.level_percent (Pantry.pantry_status true now product_id item)
          = PantryItems.level_percent item) as Hreport.
  { intros Hoff. unfold Pantry.pantry_status. cbn [Pantry.level_percent].
    rewrite (current_level_stored now item Hoff). apply round_float. }
  split.
  - intros Hcase.
    assert (truthy_int (PantryItems.auto_deplete item) = false
            \/ truthy_float (PantryItems.daily_depletion_rate item) = false) as Hoff.
    { destruct Hcase as [Hnone | [Hzero | Hrate]].
      - left. apply truthy_int_false. left. exact Hnone.
      - left. apply truthy_int_false. right. exact Hzero.
      - right. apply truthy_float_false. exact Hrate. }
    split; [exact (current_level_stored now item Hoff)|].
    split; [exact (Hreport Hoff)|].
    intros d Hitem. rewrite (get_pantry_item_lookup now product_id d item Hitem).
    cbn [fmap option_fmap option_map]. f_equal. exact (Hreport Hoff).
  - intros Hdiff.
    destruct (truthy_int (PantryItems.auto_deplete item)) eqn:Hauto;
      [|exfalso; apply Hdiff, current_level_stored; left; exact Hauto].
    destruct (truthy_float (PantryItems.daily_depletion_rate item)) eqn:Hrate;
      [|exfalso; apply Hdiff, current_level_stored; right; exact Hrate].
    split.
    + destruct (PantryItems.auto_deplete item) as [flag|]; [|discriminate].
      exists flag. split; [reflexivity|]. cbn in Hauto.
      apply negb_true_iff, Z.eqb_neq in Hauto. exact Hauto.
    + destruct (PantryItems.daily_depletion_rate item) as [rate|]; [|discriminate].
      exists rate. split; [reflexivity|]. apply truthy_float_Some. exact Hrate.
Qed.

(** The days since [last_dt] are not negative at or after it. *)
Lemma elapsed_days_nonneg (now last_dt : Z) :
  last_dt <= now -> (0 <= td_total_seconds (now - last_dt) / 86400)%Q.
Proof.
  intros Hlater. unfold td_total_seconds.
  assert (0 <= float (now - last_dt))%Q as Hdelta
    by (change 0%Q with (float 0); rewrite <- Zle_Qle; lia).
  apply Qle_shift_div_l; [reflexivity|]. rewrite Qmult_0_l.
  apply Qle_shift_div_l; [reflexivity|]. rewrite Qmult_0_l. exact Hdelta.
Qed.

(** C7, as amended. For every pantry row with auto-depletion enabled, a
    positive [daily_depletion_rate], a stored level within 0..100 and a
    [last_updated_at] that parses and is not after the read, a status
    read ([apply_depletion=True]) reports as [level_percent] an integer
    next to the level [max(0, stored_level - elapsed_days *
    daily_depletion_rate)], where [elapsed_days = (now - last_updated_at)
    / 86400] seconds: less than 1 away from it, and the nearest integer
    [k] whenever the level is within 0.49 of [k].  (The code computes the
    level in floating point and rounds it, so next to a half-way value
    either neighbour can be reported.)  The reported level is not negative
    and not above the stored one; the read returns no database, so the
    stored row is as it was.  A row at 100 with the rate 10, read 5 days
    after [last_updated_at], reports 50. *)
Theorem status_read_decays_level (now : Z) (product_id : string)
    (item : PantryItems.row) (rate : Q) (last_updated : string) (last_dt : Z) :
  truthy_int (PantryItems.auto_deplete item) = true ->
  PantryItems.daily_depletion_rate item = Some rate ->
  (0 < rate)%Q ->
  PantryItems.last_updated_at item = Some last_updated ->
  fromisoformat last_updated = Some last_dt ->
  0 <= PantryItems.level_percent item <= 100 ->
  last_dt <= now ->
  let elapsed_days := (td_total_seconds (now - last_dt) / 86400)%Q in
  let level :=
    Spec.decayed_level (PantryItems.level_percent item) elapsed_days rate in
  let reported :=
    Pantry.level_percent (Pantry.pantry_status true now product_id item) in
  (level - 1 < float reported < level + 1)%Q
  /\ (forall k : Z, (float k - 0.49 <= level <= float k + 0.49)%Q -> reported = k)
  /\ 0 <= reported <= PantryItems.level_percent item
  /\ (forall d,
         pantry_items d !! product_id = Some item ->
         Pantry.level_percent <$> Pantry.get_pantry_item now product_id d
         = Some reported)
  /\ (PantryItems.level_percent item = 100 -> (rate == 10)%Q ->
      now - last_dt = 5 * US_PER_DAY -> reported = 50).
Proof.
  intros Hauto Hrate Hpos Hlast Hparse Hstored Hlater elapsed_days level reported.
  pose proof (current_level_decayed now item rate last_updated last_dt
                Hauto Hrate Hpos Hlast Hparse) as Hlevel.
  fold elapsed_days level in Hlevel.
  assert (reported = round level) as Hreport.
  { subst reported. unfold Pantry.pantry_status. cbn [Pantry.level_percent].
    rewrite Hlevel. reflexivity. }
  pose proof (elapsed_days_nonneg now last_dt Hlater) as Helapsed.
  fold elapsed_days in Helapsed.
  assert (0 <= elapsed_days * rate)%Q as Hdepletion
    by (apply Qmult_le_0_compat; [exact Helapsed | apply Qlt_le_weak, Hpos]).
  assert (0 <= level <= float (PantryItems.level_percent item))%Q as Hbounds.
  { subst level. unfold Spec.decayed_level. split; [apply Q.le_max_l|].
    apply Q.max_lub; [|lra].
    change 0%Q with (float 0). rewrite <- Zle_Qle. lia. }
  pose proof (round_above level) as Habove. pose proof (round_below level) as Hbelow.
  split; [rewrite Hreport; split; lra|].
  split; [intros k Hnear; rewrite Hreport; apply round_near, Hnear|].
  split.
  { rewrite Hreport. split.
    - apply round_ge. apply Hbounds.
    - apply round_le. apply Hbounds. }
  split.
  - intros d Hitem. rewrite (get_pantry_item_lookup now product_id d item Hitem).
    reflexivity.
  - intros Hfull Hten Hfive. rewrite Hreport. subst level elapsed_days.
    rewrite Hfull, Hfive. unfold Spec.decayed_level.
    rewrite (round_value _ 50); [reflexivity|].
    rewrite Hten. reflexivity.
Qed.

End PantryStatus.

Section PantryStatusExamples.
#[local] Existing Instance Reference.runtime.

(** Milk is restocked to 100% on 2024-03-01 at 09:00, at the rate of 10 a
    day, and read 5 days later: the read reports 50
    ([status_read_decays_level]). *)
Lemma restocked_milk_after_five_days :
  let restocked := datetime_new 2024 3 1 9 0 0 0 in
  let now := datetime_new 2024 3 6 9 0 0 0 in
  let d := (Pantry.restock_item restocked "milk" 100 None Reference.ten_day_db).1 in
  pantry_items d !! "milk"%string = Some Reference.restocked_item
  /\ Pantry.level_percent
       (Pantry.pantry_status true now "milk" Reference.restocked_item) = 50
  /\ Pantry.level_percent <$> Pantry.get_pantry_item now "milk" d = Some 50.
Proof.
  intros restocked now d.
  assert (pantry_items d !! "milk"%string = Some Reference.restocked_item) as Hitem
    by (vm_compute; reflexivity).
  destruct (status_read_decays_level now "milk" Reference.restocked_item
              (100.0 / 10.0)%Q "2024-03-01T09:00:00"%string restocked)
    as (_ & _ & _ & Hread & Hfifty).
  - reflexivity.
  - reflexivity.
  - reflexivity.
  - reflexivity.
  - vm_compute. reflexivity.
  - cbn. lia.
  - vm_compute. discriminate.
  - split; [exact Hitem|].
    assert (Pantry.level_percent
              (Pantry.pantry_status true now "milk" Reference.restocked_item) = 50)
      as Hreported
      by (apply Hfifty; [reflexivity | reflexivity | vm_compute; reflexivity]).
    split; [exact Hreported|]. rewrite (Hread d Hitem), Hreported. reflexivity.
Defined.

(** C7, as claimed, fails. A row at 100 that loses 0.25 a day, read one day
    after [last_updated_at]: the level of the claim is 99.75, and the read
    reports 100. *)
Lemma status_read_rounds_level :
  let now := datetime_new 2024 3 2 9 0 0 0 in
  fromisoformat "2024-03-01T09:00:00" = Some (datetime_new 2024 3 1 9 0 0 0)
  /\ (td_total_seconds (now - datetime_new 2024 3 1 9 0 0 0) / 86400 == 1)%Q
  /\ (Spec.decayed_level 100 1 0.25 == 99.75)%Q
  /\ Pantry.level_percent (Pantry.pantry_status true now "salt" Reference.slow_item)
     = 100
  /\ ~ (float (Pantry.level_percent
                 (Pantry.pantry_status true now "salt" Reference.slow_item))
        == Spec.decayed_level 100 1 0.25)%Q.
Proof.
  intros now. repeat split; try (vm_compute; reflexivity).
  vm_compute. discriminate.
Qed.

(** A row at 80% with auto-depletion switched off, read a month after
    [last_updated_at]: the read reports 80
    ([no_decay_without_auto_deplete_or_rate]). *)
Lemma manual_item_after_a_month :
  Pantry.current_level true (datetime_new 2024 4 5 9 0 0 0) Reference.manual_item
  = float 80
  /\ Pantry.level_percent
       (Pantry.pantry_status true (datetime_new 2024 4 5 9 0 0 0) "flour"
          Reference.manual_item)
     = 80.
Proof.
  pose proof (proj1 (no_decay_without_auto_deplete_or_rate
                       (datetime_new 2024 4 5 9 0 0 0) "flour" Reference.manual_item)
                (or_intror (or_introl eq_refl))) as (Hlevel & Hreport & _).
  split; [exact Hlevel | exact Hreport].
Defined.

End PantryStatusExamples.

(* ===================================================================== *)
(** * Theorems: the statistics orchestrator (statistics.py) *)
(* ===================================================================== *)

Section Orchestrator.
Context `{Runtime}.

Lemma qualifying_events_ledger (product_id : string) (d d' : db) :
  purchase_events d' = purchase_events d ->
  Statistics.qualifying_events product_id d'
  = Statistics.qualifying_events product_id d.
Proof.
  intros Hledger. unfold Statistics.qualifying_events. rewrite Hledger. reflexivity.
Qed.

Lemma qualifying_events_elem (product_id : string) (d : db) (e : PurchaseEvents.row) :
  e ∈ Statistics.qualifying_events product_id d
  <-> Statistics.qualifying product_id e = true /\ e ∈ purchase_events d.
Proof.
  unfold Statistics.qualifying_events.
  rewrite (merge_sort_Permutation Statistics.by_event_date).
  rewrite list_elem_of_filter. reflexivity.
Qed.

(** The time of the run is in [updated_at] and nowhere else. *)
Lemma compute_stats_now (config : Config.PredictionConfig) (now now' : Z)
    (events : list PurchaseEvents.row) :
  Spec.derived_columns (Statistics.compute_stats config now' events).1
  = Spec.derived_columns (Statistics.compute_stats config now events).1
  /\ (Statistics.compute_stats config now' events).2
     = (Statistics.compute_stats config now events).2.
Proof. split; reflexivity. Qed.

(** The three ways [update_product_stats] ends. *)
Lemma update_product_stats_cases (config : Config.PredictionConfig) (now : Z)
    (product_id : string) (d : db) :
  let events := Statistics.qualifying_events product_id d in
  let row := (Statistics.compute_stats config now events).1 in
  let confidence := (Statistics.compute_stats config now events).2 in
  (events = []
   /\ Statistics.update_product_stats config now product_id d
      = (d, Returned (Statistics.NoEvents product_id)))
  \/ (events <> []
      /\ (is_Some (product_statistics d !! product_id)
          \/ is_Some (products d !! product_id))
      /\ Statistics.update_product_stats config now product_id d
         = (set_product_statistics d (<[product_id := row]> (product_statistics d)),
            Returned (Statistics.Updated product_id row confidence)))
  \/ (events <> []
      /\ product_statistics d !! product_id = None
      /\ products d !! product_id = None
      /\ Statistics.update_product_stats config now product_id d
         = (d, Raised IntegrityError)).
Proof.
  intros events row confidence. subst row confidence.
  unfold Statistics.update_product_stats. fold events.
  destruct events as [|e events'] eqn:Hevents; [left; split; reflexivity|]. right.
  destruct (Statistics.compute_stats config now (e :: events')) as [row c].
  unfold references_product.
  destruct (decide (is_Some (product_statistics d !! product_id))) as [Hps|Hps].
  - left. rewrite (bool_decide_eq_true_2 _ Hps). cbn [orb].
    split; [discriminate|]. split; [left; exact Hps | reflexivity].
  - rewrite (bool_decide_eq_false_2 _ Hps). cbn [orb].
    destruct (decide (is_Some (products d !! product_id))) as [Hp|Hp].
    + left. rewrite (bool_decide_eq_true_2 _ Hp).
      split; [discriminate|]. split; [right; exact Hp | reflexivity].
    + right. rewrite (bool_decide_eq_false_2 _ Hp).
      split; [discriminate|].
      split; [apply eq_None_not_Some, Hps|].
      split; [apply eq_None_not_Some, Hp | reflexivity].
Qed.

(** A ledger that is extended by events that do not qualify for the
    product, those of other products and those that are no purchase, has
    the qualifying events it had. *)
Lemma qualifying_events_extended (product_id : string) (d d' : db)
    (extra : list PurchaseEvents.row) :
  purchase_events d' = purchase_events d ++ extra ->
  Forall (fun e => Statistics.qualifying product_id e = false) extra ->
  Statistics.qualifying_events product_id d'
  = Statistics.qualifying_events product_id d.
Proof.
  intros Hledger Hextra. unfold Statistics.qualifying_events.
  rewrite Hledger, filter_app.
  rewrite (filter_none _ extra), app_nil_r; [reflexivity|].
  intros e He Hqualifies. rewrite Forall_forall in Hextra.
  rewrite (Hextra e He) in Hqualifies. discriminate.
Qed.

(** C1, as amended. Two runs of [update_product_stats] for a product, on
    two databases in which the product has the same qualifying events,
    whatever else differs between them: when the first run persists a
    record, the second one, where the product or its record exists,
    persists a record that is identical in every column but [updated_at],
    which holds the time of the run, and returns the same confidence; it
    changes no other record and no other table.  When the first run finds
    no event, so does the second.  The columns other than [updated_at] are
    so a function of the qualifying events and the configuration.  The
    database that the first run leaves is such a database, and so is every
    database whose ledger has more events that do not qualify for the
    product; a second run at the same time straight after the first
    leaves the database as it is. *)
Theorem update_product_stats_idempotent (config : Config.PredictionConfig)
    (now1 now2 : Z) (product_id : string) (d d' : db) :
  let run1 := Statistics.update_product_stats config now1 product_id d in
  let run2 := Statistics.update_product_stats config now2 product_id d' in
  Statistics.qualifying_events product_id d'
  = Statistics.qualifying_events product_id d ->
  (forall row1 c1,
      run1.2 = Returned (Statistics.Updated product_id row1 c1) ->
      product_statistics run1.1 !! product_id = Some row1
      /\ (is_Some (product_statistics d' !! product_id)
          \/ is_Some (products d' !! product_id) ->
          exists row2,
            run2.2 = Returned (Statistics.Updated product_id row2 c1)
            /\ product_statistics run2.1 !! product_id = Some row2
            /\ Spec.derived_columns row2 = Spec.derived_columns row1
            /\ ProductStatistics.updated_at row1 = isoformat now1
            /\ ProductStatistics.updated_at row2 = isoformat now2
            /\ (now1 = now2 -> row2 = row1)
            /\ (now1 = now2 -> d' = run1.1 -> run2.1 = d'))
      /\ (product_statistics d' !! product_id = None ->
          products d' !! product_id = None ->
          run2 = (d', Raised IntegrityError)))
  /\ (run1.2 = Returned (Statistics.NoEvents product_id) ->
      run2 = (d', Returned (Statistics.NoEvents product_id)))
  /\ (forall other, other <> product_id ->
         product_statistics run2.1 !! other = product_statistics d' !! other)
  /\ products run2.1 = products d'
  /\ purchase_events run2.1 = purchase_events d'
  /\ pantry_items run2.1 = pantry_items d'
  /\ Statistics.qualifying_events product_id run1.1
     = Statistics.qualifying_events product_id d
  /\ (forall d'' extra,
         purchase_events d'' = purchase_events run1.1 ++ extra ->
         Forall (fun e => Statistics.qualifying product_id e = false) extra ->
         Statistics.qualifying_events product_id d''
         = Statistics.qualifying_events product_id d).
Proof.
  intros run1 run2 Hevents.
  pose proof (update_product_stats_frame config now1 product_id d)
    as (_ & Hledger1 & _).
  pose proof (update_product_stats_frame config now2 product_id d')
    as (Hproducts2 & Hledger2 & Hpantry2).
  fold run1 in Hledger1. fold run2 in Hproducts2, Hledger2, Hpantry2.
  pose proof (update_product_stats_cases config now1 product_id d) as Hcase1.
  pose proof (update_product_stats_cases config now2 product_id d') as Hcase2.
  cbv zeta in Hcase1, Hcase2. rewrite Hevents in Hcase2.
  fold run1 in Hcase1. fold run2 in Hcase2.
  set (events := Statistics.qualifying_events product_id d) in *.
  split; [|split; [|split; [|split; [|split; [|split; [|split]]]]]].
  - intros row1 c1 Hrun1.
    destruct Hcase1 as [(_ & Heq1) | [(Hsome & _ & Heq1) | (_ & _ & _ & Heq1)]];
      rewrite Heq1 in Hrun1; cbn [snd] in Hrun1; try discriminate.
    injection Hrun1 as <- <-. rewrite Heq1.
    cbn [fst product_statistics set_product_statistics].
    split; [apply lookup_insert_eq|]. split.
    + intros Hexists.
      destruct Hcase2 as [(Hnone & _) | [(_ & _ & Heq2) | (_ & Hps & Hp & _)]].
      * contradiction.
      * rewrite Heq2. cbn [fst snd product_statistics set_product_statistics].
        eexists. split; [reflexivity|]. split; [apply lookup_insert_eq|].
        split; [apply compute_stats_now|]. split; [reflexivity|].
        split; [reflexivity|]. split; [intros ->; reflexivity|].
        intros -> ->. unfold set_product_statistics. cbn.
        rewrite insert_insert_eq. reflexivity.
      * rewrite Hps, Hp in Hexists. destruct Hexists as [[? ?]|[? ?]]; discriminate.
    + intros Hps Hp.
      destruct Hcase2 as [(Hnone & _) | [(_ & Hkey & _) | (_ & _ & _ & Heq2)]].
      * contradiction.
      * rewrite Hps, Hp in Hkey. destruct Hkey as [[? ?]|[? ?]]; discriminate.
      * exact Heq2.
  - intros Hrun1.
    destruct Hcase1 as [(Hnone & _) | [(_ & _ & Heq1) | (_ & _ & _ & Heq1)]];
      [|rewrite Heq1 in Hrun1; discriminate..].
    destruct Hcase2 as [(_ & Heq2) | [(Hsome & _) | (Hsome & _)]];
      [exact Heq2 | contradiction..].
  - intros other Hother.
    destruct Hcase2 as [(_ & Heq2) | [(_ & _ & Heq2) | (_ & _ & _ & Heq2)]];
      rewrite Heq2; cbn [fst product_statistics set_product_statistics];
      try reflexivity.
    apply lookup_insert_ne. congruence.
  - exact Hproducts2.
  - exact Hledger2.
  - exact Hpantry2.
  - apply qualifying_events_ledger, Hledger1.
  - intros d'' extra Hledger Hextra.
    rewrite (qualifying_events_extended product_id run1.1 d'' extra Hledger Hextra).
    apply qualifying_events_ledger, Hledger1.
Qed.

End Orchestrator.

Section OrchestratorExamples.
#[local] Existing Instance Reference.runtime.

(** Milk, ordered on 2024-01-01, 2024-01-08 and 2024-01-15: a run, then a
    cart addition of milk and an order of eggs, then a second run five
    minutes after the first.  The two runs persist records for milk with
    the same columns but [updated_at] ([update_product_stats_idempotent]):
    3 purchases, 7 days between them, the category routine. *)
Lemma two_runs_on_weekly_orders :
  let d := Reference.weekly_orders_db in
  let run1 :=
    Statistics.update_product_stats Config.default
      (datetime_new 2024 1 20 9 0 0 0) "milk" d in
  let d' :=
    set_purchase_events run1.1
      (purchase_events run1.1
       ++ [PurchaseEvents.mk "milk" 1 "cart_add" "2024-01-20" "2024-01-20T09:02:00";
           Reference.order "eggs" "2024-01-20"]) in
  let run2 :=
    Statistics.update_product_stats Config.default
      (datetime_new 2024 1 20 9 5 0 0) "milk" d' in
  Statistics.qualifying_events "milk" d' = Statistics.qualifying_events "milk" d
  /\ exists row1 row2 confidence,
       run1.2 = Returned (Statistics.Updated "milk" row1 confidence)
       /\ run2.2 = Returned (Statistics.Updated "milk" row2 confidence)
       /\ product_statistics run1.1 !! "milk"%string = Some row1
       /\ product_statistics run2.1 !! "milk"%string = Some row2
       /\ Spec.derived_columns row2 = Spec.derived_columns row1
       /\ ProductStatistics.total_purchases row1 = 3
       /\ ProductStatistics.detected_category row1 = "routine"%string
       /\ ProductStatistics.updated_at row1 = "2024-01-20T09:00:00"%string
       /\ ProductStatistics.updated_at row2 = "2024-01-20T09:05:00"%string.
Proof.
  intros d run1 d' run2.
  assert (Statistics.qualifying_events "milk" d'
          = Statistics.qualifying_events "milk" d) as Hevents
    by (vm_compute; reflexivity).
  split; [exact Hevents|].
  assert (exists row1 confidence,
            run1.2 = Returned (Statistics.Updated "milk" row1 confidence)
            /\ ProductStatistics.total_purchases row1 = 3
            /\ ProductStatistics.detected_category row1 = "routine"%string)
    as (row1 & confidence & Hresult1 & Htotal & Hcategory).
  { vm_compute. eexists. eexists. split; [reflexivity|]. split; reflexivity. }
  destruct (proj1 (update_product_stats_idempotent Config.default
                     (datetime_new 2024 1 20 9 0 0 0)
                     (datetime_new 2024 1 20 9 5 0 0) "milk" d d' Hevents)
              row1 confidence Hresult1)
    as (Hrow1 & Hsecond & _).
  destruct Hsecond as (row2 & Hresult2 & Hrow2 & Hsame & Hat1 & Hat2 & _).
  { right. vm_compute. eexists. reflexivity. }
  exists row1, row2, confidence.
  split; [exact Hresult1|]. split; [exact Hresult2|]. split; [exact Hrow1|].
  split; [exact Hrow2|]. split; [exact Hsame|]. split; [exact Htotal|].
  split; [exact Hcategory|]. split; [exact Hat1 | exact Hat2].
Defined.

(** C1, as claimed, fails. Milk, ordered on 2024-01-01, 2024-01-08 and
    2024-01-15: two runs on the same ledger, five minutes apart, persist
    records that differ, in [updated_at]. *)
Lemma two_runs_differ_in_updated_at :
  let d := Reference.weekly_orders_db in
  let d1 := (Statistics.update_product_stats Config.default
               (datetime_new 2024 1 20 9 0 0 0) "milk" d).1 in
  let d2 := (Statistics.update_product_stats Config.default
               (datetime_new 2024 1 20 9 5 0 0) "milk" d1).1 in
  purchase_events d1 = purchase_events d
  /\ ProductStatistics.updated_at <$> (product_statistics d1 !! "milk"%string)
     = Some "2024-01-20T09:00:00"%string
  /\ ProductStatistics.updated_at <$> (product_statistics d2 !! "milk"%string)
     = Some "2024-01-20T09:05:00"%string
  /\ product_statistics d2 !! "milk"%string <> product_statistics d1 !! "milk"%string.
Proof.
  intros d d1 d2. repeat split; try (vm_compute; reflexivity).
  intros Heq.
  assert (ProductStatistics.updated_at <$> (product_statistics d2 !! "milk"%string)
          = ProductStatistics.updated_at <$> (product_statistics d1 !! "milk"%string))
    as Hstamp by (rewrite Heq; reflexivity).
  vm_compute in Hstamp. discriminate.
Qed.

End OrchestratorExamples.

(* ===================================================================== *)
(** * Theorems: the foreign keys are an invariant *)
(* ===================================================================== *)

Section ForeignKeys.
Context `{Runtime}.

Lemma foreign_keys_products (d d' : db) :
  dom (products d) ⊆ dom (products d') ->
  dom (pantry_items d') ⊆ dom (pantry_items d) ->
  dom (product_statistics d') ⊆ dom (product_statistics d) ->
  purchase_events d' = purchase_events d ->
  Spec.foreign_keys_hold d -> Spec.foreign_keys_hold d'.
Proof.
  intros Hproducts Hpantry Hstats Hledger (Hfk1 & Hfk2 & Hfk3).
  split; [|split]; [set_solver | set_solver |].
  rewrite Hledger. eapply Forall_impl; [exact Hfk3|]. set_solver.
Qed.

Lemma update_product_stats_foreign_keys (config : Config.PredictionConfig)
    (now : Z) (product_id : string) (d : db) :
  Spec.foreign_keys_hold d ->
  Spec.foreign_keys_hold (Statistics.update_product_stats config now product_id d).1.
Proof.
  intros Hfk.
  destruct (update_product_stats_cases config now product_id d)
    as [(_ & ->) | [(_ & Hkey & ->) | (_ & _ & _ & ->)]]; cbn [fst]; try exact Hfk.
  destruct Hfk as (Hfk1 & Hfk2 & Hfk3).
  split; [|split]; cbn [pantry_items products product_statistics purchase_events
                        set_product_statistics];
    [exact Hfk1 | | exact Hfk3].
  rewrite dom_insert_L. apply union_subseteq. split; [|exact Hfk2].
  apply singleton_subseteq_l.
  destruct Hkey as [Hkey | Hkey]; [apply Hfk2|]; apply elem_of_dom, Hkey.
Qed.

Lemma set_product_category_foreign_keys (now : Z) (current_timestamp : string)
    (product_id category : string) (is_override : bool) (d : db) :
  Spec.foreign_keys_hold d ->
  Spec.foreign_keys_hold
    (Categories.set_product_category now current_timestamp product_id category
       is_override d).1.
Proof.
  intros Hfk. unfold Categories.set_product_category.
  destruct (negb _); [exact Hfk|].
  destruct (products d !! product_id);
    (eapply foreign_keys_products; [| | | |exact Hfk]);
    cbn [fst pantry_items products product_statistics purchase_events set_products];
    try reflexivity; rewrite dom_insert_L; set_solver.
Qed.

Lemma auto_categorize_all_foreign_keys (config : Config.PredictionConfig)
    (now : string -> Z) (d : db) :
  Spec.foreign_keys_hold d ->
  Spec.foreign_keys_hold (Categories.auto_categorize_all config now d).1.
Proof.
  intros Hfk. eapply foreign_keys_products; [| | | |exact Hfk]; try reflexivity.
  intros product_id Hin. apply elem_of_dom in Hin as [row Hrow].
  apply elem_of_dom. rewrite auto_categorize_all_lookup, Hrow. eauto.
Qed.

Lemma restock_item_foreign_keys (now : Z) (product_id : string) (level : Z)
    (description : option string) (d : db) :
  Spec.foreign_keys_hold d ->
  Spec.foreign_keys_hold (Pantry.restock_item now product_id level description d).1.
Proof.
  intros Hfk. unfold Pantry.restock_item.
  destruct (pantry_items d !! product_id) as [old|] eqn:Hold.
  - destruct Hfk as (Hfk1 & Hfk2 & Hfk3).
    split; [|split]; cbn [fst pantry_items products product_statistics
                          purchase_events set_pantry_items];
      [| exact Hfk2 | exact Hfk3].
    rewrite dom_insert_L. apply union_subseteq. split; [|exact Hfk1].
    apply singleton_subseteq_l, Hfk1, elem_of_dom. eauto.
  - unfold references_product. case_bool_decide as Hproduct; [|exact Hfk].
    destruct Hfk as (Hfk1 & Hfk2 & Hfk3).
    split; [|split]; cbn [fst pantry_items products product_statistics
                          purchase_events set_pantry_items];
      [| exact Hfk2 | exact Hfk3].
    rewrite dom_insert_L. apply union_subseteq. split; [|exact Hfk1].
    apply singleton_subseteq_l, elem_of_dom, Hproduct.
Qed.

Lemma _record_depletion_event_foreign_keys (config : Config.PredictionConfig)
    (now_stats : Z) (product_id last_restocked_at depleted_at : string) (d : db) :
  Spec.foreign_keys_hold d ->
  Spec.foreign_keys_hold
    (Pantry._record_depletion_event config now_stats product_id last_restocked_at
       depleted_at d).1.
Proof.
  intros Hfk. unfold Pantry._record_depletion_event, references_product.
  case_bool_decide as Hproduct; [|exact Hfk].
  match goal with
  | |- context [Statistics.update_product_stats ?c ?n ?p ?d1] =>
      assert (Spec.foreign_keys_hold d1) as Hfk1;
      [|pose proof (update_product_stats_foreign_keys c n p d1 Hfk1) as Hfk2;
        destruct (Statistics.update_product_stats c n p d1) as [d2 [r|e]]]
  end.
  - destruct Hfk as (Hfk1 & Hfk2 & Hfk3).
    split; [|split]; cbn [pantry_items products product_statistics purchase_events
                          set_purchase_events];
      [exact Hfk1 | exact Hfk2 |].
    apply Forall_app. split; [exact Hfk3|].
    constructor; [|constructor]. cbn. apply elem_of_dom, Hproduct.
  - cbn [fst] in *. destruct Hfk2 as (Hfk2a & Hfk2b & Hfk2c).
    split; [|split]; cbn [pantry_items products product_statistics purchase_events
                          set_pantry_items];
      [| exact Hfk2b | exact Hfk2c].
    intros k Hk. apply Hfk2a. apply elem_of_dom in Hk. apply elem_of_dom.
    rewrite lookup_alter in Hk. case_decide; [subst|exact Hk].
    destruct (pantry_items d2 !! k); [eauto | destruct Hk; discriminate].
  - exact Hfk2.
Qed.

(** The calls that write keep the foreign keys of the schema. *)
Lemma update_pantry_level_foreign_keys (config : Config.PredictionConfig)
    (now now_stats : Z) (product_id : string) (level : Z) (d : db) :
  Spec.foreign_keys_hold d ->
  Spec.foreign_keys_hold
    (Pantry.update_pantry_level config now now_stats product_id level d).1.
Proof.
  intros Hfk. unfold Pantry.update_pantry_level.
  destruct (pantry_items d !! product_id) as [row|]; [|exact Hfk].
  match goal with
  | |- context [if ?c then ?a else ?b] =>
      assert (Spec.foreign_keys_hold (if c then a else b).1) as Hfk1;
      [destruct c; [apply _record_depletion_event_foreign_keys|]; exact Hfk|];
      destruct (if c then a else b) as [d1 recorded]
  end.
  cbn [fst] in *. destruct Hfk1 as (Hfk1a & Hfk1b & Hfk1c).
  split; [|split]; cbn [pantry_items products product_statistics purchase_events
                        set_pantry_items];
    [| exact Hfk1b | exact Hfk1c].
  intros k Hk. apply Hfk1a. apply elem_of_dom in Hk. apply elem_of_dom.
  rewrite lookup_alter in Hk. case_decide; [subst|exact Hk].
  destruct (pantry_items d1 !! k); [eauto | destruct Hk; discriminate].
Qed.

End ForeignKeys.

(* ===================================================================== *)
(** * Theorems: the depletion feedback (pantry.py) *)
(* ===================================================================== *)

Section DepletionFeedback.
Context `{Runtime}.

Lemma tracked_product_exists (d : db) (product_id : string) (item : PantryItems.row) :
  Spec.foreign_keys_hold d ->
  pantry_items d !! product_id = Some item ->
  references_product d product_id = true.
Proof.
  intros (Hpantry & _ & _) Hitem. unfold references_product.
  apply bool_decide_eq_true_2, elem_of_dom, Hpantry, elem_of_dom.
  rewrite Hitem. eauto.
Qed.

Lemma depletion_event_qualifies (product_id : string) (now : Z) (d : db) :
  Spec.depletion_event product_id now
  ∈ Statistics.qualifying_events product_id
      (set_purchase_events d (purchase_events d ++ [Spec.depletion_event product_id now])).
Proof.
  apply qualifying_events_elem. split.
  - unfold Statistics.qualifying, Spec.depletion_event. cbn.
    rewrite String.eqb_refl. reflexivity.
  - cbn. apply elem_of_app. right. apply list_elem_of_singleton. reflexivity.
Qed.

(** With the product in [products], [_record_depletion_event] appends the
    event, runs the orchestrator on the new ledger, which persists its
    record, and stores the rate computed from that record. *)
Lemma _record_depletion_event_recorded (config : Config.PredictionConfig)
    (now now_stats : Z) (product_id last_restocked_at : string) (d : db) :
  references_product d product_id = true ->
  let ledger :=
    set_purchase_events d (purchase_events d ++ [Spec.depletion_event product_id now]) in
  let d2 := (Statistics.update_product_stats config now_stats product_id ledger).1 in
  product_statistics d2
  = <[product_id :=
        (Statistics.compute_stats config now_stats
           (Statistics.qualifying_events product_id ledger)).1]>
      (product_statistics d)
  /\ Pantry._record_depletion_event config now_stats product_id last_restocked_at
       (isoformat now) d
     = (set_pantry_items d2
          (alter
             (fun row =>
                PantryItems.mk (PantryItems.description row)
                  (PantryItems.level_percent row)
                  (PantryItems.last_restocked_at row)
                  (PantryItems.last_updated_at row)
                  (PantryItems.auto_deplete row)
                  (Some (Pantry.calculate_depletion_rate product_id d2))
                  (PantryItems.low_threshold row))
             product_id (pantry_items d)),
        true).
Proof.
  intros Hproduct ledger d2. subst d2.
  unfold Pantry._record_depletion_event. rewrite Hproduct, isoformat_date.
  fold (Spec.depletion_event product_id now). fold ledger.
  pose proof (depletion_event_qualifies product_id now d) as Hin. fold ledger in Hin.
  destruct (update_product_stats_cases config now_stats product_id ledger)
    as [(Hnone & _) | [(_ & _ & Hrun) | (_ & _ & Hp & _)]].
  - rewrite Hnone in Hin. apply elem_of_nil in Hin. contradiction.
  - cbv zeta in Hrun. rewrite Hrun. cbn [fst]. split; reflexivity.
  - unfold references_product in Hproduct. apply bool_decide_eq_true_1 in Hproduct.
    change (products ledger) with (products d) in Hp.
    rewrite Hp in Hproduct. destruct Hproduct; discriminate.
Qed.

(** The rate that [calculate_depletion_rate] makes of the statistics of
    the product: 100 over the average interval when this is positive, and
    0.0 without one. *)
Lemma calculate_depletion_rate_of_statistics (product_id : string) (d : db)
    (stats : ProductStatistics.row) :
  product_statistics d !! product_id = Some stats ->
  let rate := Pantry.calculate_depletion_rate product_id d in
  (forall avg_days,
      ProductStatistics.avg_days_between_purchases stats = Some avg_days ->
      (0 < avg_days)%Q -> rate = (100.0 / avg_days)%Q)
  /\ (ProductStatistics.avg_days_between_purchases stats = None
      \/ (exists avg_days,
             ProductStatistics.avg_days_between_purchases stats = Some avg_days
             /\ (avg_days <= 0)%Q) ->
      rate = 0.0%Q).
Proof.
  intros Hstats rate. subst rate. unfold Pantry.calculate_depletion_rate.
  rewrite Hstats. split.
  - intros avg_days -> Hpos.
    replace (Qeqb0 avg_days) with false.
    + rewrite (proj2 (Qltb_lt 0 avg_days) Hpos). reflexivity.
    + symmetry. apply not_true_iff_false. intros Hzero.
      apply Qeqb0_true in Hzero. rewrite Hzero in Hpos. discriminate.
  - intros [-> | (avg_days & -> & Hneg)]; [reflexivity|].
    rewrite (proj2 (Qltb_ge 0 avg_days) Hneg), andb_false_r. reflexivity.
Qed.

(** C8. For every tracked pantry row, in a database whose foreign keys
    hold: setting the level by hand to 5 or less, when the stored level is
    above 5 and [last_restocked_at] is there, records one new event, the
    last of the ledger, of the type [pantry_depleted], dated the day of
    [now]; runs the orchestrator on the new ledger, which persists the
    statistics of the product computed from it; and then stores in the row,
    with the new level, the rate of these statistics: 100 over their
    [avg_days_between_purchases] when this is positive, and 0.0 when it is
    null or not positive.  When one of the three conditions fails, the
    ledger and the statistics are as they were, and so is the rate. *)
Theorem depletion_feedback (config : Config.PredictionConfig) (now now_stats : Z)
    (product_id : string) (level : Z) (d : db) (item : PantryItems.row) :
  Spec.foreign_keys_hold d ->
  pantry_items d !! product_id = Some item ->
  let new_level := Pantry.clamp_level level in
  let run := Pantry.update_pantry_level config now now_stats product_id level d in
  let event := Spec.depletion_event product_id now in
  let ledger := set_purchase_events d (purchase_events d ++ [event]) in
  let refreshed :=
    (Statistics.compute_stats config now_stats
       (Statistics.qualifying_events product_id ledger)).1 in
  (level <= 5 -> 5 < PantryItems.level_percent item ->
   (exists s, PantryItems.last_restocked_at item = Some s /\ s <> ""%string) ->
   purchase_events run.1 = purchase_events d ++ [event]
   /\ event ∈ Statistics.qualifying_events product_id ledger
   /\ product_statistics run.1
      = product_statistics
          (Statistics.update_product_stats config now_stats product_id ledger).1
   /\ product_statistics run.1 !! product_id = Some refreshed
   /\ (exists rate,
          pantry_items run.1 !! product_id
          = Some (PantryItems.mk (PantryItems.description item) new_level
                    (PantryItems.last_restocked_at item) (Some (isoformat now))
                    (PantryItems.auto_deplete item) (Some rate)
                    (PantryItems.low_threshold item))
          /\ (forall avg_days,
                 ProductStatistics.avg_days_between_purchases refreshed
                 = Some avg_days ->
                 (0 < avg_days)%Q -> rate = (100.0 / avg_days)%Q)
          /\ (ProductStatistics.avg_days_between_purchases refreshed = None
              \/ (exists avg_days,
                     ProductStatistics.avg_days_between_purchases refreshed
                     = Some avg_days
                     /\ (avg_days <= 0)%Q) ->
              rate = 0.0%Q))
   /\ run.2 = Pantry.LevelUpdated product_id new_level (isoformat now) true)
  /\ (~ (level <= 5 /\ 5 < PantryItems.level_percent item
         /\ exists s, PantryItems.last_restocked_at item = Some s /\ s <> ""%string) ->
      purchase_events run.1 = purchase_events d
      /\ product_statistics run.1 = product_statistics d
      /\ pantry_items run.1 !! product_id
         = Some (PantryItems.mk (PantryItems.description item) new_level
                   (PantryItems.last_restocked_at item) (Some (isoformat now))
                   (PantryItems.auto_deplete item)
                   (PantryItems.daily_depletion_rate item)
                   (PantryItems.low_threshold item))
      /\ run.2 = Pantry.LevelUpdated product_id new_level (isoformat now) false).
Proof.
  intros Hfk Hitem new_level run event ledger refreshed.
  pose proof (tracked_product_exists d product_id item Hfk Hitem) as Hproduct.
  assert (truthy_str (PantryItems.last_restocked_at item) = true
          <-> exists s, PantryItems.last_restocked_at item = Some s /\ s <> ""%string)
    as Hrestocked.
  { destruct (PantryItems.last_restocked_at item) as [s|].
    - rewrite truthy_str_Some. split; [eauto | intros (s' & [= <-] & Hne); exact Hne].
    - split; [discriminate | intros (s' & Hnone & _); discriminate]. }
  assert (new_level <= 5 <-> level <= 5) as Hclamp
    by (subst new_level; unfold Pantry.clamp_level; lia).
  subst run. unfold Pantry.update_pantry_level. rewrite Hitem. fold new_level.
  split.
  - intros Hlow Hprev Hlast. apply Hclamp in Hlow.
    replace (new_level <=? 5) with true by (symmetry; apply Z.leb_le; exact Hlow).
    replace (5 <? PantryItems.level_percent item) with true
      by (symmetry; apply Z.ltb_lt; exact Hprev).
    rewrite (proj2 Hrestocked Hlast). cbn [andb].
    destruct (_record_depletion_event_recorded config now now_stats product_id
                (default ""%string (PantryItems.last_restocked_at item)) d Hproduct)
      as (Hstats & ->).
    subst event. fold ledger in Hstats |- *.
    pose proof (update_product_stats_frame config now_stats product_id ledger)
      as (_ & Hledger & _).
    cbn [fst snd purchase_events product_statistics pantry_items set_pantry_items].
    split; [exact Hledger|].
    split; [apply depletion_event_qualifies|].
    split; [reflexivity|].
    assert (product_statistics
              (Statistics.update_product_stats config now_stats product_id ledger).1
            !! product_id = Some refreshed) as Hrefreshed
      by (rewrite Hstats; apply lookup_insert_eq).
    split; [exact Hrefreshed|].
    split; [|reflexivity].
    eexists. split; [rewrite !lookup_alter_eq, Hitem; reflexivity|].
    exact (calculate_depletion_rate_of_statistics product_id _ refreshed Hrefreshed).
  - intros Hnot.
    destruct ((new_level <=? 5) && (5 <? PantryItems.level_percent item)
              && truthy_str (PantryItems.last_restocked_at item)) eqn:Hcond.
    + exfalso. apply Hnot.
      apply andb_prop in Hcond as [Hcond Hlast]. apply andb_prop in Hcond as [Hlow Hprev].
      split; [apply Hclamp, Z.leb_le, Hlow|]. split; [apply Z.ltb_lt, Hprev|].
      apply Hrestocked, Hlast.
    + cbn [fst snd purchase_events product_statistics pantry_items set_pantry_items].
      repeat split. rewrite lookup_alter_eq, Hitem. reflexivity.
Qed.

End DepletionFeedback.

Section DepletionFeedbackExamples.
#[local] Existing Instance Reference.runtime.

Lemma milk_db_foreign_keys : Spec.foreign_keys_hold Reference.milk_db.
Proof.
  unfold Spec.foreign_keys_hold, Reference.milk_db.
  cbn [pantry_items products product_statistics purchase_events].
  split; [|split].
  - rewrite !dom_insert_L. set_solver.
  - rewrite dom_empty_L. set_solver.
  - repeat constructor; rewrite dom_insert_L; set_solver.
Qed.

(** Milk is in the pantry at 80%, restocked on 2024-03-01; on 2024-03-10
    its level is set to 3 ([depletion_feedback]): one event of that day is
    appended to the three orders, the statistics count 4 events, 80/7 days
    apart on average, the row of the pantry has the level 3 and the rate
    8.75, which is 100 over 80/7, and the call reports the recording. *)
Lemma milk_marked_empty :
  let now := datetime_new 2024 3 10 9 0 0 0 in
  let run :=
    Pantry.update_pantry_level Config.default now now "milk" 3 Reference.milk_db in
  purchase_events run.1
  = purchase_events Reference.milk_db ++ [Spec.depletion_event "milk" now]
  /\ Spec.depletion_event "milk" now
     = PurchaseEvents.mk "milk" 1 "pantry_depleted" "2024-03-10" "2024-03-10T09:00:00"
  /\ ProductStatistics.total_purchases <$> (product_statistics run.1 !! "milk"%string)
     = Some 4
  /\ (exists stats avg_days row rate,
         product_statistics run.1 !! "milk"%string = Some stats
         /\ ProductStatistics.avg_days_between_purchases stats = Some avg_days
         /\ (avg_days == 80 # 7)%Q
         /\ pantry_items run.1 !! "milk"%string = Some row
         /\ PantryItems.level_percent row = 3
         /\ PantryItems.daily_depletion_rate row = Some rate
         /\ rate = (100.0 / avg_days)%Q
         /\ (rate == 8.75)%Q)
  /\ run.2 = Pantry.LevelUpdated "milk" 3 "2024-03-10T09:00:00" true.
Proof.
  intros now run.
  destruct (proj1 (depletion_feedback Config.default now now "milk" 3
                     Reference.milk_db Reference.item_at_80
                     milk_db_foreign_keys eq_refl))
    as (Hledger & _ & _ & Hstats & (rate & Hrow & Hrate & _) & Hresult).
  - vm_compute. discriminate.
  - vm_compute. reflexivity.
  - exists "2024-03-01T09:00:00"%string. split; [reflexivity | discriminate].
  - split; [exact Hledger|]. split; [vm_compute; reflexivity|].
    split; [vm_compute; reflexivity|]. split; [|exact Hresult].
    match type of Hstats with
    | _ = Some ?refreshed =>
        assert (exists avg_days,
                  ProductStatistics.avg_days_between_purchases refreshed
                  = Some avg_days
                  /\ (0 < avg_days)%Q /\ (avg_days == 80 # 7)%Q
                  /\ (100.0 / avg_days == 8.75)%Q)
          as (avg_days & Havg & Hpositive & Hvalue & Hquotient)
          by (vm_compute; eexists; repeat split; reflexivity)
    end.
    eexists. exists avg_days. eexists. exists rate.
    split; [exact Hstats|]. split; [exact Havg|]. split; [exact Hvalue|].
    split; [exact Hrow|]. split; [reflexivity|]. split; [reflexivity|].
    pose proof (Hrate avg_days Havg Hpositive) as ->.
    split; [reflexivity | exact Hquotient].
Defined.

End DepletionFeedbackExamples.

(* ===================================================================== *)
(** * Theorems: further properties of the specification *)
(* ===================================================================== *)

Section FurtherProperties.
Context `{Runtime}.

(** The decision table of [detect_category]: fewer than 3 purchases give
    'uncategorized'; else a seasonality above the threshold gives 'treat';
    else no average gives 'uncategorized'; else an average up to
    [routine_max_days] gives 'routine', one up to [regular_max_days]
    'regular', and a longer one 'treat' when the seasonality is above 0.4
    and 'regular' otherwise. *)
Lemma detect_category_table (config : Config.PredictionConfig)
    (avg_days : option Q) (seasonality_score : Q) (total_purchases : Z) :
  let category :=
    Categories.detect_category config avg_days seasonality_score total_purchases in
  let routine_max := float (Config.routine_max_days config) in
  let regular_max := float (Config.regular_max_days config) in
  (total_purchases < 3 -> category = "uncategorized"%string)
  /\ (3 <= total_purchases ->
      (Config.seasonality_threshold config < seasonality_score)%Q ->
      category = "treat"%string)
  /\ (3 <= total_purchases ->
      (seasonality_score <= Config.seasonality_threshold config)%Q ->
      (avg_days = None -> category = "uncategorized"%string)
      /\ (forall avg, avg_days = Some avg ->
             ((avg <= routine_max)%Q -> category = "routine"%string)
             /\ ((routine_max < avg)%Q -> (avg <= regular_max)%Q ->
                 category = "regular"%string)
             /\ ((routine_max < avg)%Q -> (regular_max < avg)%Q ->
                 ((0.4 < seasonality_score)%Q -> category = "treat"%string)
                 /\ ((seasonality_score <= 0.4)%Q -> category = "regular"%string)))).
Proof.
  intros category routine_max regular_max. subst category routine_max regular_max.
  unfold Categories.detect_category.
  split; [|split].
  - intros Hfew. apply Z.ltb_lt in Hfew. rewrite Hfew. reflexivity.
  - intros Hmany Hseasonal. apply Z.ltb_ge in Hmany. rewrite Hmany.
    apply Qltb_lt in Hseasonal. rewrite Hseasonal. reflexivity.
  - intros Hmany Hflat. apply Z.ltb_ge in Hmany. rewrite Hmany.
    apply Qltb_ge in Hflat. rewrite Hflat.
    split; [intros ->; reflexivity|]. intros avg ->.
    split; [|split].
    + intros Hroutine. apply Qle_bool_iff in Hroutine. rewrite Hroutine. reflexivity.
    + intros Hroutine Hregular.
      apply Qltb_lt in Hroutine. unfold Qltb in Hroutine.
      apply negb_true_iff in Hroutine. rewrite Hroutine.
      apply Qle_bool_iff in Hregular. rewrite Hregular. reflexivity.
    + intros Hroutine Hregular.
      apply Qltb_lt in Hroutine, Hregular. unfold Qltb in Hroutine, Hregular.
      apply negb_true_iff in Hroutine, Hregular. rewrite Hroutine, Hregular.
      split; intros Hseason.
      * apply Qltb_lt in Hseason. rewrite Hseason. reflexivity.
      * apply Qltb_ge in Hseason. rewrite Hseason. reflexivity.
Qed.

Lemma consistency_nonneg (avg_days std_dev : Q) :
  (0 <= (if Qltb 0 avg_days then 1 - Qmin 1.0 (std_dev / avg_days) else 0.0))%Q.
Proof.
  destruct (Qltb 0 avg_days); [|discriminate].
  pose proof (Q.le_min_l 1.0 (std_dev / avg_days)) as Hmin.
  apply (Qplus_le_l _ _ (Qmin 1.0 (std_dev / avg_days))). ring_simplify.
  eapply Qle_trans; [exact Hmin | discriminate].
Qed.

(** The confidence of a prediction does not decrease with the number of
    purchases, for a fixed average and deviation, and stays the same from
    10 purchases on. *)
Lemma confidence_monotone (n m : Z) (avg_days std_dev : Q) :
  n <= m ->
  (Predictions.confidence_of n avg_days std_dev
   <= Predictions.confidence_of m avg_days std_dev)%Q
  /\ (10 <= n ->
      (Predictions.confidence_of n avg_days std_dev
       == Predictions.confidence_of m avg_days std_dev)%Q).
Proof.
  intros Hnm. unfold Predictions.confidence_of.
  assert (float n / 10 <= float m / 10)%Q as Hratio.
  { apply Qmult_le_compat_r; [|discriminate]. rewrite <- Zle_Qle. exact Hnm. }
  split.
  - apply Qmult_le_compat_r; [|apply consistency_nonneg].
    apply Q.min_le_compat_l. exact Hratio.
  - intros Hsaturated.
    assert (forall k, 10 <= k -> (Qmin 1.0 (float k / 10) == 1.0)%Q) as Hone.
    { intros k Hk. apply Q.min_l.
      apply (Qle_trans _ (float 10 / 10)); [discriminate|].
      apply Qmult_le_compat_r; [|discriminate]. rewrite <- Zle_Qle. exact Hk. }
    rewrite (Hone n Hsaturated), (Hone m) by lia. reflexivity.
Qed.

Lemma isum_from_nonneg (xs : list Z) :
  Forall (fun x => 0 <= x) xs -> forall a, 0 <= a -> 0 <= fold_left Z.add xs a.
Proof.
  induction 1 as [|x xs Hx _ IH]; intros a Ha; cbn [fold_left]; [exact Ha|].
  apply IH. lia.
Qed.

Lemma fsum_from_nonneg (xs : list Q) :
  Forall (fun x => (0 <= x)%Q) xs ->
  forall a, (0 <= a)%Q -> (0 <= fold_left Qplus xs a)%Q.
Proof.
  induction 1 as [|x xs Hx _ IH]; intros a Ha; cbn [fold_left]; [exact Ha|].
  apply IH. rewrite <- (Qplus_0_r 0). apply Qplus_le_compat; assumption.
Qed.

Lemma sum_sq_dev_nonneg (xs : list Z) : (0 <= sum_sq_dev xs)%Q.
Proof.
  unfold sum_sq_dev, fsum. apply fsum_from_nonneg; [|discriminate].
  apply List.Forall_forall. intros q Hq. apply in_map_iff in Hq as (x & <- & _).
  generalize (float x - mean xs)%Q. intros dev.
  unfold Qle, Qmult. cbn [Qnum Qden]. rewrite Z.mul_0_l, Z.mul_1_r.
  apply Z.square_nonneg.
Qed.

(** The seasonality score is between 0 and 1. *)
Lemma seasonality_score_bounds (purchase_events : list PurchaseEvents.row) :
  (0 <= Seasonal.calculate_seasonality_score purchase_events <= 1)%Q.
Proof.
  unfold Seasonal.calculate_seasonality_score.
  destruct (len purchase_events <? 4); [split; discriminate|].
  set (counts := map (Seasonal.monthly_counts purchase_events) _).
  destruct (Qeqb0 (mean counts)) eqn:Hmean; [split; discriminate|].
  split; [|eapply Qle_trans; [apply Q.le_min_l | discriminate]].
  apply Q.min_glb; [discriminate|].
  assert (0 <= mean counts)%Q as Hnonneg.
  { unfold mean. apply Qle_shift_div_l; [reflexivity|]. rewrite Qmult_0_l.
    rewrite <- (Zle_Qle 0). apply isum_from_nonneg; [|lia].
    apply List.Forall_forall. intros c Hc. apply in_map_iff in Hc as (m & <- & _).
    unfold Seasonal.monthly_counts, len. lia. }
  assert (0 < mean counts)%Q as Hpos.
  { apply Qle_lt_or_eq in Hnonneg as [Hlt | Heq]; [exact Hlt|].
    symmetry in Heq. apply Qeqb0_true in Heq. congruence. }
  apply Qle_shift_div_l; [reflexivity|]. rewrite Qmult_0_l.
  apply Qle_shift_div_l; [exact Hpos|]. rewrite Qmult_0_l.
  change (1 <? len counts) with true. cbn match.
  apply fsqrt_nonneg. apply Qle_shift_div_l; [reflexivity|]. rewrite Qmult_0_l.
  apply sum_sq_dev_nonneg.
Qed.

End FurtherProperties.

Section FurtherExamples.
#[local] Existing Instance Reference.runtime.

(** Three purchases and ten, at the same average and deviation, in
    [confidence_monotone]. *)
Lemma confidence_of_three_and_ten :
  (Predictions.confidence_of 3 7.0 1.0 <= Predictions.confidence_of 10 7.0 1.0)%Q.
Proof.
  refine (proj1 (confidence_monotone 3 10 7.0%Q 1.0%Q _)). lia.
Defined.

(** [milk_db] after the level of milk is set to 3, in
    [update_pantry_level_foreign_keys]. *)
Lemma milk_db_keeps_foreign_keys :
  Spec.foreign_keys_hold
    (Pantry.update_pantry_level Config.default (datetime_new 2024 3 10 9 0 0 0)
       (datetime_new 2024 3 10 9 0 0 0) "milk" 3 Reference.milk_db).1.
Proof.
  apply update_pantry_level_foreign_keys, milk_db_foreign_keys.
Defined.

End FurtherExamples.

(* ===================================================================== *)
(** * The end-to-end scenario of the specification *)
(* ===================================================================== *)

Section EndToEnd.
#[local] Existing Instance Reference.runtime.

(** Milk is ordered on 2024-01-01, 2024-01-08 and 2024-01-15.  The
    orchestrator persists 7 days between purchases, no deviation and the
    category routine; on 2024-01-20 the predictor gives 2024-01-22, in 2
    days, with the urgency [1 - 2/14] boosted to 1.0. *)
Lemma end_to_end_scenario :
  let now := datetime_new 2024 1 20 0 0 0 0 in
  let d := (Statistics.update_product_stats Config.default now "milk"
              Reference.weekly_orders_db).1 in
  (exists row,
      product_statistics d !! "milk"%string = Some row
      /\ (exists avg,
             ProductStatistics.avg_days_between_purchases row = Some avg
             /\ (avg == 7.0)%Q)
      /\ (ProductStatistics.std_dev_days row == 0)%Q
      /\ ProductStatistics.detected_category row = "routine"%string)
  /\ exists r,
       Predictions.predict_repurchase_date now "milk" None d = Returned r
       /\ Predictions.predicted_date r = Some (datetime_new 2024 1 22 0 0 0 0)
       /\ Predictions.days_until r = Some 2
       /\ (Predictions.urgency r == 1.0)%Q
       /\ Predictions.urgency_label r = "critical"%string.
Proof.
  intros now d. split.
  - eexists. split; [vm_compute; reflexivity|].
    split; [eexists; split; [reflexivity | vm_compute; reflexivity]|].
    split; vm_compute; reflexivity.
  - eexists. split; [vm_compute; reflexivity|].
    repeat split; vm_compute; reflexivity.
Qed.

End EndToEnd.

(* ===================================================================== *)
(** * Theorems: the pantry calls that add, remove and list (pantry.py) *)
(* ===================================================================== *)

Section PantryCalls.
Context `{Runtime}.

Lemma get_pantry_status_elem (apply_depletion : bool) (now : Z) (d : db)
    (st : Pantry.PantryStatus) :
  st ∈ Pantry.get_pantry_status apply_depletion now d
  <-> exists product_id item,
        pantry_items d !! product_id = Some item
        /\ st = Pantry.pantry_status apply_depletion now product_id item.
Proof.
  unfold Pantry.get_pantry_status. rewrite list_elem_of_fmap. split.
  - intros ([product_id item] & -> & Hin).
    rewrite (merge_sort_Permutation Pantry.by_level) in Hin.
    apply elem_of_map_to_list in Hin. exists product_id, item. split; [exact Hin | reflexivity].
  - intros (product_id & item & Hitem & ->). exists (product_id, item).
    split; [reflexivity|].
    rewrite (merge_sort_Permutation Pantry.by_level).
    apply elem_of_map_to_list. exact Hitem.
Qed.

(** A status read of one product is the status of its row, when it has one. *)
Lemma get_pantry_item_row (now : Z) (product_id : string) (d : db) :
  Pantry.get_pantry_item now product_id d
  = Pantry.pantry_status true now product_id <$> pantry_items d !! product_id.
Proof.
  destruct (pantry_items d !! product_id) as [item|] eqn:Hitem.
  - apply get_pantry_item_lookup, Hitem.
  - cbn. destruct (Pantry.get_pantry_item now product_id d) as [st|] eqn:Hfind;
      [exfalso|reflexivity].
    unfold Pantry.get_pantry_item in Hfind. apply find_some in Hfind as [Hin Hid].
    apply list_elem_of_In, get_pantry_status_elem in Hin as (k & item & Hk & ->).
    cbn in Hid. apply String.eqb_eq in Hid. subst k. congruence.
Qed.

Lemma db_eta (d : db) :
  mk_db (products d) (purchase_events d) (product_statistics d) (pantry_items d) = d.
Proof. destruct d. reflexivity. Qed.

(** [add_to_pantry] of a product that is already tracked returns a
    success dict with the requested level, clamped to 0..100, and leaves
    the stored level as it is: of the row it writes [description] (when
    one is given or the product has one), [low_threshold] and
    [auto_deplete], and keeps the level, the restock and update times and
    the depletion rate.  No other row changes. *)
Theorem add_to_pantry_tracked (now : Z) (product_id : string)
    (description : option string) (level low_threshold : Z) (auto_deplete : bool)
    (d : db) (old : PantryItems.row) :
  pantry_items d !! product_id = Some old ->
  exists result row,
    Pantry.add_to_pantry now product_id description level low_threshold
      auto_deplete d
    = (set_pantry_items d (<[product_id := row]> (pantry_items d)), Returned result)
    /\ Pantry.add_level_percent result = Pantry.clamp_level level
    /\ PantryItems.level_percent row = PantryItems.level_percent old
    /\ PantryItems.last_restocked_at row = PantryItems.last_restocked_at old
    /\ PantryItems.last_updated_at row = PantryItems.last_updated_at old
    /\ PantryItems.daily_depletion_rate row = PantryItems.daily_depletion_rate old
    /\ PantryItems.low_threshold row = low_threshold
    /\ PantryItems.auto_deplete row = Some (if auto_deplete then 1 else 0)
    /\ PantryItems.description row
       = from_option Some (PantryItems.description old)
           (Pantry.description_or_product description product_id d).
Proof.
  intros Hold. unfold Pantry.add_to_pantry. rewrite Hold.
  eexists _, _. split; [reflexivity|].
  repeat split.
  destruct (Pantry.description_or_product description product_id d); reflexivity.
Qed.

(** For a product that is not tracked, [add_to_pantry] raises
    [IntegrityError] and changes nothing when the product is not in
    [products]; when it is, the call returns, the product is tracked at
    the requested level, clamped to 0..100, and [remove_from_pantry] then
    restores the database as it was. *)
Theorem add_then_remove (now : Z) (product_id : string)
    (description : option string) (level low_threshold : Z) (auto_deplete : bool)
    (d : db) :
  pantry_items d !! product_id = None ->
  let run :=
    Pantry.add_to_pantry now product_id description level low_threshold
      auto_deplete d in
  (products d !! product_id = None -> run = (d, Raised IntegrityError))
  /\ (is_Some (products d !! product_id) ->
      (exists result, run.2 = Returned result)
      /\ (exists row,
            pantry_items run.1 !! product_id = Some row
            /\ PantryItems.level_percent row = Pantry.clamp_level level)
      /\ Pantry.remove_from_pantry product_id run.1 = (d, Pantry.Removed product_id)).
Proof.
  intros Hnew run. subst run. unfold Pantry.add_to_pantry, references_product.
  rewrite Hnew. split.
  - intros Hproduct. rewrite bool_decide_eq_false_2; [reflexivity|].
    rewrite Hproduct. apply is_Some_None.
  - intros Hproduct. rewrite (bool_decide_eq_true_2 _ Hproduct). cbn [fst snd].
    split; [eexists; reflexivity|]. split.
    + eexists. cbn [pantry_items set_pantry_items].
      rewrite lookup_insert_eq. split; reflexivity.
    + unfold Pantry.remove_from_pantry. cbn [pantry_items set_pantry_items].
      rewrite lookup_insert_eq. unfold set_pantry_items. cbn.
      rewrite delete_insert_id by exact Hnew. rewrite db_eta. reflexivity.
Qed.

(** After [remove_from_pantry] the product has no status, the status
    of every other product is as before, and a second removal finds
    nothing; the call reports a removal exactly when the product was
    tracked. *)
Theorem remove_from_pantry_reads (now : Z) (product_id : string) (d : db) :
  let run := Pantry.remove_from_pantry product_id d in
  Pantry.get_pantry_item now product_id run.1 = None
  /\ (forall other, other <> product_id ->
      Pantry.get_pantry_item now other run.1 = Pantry.get_pantry_item now other d)
  /\ Pantry.remove_from_pantry product_id run.1 = (run.1, Pantry.NotFound product_id)
  /\ (run.2 = Pantry.Removed product_id <-> is_Some (pantry_items d !! product_id)).
Proof.
  intros run. subst run. unfold Pantry.remove_from_pantry.
  destruct (pantry_items d !! product_id) as [item|] eqn:Hitem; cbn [fst snd].
  - repeat split.
    + rewrite get_pantry_item_row. cbn. rewrite lookup_delete_eq. reflexivity.
    + intros other Hother. rewrite !get_pantry_item_row. cbn.
      rewrite lookup_delete_ne by congruence. reflexivity.
    + cbn. rewrite lookup_delete_eq. reflexivity.
    + intros _. eexists; reflexivity.
  - repeat split.
    + rewrite get_pantry_item_row, Hitem. reflexivity.
    + rewrite Hitem. reflexivity.
    + discriminate.
    + intros Hsome. apply is_Some_None in Hsome. contradiction.
Qed.

End PantryCalls.

(* ===================================================================== *)
(** * Theorems: low inventory and stored depletion (pantry.py) *)
(* ===================================================================== *)

Section PantryDepletion.
Context `{Runtime}.

(** [get_low_inventory_items] lists a tracked product exactly when
    the level that its status reports, which is rounded, is at most the
    threshold: the one of the call, or the one of the item when the call
    gives none.  With the thresholds of the items, an item whose status is
    'low' is listed, an item that is 'out' is listed when its threshold is
    not negative, and a listed item may be 'ok': its level is then above
    the threshold by at most a half. *)
Theorem low_inventory_items (threshold : option Z) (now : Z) (product_id : string)
    (d : db) (item : PantryItems.row) :
  pantry_items d !! product_id = Some item ->
  let st := Pantry.pantry_status true now product_id item in
  let level := Pantry.current_level true now item in
  let low := PantryItems.low_threshold item in
  (st ∈ Pantry.get_low_inventory_items threshold now d
   <-> Pantry.level_percent st <= default low threshold)
  /\ (Pantry.status st = "low"%string ->
      st ∈ Pantry.get_low_inventory_items None now d)
  /\ (Pantry.status st = "out"%string -> 0 <= low ->
      st ∈ Pantry.get_low_inventory_items None now d)
  /\ (Pantry.status st = "ok"%string ->
      st ∈ Pantry.get_low_inventory_items None now d ->
      (float low < level <= float low + (1 # 2))%Q).
Proof.
  intros Hitem st level low.
  assert (forall t, st ∈ Pantry.get_low_inventory_items t now d
                    <-> Pantry.level_percent st <= default low t) as Hlisted.
  { intros t. unfold Pantry.get_low_inventory_items.
    rewrite list_elem_of_filter, get_pantry_status_elem. split.
    - intros [Hle _]. exact Hle.
    - intros Hle. split; [exact Hle|]. exists product_id, item.
      split; [exact Hitem | reflexivity]. }
  split; [apply Hlisted|].
  assert (Pantry.level_percent st = round level) as Hround by reflexivity.
  assert (Pantry.status st
          = if Qle_bool level 0 then "out"%string
            else if Qle_bool level (float low) then "low"%string
                 else "ok"%string) as Hstatus by reflexivity.
  rewrite Hstatus, !Hlisted, Hround. cbn [default].
  destruct (Qle_bool level 0) eqn:Hout;
    [|destruct (Qle_bool level (float low)) eqn:Hlow].
  - apply Qle_bool_iff in Hout. repeat split; try discriminate.
    intros _ Hnonneg. pose proof (round_le level 0 Hout). lia.
  - apply Qle_bool_iff in Hlow. repeat split; try discriminate.
    intros _. apply round_le, Hlow.
  - repeat split; try discriminate.
    + apply Qnot_le_lt. intros Hle. apply Qle_bool_iff in Hle. congruence.
    + pose proof (round_above level) as Habove.
      assert (float (round level) <= float low)%Q
        by (rewrite <- Zle_Qle; assumption).
      lra.
Qed.

Lemma isoformat_truthy (t : Z) : truthy_str (Some (isoformat t)) = true.
Proof.
  unfold isoformat. destruct (_ord2ymd (dt_toordinal t)) as [[y m] d]. reflexivity.
Qed.

Lemma Qeqb0_positive (q : Q) : (0 < q)%Q -> Qeqb0 q = false.
Proof.
  intros Hq. apply not_true_iff_false. rewrite Qeqb0_true. lra.
Qed.

(** When [apply_daily_depletion] updates a row. *)
Lemma depletion_update_Some (now : Z) (item item' : PantryItems.row) :
  Pantry.depletion_update now item = Some item' ->
  exists (rate : Q) (last_updated : string) (last_dt : Z),
    PantryItems.auto_deplete item = Some 1
    /\ PantryItems.daily_depletion_rate item = Some rate
    /\ (0 < rate)%Q
    /\ PantryItems.last_updated_at item = Some last_updated
    /\ last_updated <> ""%string
    /\ fromisoformat last_updated = Some last_dt
    /\ (0.01 <= td_total_seconds (now - last_dt) / 86400)%Q
    /\ item'
       = PantryItems.mk (PantryItems.description item)
           (round (Notions.depleted_level now last_dt (PantryItems.level_percent item) rate))
           (PantryItems.last_restocked_at item) (Some (isoformat now))
           (PantryItems.auto_deplete item) (PantryItems.daily_depletion_rate item)
           (PantryItems.low_threshold item).
Proof.
  unfold Pantry.depletion_update, Pantry.depleting, Pantry.depleted_row.
  destruct (PantryItems.auto_deplete item) as [flag|] eqn:Hflag; [|discriminate].
  destruct (PantryItems.daily_depletion_rate item) as [rate|] eqn:Hrate;
    [|discriminate].
  destruct (flag =? 1) eqn:Hone; [|discriminate].
  destruct (Qltb 0 rate) eqn:Hpos; [|discriminate]. cbn [andb].
  destruct (PantryItems.last_updated_at item) as [last_updated|] eqn:Hlast;
    [|discriminate].
  destruct (truthy_str (Some last_updated)) eqn:Htruthy; [|discriminate].
  change (default ""%string (Some last_updated)) with last_updated.
  destruct (fromisoformat last_updated) as [last_dt|] eqn:Hparse; [|discriminate].
  destruct (Qltb _ 0.01) eqn:Hrecent; [discriminate|].
  intros [= <-]. exists rate, last_updated, last_dt.
  apply Z.eqb_eq in Hone. subst flag.
  apply Qltb_lt in Hpos. apply Qltb_ge in Hrecent. apply truthy_str_Some in Htruthy.
  repeat split; try assumption; reflexivity.
Qed.

(** A row after [apply_daily_depletion]: its level does not rise. *)
Lemma depletion_update_level (now : Z) (item : PantryItems.row) :
  let item' := default item (Pantry.depletion_update now item) in
  0 <= PantryItems.level_percent item ->
  0 <= PantryItems.level_percent item' <= PantryItems.level_percent item.
Proof.
  intros item' Hlevel. subst item'.
  destruct (Pantry.depletion_update now item) as [item'|] eqn:Hupdate;
    cbn [default]; [|lia].
  apply depletion_update_Some in Hupdate
    as (rate & last_updated & last_dt & _ & _ & Hrate & _ & _ & _ & Helapsed & ->).
  cbn [PantryItems.level_percent]. split.
  - apply round_ge. apply Q.le_max_l.
  - apply round_le. unfold Notions.depleted_level. apply Q.max_lub.
    + change 0%Q with (float 0). rewrite <- Zle_Qle. assumption.
    + assert (0 <= td_total_seconds (now - last_dt) / 86400 * rate)%Q;
        [apply Qmult_le_0_compat|]; lra.
Qed.

(** [apply_daily_depletion] writes [pantry_items] and no other table,
    and tracks the same products after it as before.  It leaves a row as
    it is or lowers it: of a row it changes [level_percent] and
    [last_updated_at] at most, a level that is not negative does not rise
    and does not become negative, and a row that it changes is stamped
    with the time of the call.  It changes no row whose [auto_deplete] is
    not 1 or whose rate is [NULL] or not positive. *)
Theorem apply_daily_depletion_lowers (now : Z) (d : db) :
  let run := Pantry.apply_daily_depletion now d in
  products run.1 = products d
  /\ purchase_events run.1 = purchase_events d
  /\ product_statistics run.1 = product_statistics d
  /\ dom (pantry_items run.1) = dom (pantry_items d)
  /\ forall product_id item,
       pantry_items d !! product_id = Some item ->
       exists item',
         pantry_items run.1 !! product_id = Some item'
         /\ PantryItems.description item' = PantryItems.description item
         /\ PantryItems.last_restocked_at item' = PantryItems.last_restocked_at item
         /\ PantryItems.auto_deplete item' = PantryItems.auto_deplete item
         /\ PantryItems.daily_depletion_rate item'
            = PantryItems.daily_depletion_rate item
         /\ PantryItems.low_threshold item' = PantryItems.low_threshold item
         /\ (0 <= PantryItems.level_percent item ->
             0 <= PantryItems.level_percent item' <= PantryItems.level_percent item)
         /\ (item' = item
             \/ PantryItems.last_updated_at item' = Some (isoformat now))
         /\ (Pantry.depleting item = false -> item' = item).
Proof.
  intros run. subst run. unfold Pantry.apply_daily_depletion. cbn [fst].
  cbn [products purchase_events product_statistics pantry_items set_pantry_items].
  split; [reflexivity|]. split; [reflexivity|]. split; [reflexivity|].
  split; [apply dom_fmap_L|].
  intros product_id item Hitem. rewrite lookup_fmap, Hitem.
  cbn [fmap option_fmap option_map].
  eexists. split; [reflexivity|].
  pose proof (depletion_update_level now item) as Hlevel. cbn zeta in Hlevel.
  destruct (Pantry.depletion_update now item) as [item'|] eqn:Hupdate; cbn [default] in *.
  - pose proof Hupdate as Hdepleting. unfold Pantry.depletion_update in Hdepleting.
    apply depletion_update_Some in Hupdate
      as (rate & last_updated & last_dt & _ & _ & _ & _ & _ & _ & _ & Hrow).
    rewrite Hrow in Hlevel |- *. cbn [PantryItems.description
      PantryItems.last_restocked_at PantryItems.auto_deplete
      PantryItems.daily_depletion_rate PantryItems.low_threshold
      PantryItems.last_updated_at].
    repeat (split; [reflexivity|]). split; [exact Hlevel|].
    split; [right; reflexivity|].
    intros Hnot. rewrite Hnot in Hdepleting. discriminate.
  - repeat (split; [reflexivity|]). split; [exact Hlevel|].
    split; [left; reflexivity|]. reflexivity.
Qed.

Lemma no_time_elapsed (now : Z) : (td_total_seconds (now - now) / 86400 == 0)%Q.
Proof. rewrite Z.sub_diag. reflexivity. Qed.

(** The row that [apply_daily_depletion] stores, read at the time of the
    call. *)
Lemma depleted_row_read (now : Z) (item item' : PantryItems.row) :
  fromisoformat (isoformat now) = Some now ->
  Pantry.depletion_update now item = Some item' ->
  round (Pantry.current_level true now item')
  = round (Pantry.current_level true now item)
  /\ Pantry.depletion_update now item' = None.
Proof.
  intros Hclock Hupdate.
  apply depletion_update_Some in Hupdate
    as (rate & last_updated & last_dt & Hauto & Hrate & Hpos & Hlast & Hne
        & Hparse & Helapsed & ->).
  set (level := Notions.depleted_level now last_dt (PantryItems.level_percent item) rate).
  assert (0 <= round level) as Hlevel by apply round_ge, Q.le_max_l.
  split.
  - assert (Pantry.current_level true now item = level) as ->.
    { unfold Pantry.current_level. rewrite Hauto, Hrate, Hlast.
      cbn [truthy_int truthy_float andb]. rewrite (Qeqb0_positive rate Hpos).
      rewrite (proj2 (truthy_str_Some last_updated) Hne).
      change (default ""%string (Some last_updated)) with last_updated.
      rewrite Hparse. reflexivity. }
    rewrite <- (round_float (round level)) at 2.
    apply round_value. unfold Pantry.current_level.
    cbn [PantryItems.auto_deplete PantryItems.daily_depletion_rate
         PantryItems.last_updated_at PantryItems.level_percent].
    rewrite Hauto, Hrate. cbn [truthy_int truthy_float andb].
    rewrite (Qeqb0_positive rate Hpos), isoformat_truthy.
    change (default ""%string (Some (isoformat now))) with (isoformat now).
    rewrite Hclock. cbn [negb Z.eqb andb default].
    rewrite (no_time_elapsed now).
    rewrite Q.max_r.
    + ring.
    + assert (0 <= float (round level))%Q as Hfloat
        by (change 0%Q with (float 0); rewrite <- Zle_Qle; exact Hlevel).
      unfold id. set (stored := float (round level)) in *. clearbody stored. lra.
  - unfold Pantry.depletion_update, Pantry.depleting, Pantry.depleted_row.
    cbn [PantryItems.auto_deplete PantryItems.daily_depletion_rate
         PantryItems.last_updated_at PantryItems.level_percent].
    rewrite Hauto, Hrate, (proj2 (Qltb_lt 0 rate) Hpos), isoformat_truthy.
    change (default ""%string (Some (isoformat now))) with (isoformat now).
    rewrite Hclock, Z.sub_diag. reflexivity.
Qed.

(** At the time of the call, [apply_daily_depletion] does not change
    the level that a status read reports for any product, and a second
    call at the same time updates no row.  The clock of the call is one
    that [fromisoformat] reads back from [isoformat]. *)
Theorem apply_daily_depletion_reads (now : Z) (d : db) :
  fromisoformat (isoformat now) = Some now ->
  let run := Pantry.apply_daily_depletion now d in
  (forall product_id,
     Pantry.level_percent <$> Pantry.get_pantry_item now product_id run.1
     = Pantry.level_percent <$> Pantry.get_pantry_item now product_id d)
  /\ Pantry.apply_daily_depletion now run.1
     = (run.1, Pantry.mk_summary true 0 (isoformat now)).
Proof.
  intros Hclock run. subst run. split.
  - intros product_id. rewrite !get_pantry_item_row.
    unfold Pantry.apply_daily_depletion.
    cbn [fst pantry_items set_pantry_items]. rewrite lookup_fmap.
    destruct (pantry_items d !! product_id) as [item|]; [|reflexivity].
    cbn. f_equal.
    destruct (Pantry.depletion_update now item) as [item'|] eqn:Hupdate;
      [|reflexivity].
    apply (depleted_row_read now item item' Hclock Hupdate).
  - unfold Pantry.apply_daily_depletion at 1. cbn [fst].
    set (d' := (Pantry.apply_daily_depletion now d).1).
    assert (forall product_id item',
              pantry_items d' !! product_id = Some item' ->
              Pantry.depletion_update now item' = None) as Hdone.
    { intros product_id item'. subst d'. unfold Pantry.apply_daily_depletion.
      cbn [fst pantry_items set_pantry_items]. rewrite lookup_fmap.
      destruct (pantry_items d !! product_id) as [item|]; [|discriminate].
      cbn. intros [= <-].
      destruct (Pantry.depletion_update now item) as [item'|] eqn:Hupdate.
      - apply (depleted_row_read now item item' Hclock Hupdate).
      - exact Hupdate. }
    assert ((fun item => default item (Pantry.depletion_update now item))
              <$> pantry_items d' = pantry_items d') as ->.
    { apply map_eq. intros product_id. rewrite lookup_fmap.
      destruct (pantry_items d' !! product_id) as [item'|] eqn:Hitem; [|reflexivity].
      cbn. rewrite (Hdone product_id item' Hitem). reflexivity. }
    assert (filter (fun kv : string * PantryItems.row =>
                      is_Some (Pantry.depletion_update now kv.2))
              (map_to_list (pantry_items d')) = []) as ->.
    { apply filter_none. intros [product_id item'] Hin [item'' Hsome].
      apply elem_of_map_to_list in Hin. cbn in Hsome.
      rewrite (Hdone product_id item' Hin) in Hsome. discriminate. }
    reflexivity.
Qed.

End PantryDepletion.

(* ===================================================================== *)
(** * Theorems: pantry levels are percentages *)
(* ===================================================================== *)

Section PantryLevels.
Context `{Runtime}.

Lemma clamp_level_range (level : Z) : 0 <= Pantry.clamp_level level <= 100.
Proof. unfold Pantry.clamp_level. lia. Qed.

Lemma levels_in_range_insert (d : db) (product_id : string) (row : PantryItems.row) :
  0 <= PantryItems.level_percent row <= 100 ->
  Invariants.levels_in_range d ->
  Invariants.levels_in_range
    (set_pantry_items d (<[product_id := row]> (pantry_items d))).
Proof.
  intros Hrow Hrange. unfold Invariants.levels_in_range. cbn.
  apply map_Forall_insert_2; assumption.
Qed.

Lemma levels_in_range_alter (d : db) (product_id : string)
    (f : PantryItems.row -> PantryItems.row) :
  (forall row, 0 <= PantryItems.level_percent row <= 100 ->
               0 <= PantryItems.level_percent (f row) <= 100) ->
  Invariants.levels_in_range d ->
  Invariants.levels_in_range (set_pantry_items d (alter f product_id (pantry_items d))).
Proof.
  intros Hf Hrange k row. cbn. rewrite lookup_alter. case_decide as Hk.
  - subst k. destruct (pantry_items d !! product_id) as [old|] eqn:Hold; [|discriminate].
    cbn. intros [= <-]. apply Hf. exact (Hrange product_id old Hold).
  - apply Hrange.
Qed.

Lemma levels_in_range_pantry (d d' : db) :
  pantry_items d' = pantry_items d ->
  Invariants.levels_in_range d -> Invariants.levels_in_range d'.
Proof. unfold Invariants.levels_in_range. intros ->. trivial. Qed.

Lemma restock_item_levels (now : Z) (product_id : string) (level : Z)
    (description : option string) (d : db) :
  Invariants.levels_in_range d ->
  Invariants.levels_in_range (Pantry.restock_item now product_id level description d).1.
Proof.
  intros Hrange. unfold Pantry.restock_item.
  destruct (pantry_items d !! product_id);
    [|destruct (references_product d product_id); [|exact Hrange]];
    cbn [fst]; apply levels_in_range_insert; try exact Hrange; apply clamp_level_range.
Qed.

Lemma _record_depletion_event_levels (config : Config.PredictionConfig)
    (now_stats : Z) (product_id last_restocked_at depleted_at : string) (d : db) :
  Invariants.levels_in_range d ->
  Invariants.levels_in_range
    (Pantry._record_depletion_event config now_stats product_id last_restocked_at
       depleted_at d).1.
Proof.
  intros Hrange. unfold Pantry._record_depletion_event.
  destruct (references_product d product_id); [|exact Hrange].
  match goal with
  | |- context [Statistics.update_product_stats ?c ?n ?p ?d1] =>
      pose proof (update_product_stats_frame c n p d1) as (_ & _ & Hpantry);
      destruct (Statistics.update_product_stats c n p d1) as [d2 [r|e]]
  end; cbn [fst] in *.
  - apply levels_in_range_alter; [intros row Hrow; exact Hrow|].
    apply (levels_in_range_pantry d); assumption.
  - apply (levels_in_range_pantry d); assumption.
Qed.

(** Every call of [pantry.py] that writes keeps the levels within
    0..100: when every stored level is a percentage before [restock_item],
    [update_pantry_level], [add_to_pantry], [remove_from_pantry] or
    [apply_daily_depletion], whatever the arguments, every stored level is
    one after it. *)
Theorem pantry_levels_in_range (config : Config.PredictionConfig)
    (now now_stats : Z) (product_id : string) (description : option string)
    (level low_threshold : Z) (auto_deplete : bool) (d : db) :
  Invariants.levels_in_range d ->
  Invariants.levels_in_range
    (Pantry.restock_item now product_id level description d).1
  /\ Invariants.levels_in_range
       (Pantry.update_pantry_level config now now_stats product_id level d).1
  /\ Invariants.levels_in_range
       (Pantry.add_to_pantry now product_id description level low_threshold
          auto_deplete d).1
  /\ Invariants.levels_in_range (Pantry.remove_from_pantry product_id d).1
  /\ Invariants.levels_in_range (Pantry.apply_daily_depletion now d).1.
Proof.
  intros Hrange. split; [|split; [|split; [|split]]].
  - apply restock_item_levels, Hrange.
  - unfold Pantry.update_pantry_level.
    destruct (pantry_items d !! product_id) as [row|]; [|exact Hrange].
    match goal with
    | |- context [if ?c then ?a else ?b] =>
        assert (Invariants.levels_in_range (if c then a else b).1) as Hrange1;
        [destruct c; [apply _record_depletion_event_levels|]; exact Hrange|];
        destruct (if c then a else b) as [d1 recorded]
    end.
    cbn [fst] in *. apply levels_in_range_alter; [|exact Hrange1].
    intros old _. apply clamp_level_range.
  - unfold Pantry.add_to_pantry.
    destruct (pantry_items d !! product_id) as [old|] eqn:Hold;
      [|destruct (references_product d product_id); [|exact Hrange]];
      cbn [fst]; apply levels_in_range_insert; try exact Hrange.
    + exact (Hrange product_id old Hold).
    + apply clamp_level_range.
  - unfold Pantry.remove_from_pantry.
    destruct (pantry_items d !! product_id); [|exact Hrange].
    cbn [fst]. unfold Invariants.levels_in_range. cbn.
    apply map_Forall_delete, Hrange.
  - intros k row. unfold Pantry.apply_daily_depletion.
    cbn [fst pantry_items set_pantry_items]. rewrite lookup_fmap.
    destruct (pantry_items d !! k) as [old|] eqn:Hold; [|discriminate].
    cbn. intros [= <-]. pose proof (Hrange k old Hold) as Hold_range.
    cbn in Hold_range. pose proof (depletion_update_level now old) as Hlevel.
    cbn zeta in Hlevel. lia.
Qed.

End PantryLevels.

(* ===================================================================== *)
(** * Theorems: statistics of several products (statistics.py) *)
(* ===================================================================== *)

Section StatisticsOfAll.
Context `{Runtime}.

(** What a run of [update_product_stats] does depends on the database
    through the ledger, the products and the presence of the record of
    the product. *)
Lemma update_product_stats_effect (config : Config.PredictionConfig) (now : Z)
    (product_id : string) (d : db) :
  exists (row : option ProductStatistics.row) (result : outcome Statistics.StatsResult),
    forall d',
      purchase_events d' = purchase_events d ->
      products d' = products d ->
      (is_Some (product_statistics d' !! product_id)
       <-> is_Some (product_statistics d !! product_id)) ->
      Statistics.update_product_stats config now product_id d'
      = (match row with
         | Some row =>
             set_product_statistics d' (<[product_id := row]> (product_statistics d'))
         | None => d'
         end, result).
Proof.
  destruct (Statistics.qualifying_events product_id d) as [|e events] eqn:Hevents.
  - exists None, (Returned (Statistics.NoEvents product_id)).
    intros d' Hledger _ _. unfold Statistics.update_product_stats.
    rewrite (qualifying_events_ledger product_id d d' Hledger), Hevents. reflexivity.
  - destruct (Statistics.compute_stats config now (e :: events)) as [row c] eqn:Hstats.
    destruct (bool_decide (is_Some (product_statistics d !! product_id))
              || references_product d product_id) eqn:Hkey.
    + exists (Some row), (Returned (Statistics.Updated product_id row c)).
      intros d' Hledger Hproducts Hrecord. unfold Statistics.update_product_stats.
      rewrite (qualifying_events_ledger product_id d d' Hledger), Hevents, Hstats.
      unfold references_product in *. rewrite Hproducts.
      rewrite (bool_decide_ext _ _ Hrecord), Hkey. reflexivity.
    + exists None, (Raised IntegrityError).
      intros d' Hledger Hproducts Hrecord. unfold Statistics.update_product_stats.
      rewrite (qualifying_events_ledger product_id d d' Hledger), Hevents, Hstats.
      unfold references_product in *. rewrite Hproducts.
      rewrite (bool_decide_ext _ _ Hrecord), Hkey. reflexivity.
Qed.

(** Runs of [update_product_stats] for two different products
    commute: in either order they leave the same database, and each
    returns, or raises, what it does when it runs first. *)
Theorem update_product_stats_commute (config : Config.PredictionConfig)
    (now_p now_q : Z) (p q : string) (d : db) :
  p <> q ->
  let run_p := Statistics.update_product_stats config now_p p d in
  let run_q := Statistics.update_product_stats config now_q q d in
  let run_pq := Statistics.update_product_stats config now_q q run_p.1 in
  let run_qp := Statistics.update_product_stats config now_p p run_q.1 in
  run_pq.1 = run_qp.1 /\ run_pq.2 = run_q.2 /\ run_qp.2 = run_p.2.
Proof.
  intros Hpq run_p run_q run_pq run_qp. subst run_p run_q run_pq run_qp.
  destruct (update_product_stats_effect config now_p p d) as (row_p & result_p & Hp).
  destruct (update_product_stats_effect config now_q q d) as (row_q & result_q & Hq).
  rewrite (Hp d), (Hq d) by reflexivity. cbn [fst snd].
  rewrite Hp, Hq; cbn [fst snd].
  - split; [|split; reflexivity].
    destruct row_p as [row_p|], row_q as [row_q|]; try reflexivity.
    unfold set_product_statistics. cbn. f_equal. apply insert_insert_ne. congruence.
  - destruct row_p; reflexivity.
  - destruct row_p; reflexivity.
  - destruct row_p; [|reflexivity]. cbn. rewrite lookup_insert_ne by congruence.
    reflexivity.
  - destruct row_q; reflexivity.
  - destruct row_q; reflexivity.
  - destruct row_q; [|reflexivity]. cbn. rewrite lookup_insert_ne by congruence.
    reflexivity.
Qed.

(** With the foreign keys in place a run of [update_product_stats]
    returns. *)
Lemma update_product_stats_returns (config : Config.PredictionConfig) (now : Z)
    (product_id : string) (d : db) :
  Spec.foreign_keys_hold d ->
  let events := Statistics.qualifying_events product_id d in
  exists result,
    (Statistics.update_product_stats config now product_id d).2 = Returned result
    /\ match result with
       | Statistics.NoEvents id => id = product_id /\ events = []
       | Statistics.Updated id row confidence =>
           id = product_id /\ events <> []
           /\ row = (Statistics.compute_stats config now events).1
           /\ confidence = (Statistics.compute_stats config now events).2
       end.
Proof.
  intros (_ & _ & Hledger) events.
  destruct (update_product_stats_cases config now product_id d)
    as [(Hnone & ->) | [(Hsome & _ & ->) | (Hsome & _ & Hproduct & _)]].
  - eexists. split; [reflexivity|]. split; [reflexivity | exact Hnone].
  - eexists. split; [reflexivity|]. repeat split. exact Hsome.
  - exfalso. fold events in Hsome. destruct events as [|e rest] eqn:Hevents;
      [congruence|].
    assert (e ∈ Statistics.qualifying_events product_id d) as Hin
      by (fold events; rewrite Hevents; left).
    apply qualifying_events_elem in Hin as [Hqualifies Hin].
    rewrite Forall_forall in Hledger. apply Hledger, elem_of_dom in Hin as [row Hrow].
    unfold Statistics.qualifying in Hqualifies.
    apply andb_prop in Hqualifies as [Hid _]. apply String.eqb_eq in Hid.
    rewrite Hid in Hrow. congruence.
Qed.

Lemma update_all_from_returns (config : Config.PredictionConfig) (now : nat -> Z)
    (d : db) (product_ids : list string) :
  forall (i : nat) (results : list Statistics.StatsResult) (d' : db),
    Spec.foreign_keys_hold d' ->
    purchase_events d' = purchase_events d ->
    let run := Statistics.update_all_from config now i product_ids results d' in
    exists more,
      run.2 = Returned (Statistics.mk_all (len (results ++ more)) (results ++ more))
      /\ Forall2 (Notions.reported config d) product_ids more
      /\ Spec.foreign_keys_hold run.1
      /\ products run.1 = products d'
      /\ purchase_events run.1 = purchase_events d'
      /\ pantry_items run.1 = pantry_items d'.
Proof.
  induction product_ids as [|product_id rest IH]; intros i results d' Hkeys Hledger run;
    subst run.
  - exists []. cbn [Statistics.update_all_from fst snd]. rewrite app_nil_r.
    split; [reflexivity|]. split; [constructor|]. split; [exact Hkeys|].
    repeat split.
  - cbn [Statistics.update_all_from].
    pose proof (update_product_stats_returns config (now i) product_id d' Hkeys)
      as (result & Hresult & Hreported).
    pose proof (update_product_stats_foreign_keys config (now i) product_id d' Hkeys)
      as Hkeys'.
    pose proof (update_product_stats_frame config (now i) product_id d')
      as (Hproducts & Hevents & Hpantry).
    destruct (Statistics.update_product_stats config (now i) product_id d')
      as [d'' o]. cbn [fst snd] in *. subst o.
    destruct (IH (S i) (results ++ [result]) d'' Hkeys' (eq_trans Hevents Hledger))
      as (more & Hrun & Hmore & Hkeys'' & Hproducts' & Hevents' & Hpantry').
    exists (result :: more). rewrite <- app_assoc in Hrun.
    split; [exact Hrun|].
    split; [|split; [exact Hkeys''|]; split; [|split]; congruence].
    constructor; [|exact Hmore].
    unfold Notions.reported. rewrite <- (qualifying_events_ledger product_id d d' Hledger).
    destruct result as [id|id row confidence]; [exact Hreported|].
    destruct Hreported as (Hid & Hsome & Hrow & Hconfidence).
    split; [exact Hid|]. split; [exact Hsome|]. exists (now i). split; assumption.
Qed.

(** On a database whose foreign keys hold, [update_all_product_stats]
    returns, whatever the list of ids: [updated_count] is the length of
    the list, and counts an id that has no order or depletion event as
    well as one whose statistics were recomputed.  The results are in the
    order of the list; the one of an id with events holds the statistics
    of its events.  The call writes [product_statistics] alone and keeps
    the foreign keys. *)
Theorem update_all_product_stats_counts (config : Config.PredictionConfig)
    (now : nat -> Z) (product_ids : list string) (d : db) :
  Spec.foreign_keys_hold d ->
  let run := Statistics.update_all_product_stats config now product_ids d in
  exists results,
    run.2 = Returned (Statistics.mk_all (len product_ids) results)
    /\ Forall2 (Notions.reported config d) product_ids results
    /\ Spec.foreign_keys_hold run.1
    /\ products run.1 = products d
    /\ purchase_events run.1 = purchase_events d
    /\ pantry_items run.1 = pantry_items d.
Proof.
  intros Hkeys run. subst run. unfold Statistics.update_all_product_stats.
  destruct (update_all_from_returns config now d product_ids 0%nat [] d Hkeys eq_refl)
    as (results & Hrun & Hreported & Hrest).
  exists results. cbn [app] in Hrun.
  split; [|split; assumption].
  rewrite Hrun. unfold len. rewrite (Forall2_length _ _ _ Hreported). reflexivity.
Qed.

(** The statistics that [update_product_stats] returns are the ones
    that [get_product_statistics] then reads, and the ones that
    [predict_repurchase_date] predicts from when it is given no
    statistics. *)
Theorem updated_statistics_are_read (config : Config.PredictionConfig)
    (now now' : Z) (product_id : string) (d d' : db)
    (row : ProductStatistics.row) (confidence : Q) :
  Statistics.update_product_stats config now product_id d
  = (d', Returned (Statistics.Updated product_id row confidence)) ->
  exists stats,
    Statistics.get_product_statistics product_id d' = Some stats
    /\ Statistics.total_purchases stats = ProductStatistics.total_purchases row
    /\ Statistics.avg_days_between_purchases stats
       = ProductStatistics.avg_days_between_purchases row
    /\ Statistics.std_dev_days stats = Some (ProductStatistics.std_dev_days row)
    /\ Statistics.last_purchase_date stats
       = Some (ProductStatistics.last_purchase_date row)
    /\ Statistics.category_type stats = Categories.get_product_category product_id d
    /\ Predictions.predict_repurchase_date now' product_id None d'
       = Predictions.predict_repurchase_date now' product_id (Some stats) d'.
Proof.
  intros Hrun.
  destruct (update_product_stats_cases config now product_id d)
    as [(_ & Hcase) | [(_ & _ & Hcase) | (_ & _ & _ & Hcase)]];
    rewrite Hcase in Hrun; try discriminate.
  injection Hrun as <- <- _.
  unfold Statistics.get_product_statistics, Predictions.predict_repurchase_date,
    Predictions.effective_stats, Statistics.get_product_statistics,
    Categories.get_product_category.
  cbn [product_statistics products set_product_statistics].
  rewrite lookup_insert_eq. eexists. split; [reflexivity|].
  cbn [Statistics.total_purchases Statistics.avg_days_between_purchases
       Statistics.std_dev_days Statistics.last_purchase_date
       Statistics.category_type].
  repeat split.
Qed.

(** [get_all_product_statistics] lists the statistics of a product
    exactly when [get_product_statistics] reads them for it, lists no
    product twice, and is in the descending order of [last_purchase_date]. *)
Theorem statistics_listing (d : db) :
  (forall product_id stats,
     (product_id, stats) ∈ Statistics.get_all_product_statistics d
     <-> Statistics.get_product_statistics product_id d = Some stats)
  /\ NoDup (Statistics.get_all_product_statistics d).*1
  /\ Sorted
       (fun a b =>
          String.leb (default ""%string (Statistics.last_purchase_date b.2))
            (default ""%string (Statistics.last_purchase_date a.2)) = true)
       (Statistics.get_all_product_statistics d).
Proof.
  unfold Statistics.get_all_product_statistics. split; [|split].
  - intros product_id stats. unfold Statistics.get_product_statistics.
    rewrite list_elem_of_fmap. split.
    + intros ([k ps] & [= -> ->] & Hin).
      rewrite (merge_sort_Permutation Statistics.by_last_purchase_desc) in Hin.
      apply elem_of_map_to_list in Hin. cbn [fst snd]. rewrite Hin. reflexivity.
    + destruct (product_statistics d !! product_id) as [ps|] eqn:Hps; [|discriminate].
      intros [= <-]. exists (product_id, ps). split; [reflexivity|].
      rewrite (merge_sort_Permutation Statistics.by_last_purchase_desc).
      apply elem_of_map_to_list. exact Hps.
  - rewrite fmap_fst_map by reflexivity.
    rewrite (merge_sort_Permutation Statistics.by_last_purchase_desc).
    apply NoDup_fst_map_to_list.
  - apply (Sorted_fmap _ Statistics.by_last_purchase_desc).
    + intros a b Hab. exact Hab.
    + apply Sorted_merge_sort. intros a b. apply String.leb_total.
Qed.

End StatisticsOfAll.

(* ===================================================================== *)
(** * Theorems: the predictions of a period (predictions.py) *)
(* ===================================================================== *)

Section PredictionsOfPeriod.
Context `{Runtime}.

(** A loop of calls returns when every call does, with their results in
    order, and raises what the first call that raises does. *)
Lemma map_outcome_returned {A B} (f : A -> outcome B) (xs : list A) (ys : list B) :
  map_outcome f xs = Returned ys <-> Forall2 (fun x y => f x = Returned y) xs ys.
Proof.
  revert ys. induction xs as [|x xs IH]; intros ys; cbn [map_outcome].
  - split.
    + intros [= <-]. constructor.
    + intros Hall. inversion Hall. reflexivity.
  - split.
    + destruct (f x) as [y|e] eqn:Hx; [|discriminate]. cbn [bind].
      destruct (map_outcome f xs) as [ys'|e] eqn:Hrest; [|discriminate].
      cbn [bind]. intros [= <-]. constructor; [exact Hx|]. apply IH. reflexivity.
    + intros Hall. inversion Hall as [|x' y xs' ys' Hx Hrest]; subst.
      rewrite Hx. cbn [bind]. rewrite (proj2 (IH ys') Hrest). reflexivity.
Qed.

Lemma map_outcome_returns {A B} (f : A -> outcome B) (xs : list A) :
  (forall x, x ∈ xs -> exists y, f x = Returned y) ->
  exists ys, map_outcome f xs = Returned ys.
Proof.
  induction xs as [|x xs IH]; intros Hall; cbn [map_outcome].
  - eexists. reflexivity.
  - destruct (Hall x) as [y Hx]; [left|]. rewrite Hx. cbn [bind].
    destruct IH as [ys Hrest]; [intros x' Hx'; apply Hall; right; exact Hx'|].
    rewrite Hrest. cbn [bind]. eexists. reflexivity.
Qed.

Lemma map_outcome_raised {A B} (f : A -> outcome B) (xs : list A) (e : exn) :
  map_outcome f xs = Raised e -> exists x, x ∈ xs /\ f x = Raised e.
Proof.
  induction xs as [|x xs IH]; cbn [map_outcome]; [discriminate|].
  destruct (f x) as [y|e'] eqn:Hx; cbn [bind].
  - destruct (map_outcome f xs) as [ys|e'] eqn:Hrest; cbn [bind]; [discriminate|].
    intros [= ->]. destruct (IH eq_refl) as (x' & Hin & Hraised).
    exists x'. split; [right; exact Hin | exact Hraised].
  - intros [= ->]. exists x. split; [left | exact Hx].
Qed.

Lemma map_outcome_elem {A B} (f : A -> outcome B) (xs : list A) (ys : list B)
    (y : B) :
  map_outcome f xs = Returned ys ->
  y ∈ ys <-> exists x, x ∈ xs /\ f x = Returned y.
Proof.
  intros Hall. apply map_outcome_returned in Hall.
  induction Hall as [|x y' xs ys Hx Hrest IH].
  - split; [intros Hin; inversion Hin | intros (x & Hin & _); inversion Hin].
  - rewrite elem_of_cons, IH. split.
    + intros [-> | (x' & Hin & Hx')].
      * exists x. split; [left | exact Hx].
      * exists x'. split; [right; exact Hin | exact Hx'].
    + intros (x' & Hin & Hx'). apply elem_of_cons in Hin as [-> | Hin].
      * left. congruence.
      * right. exists x'. split; assumption.
Qed.

Lemma period_rows_elem (category_filter : option string) (d : db)
    (product_id : string) (stats : Statistics.StatsDict) :
  (product_id, stats) ∈ Predictions.period_rows category_filter d
  <-> exists ps p,
        product_statistics d !! product_id = Some ps
        /\ products d !! product_id = Some p
        /\ 2 <= ProductStatistics.total_purchases ps
        /\ (truthy_str category_filter = true ->
            Products.category_type p = category_filter)
        /\ stats = Predictions.period_dict ps p.
Proof.
  unfold Predictions.period_rows. rewrite list_elem_of_omap. split.
  - intros ([k ps] & Hin & Hrow). apply elem_of_map_to_list in Hin.
    cbn [fst snd] in Hrow.
    destruct (products d !! k) as [p|] eqn:Hp; [|discriminate].
    destruct (_ && _) eqn:Hkeep; [|discriminate].
    injection Hrow as -> <-. apply andb_prop in Hkeep as [Htotal Hfilter].
    exists ps, p. apply Z.leb_le in Htotal. repeat split; try assumption.
    intros Htruthy. rewrite Htruthy in Hfilter. cbn in Hfilter.
    apply category_is_true in Hfilter. rewrite Hfilter.
    destruct category_filter; [reflexivity | discriminate].
  - intros (ps & p & Hps & Hp & Htotal & Hfilter & ->).
    exists (product_id, ps). split; [apply elem_of_map_to_list, Hps|].
    cbn [fst snd]. rewrite Hp.
    replace (2 <=? ProductStatistics.total_purchases ps) with true
      by (symmetry; apply Z.leb_le; exact Htotal).
    destruct (truthy_str category_filter) eqn:Htruthy; cbn [negb orb andb];
      [|reflexivity].
    rewrite (proj2 (category_is_true _ _)); [reflexivity|].
    rewrite (Hfilter eq_refl). destruct category_filter; [reflexivity | discriminate].
Qed.

Lemma in_period_true (days_ahead : Z) (min_confidence : Q) (include_overdue : bool)
    (pred : Predictions.RepurchasePrediction) :
  Predictions.in_period days_ahead min_confidence include_overdue pred = true
  <-> (min_confidence <= Predictions.confidence pred)%Q
      /\ exists days_until,
           Predictions.days_until pred = Some days_until
           /\ days_until <= days_ahead
           /\ (include_overdue = false -> 0 <= days_until).
Proof.
  unfold Predictions.in_period.
  rewrite andb_true_iff, negb_true_iff, Qltb_ge.
  destruct (Predictions.days_until pred) as [days_until|].
  - rewrite andb_true_iff, !negb_true_iff, Z.ltb_ge. split.
    + intros (Hconfidence & Hoverdue & Hahead). split; [exact Hconfidence|].
      exists days_until. split; [reflexivity|]. split; [exact Hahead|].
      intros ->. cbn in Hoverdue. apply Z.ltb_ge in Hoverdue. exact Hoverdue.
    + intros (Hconfidence & k & [= <-] & Hahead & Hoverdue).
      split; [exact Hconfidence|]. split; [|exact Hahead].
      destruct include_overdue; [reflexivity|]. cbn. apply Z.ltb_ge, Hoverdue.
      reflexivity.
  - split; [intros [_ Hfalse]; discriminate|].
    intros (_ & k & Hnone & _). discriminate.
Qed.

Lemma by_urgency_total : Total Predictions.by_urgency.
Proof.
  intros a b. unfold Predictions.by_urgency. rewrite !Qle_bool_iff.
  destruct (Qlt_le_dec (Predictions.urgency a) (Predictions.urgency b)) as [Hlt|Hle].
  - right. apply Qlt_le_weak, Hlt.
  - left. exact Hle.
Qed.

Lemma Sorted_weaken {A} (R R' : relation A) (l : list A) :
  (forall x y, R x y -> R' x y) -> Sorted R l -> Sorted R' l.
Proof.
  intros Hweaken Hsorted. rewrite <- (list_fmap_id l).
  apply (Sorted_fmap id R R'); assumption.
Qed.

(** The rows of the query of [get_predictions_for_period], with the
    arguments of the prediction of each. *)
Lemma period_rows_predicted (now : string -> Z) (category_filter : option string)
    (d : db) (P : outcome Predictions.RepurchasePrediction -> Prop) :
  (exists kv,
      kv ∈ Predictions.period_rows category_filter d
      /\ P (Predictions.predict_repurchase_date (now kv.1) kv.1 (Some kv.2) d))
  <-> exists product_id ps p,
        product_statistics d !! product_id = Some ps
        /\ products d !! product_id = Some p
        /\ 2 <= ProductStatistics.total_purchases ps
        /\ (truthy_str category_filter = true ->
            Products.category_type p = category_filter)
        /\ P (Predictions.predict_repurchase_date (now product_id) product_id
                (Some (Predictions.period_dict ps p)) d).
Proof.
  split.
  - intros ([product_id stats] & Hrow & HP).
    apply period_rows_elem in Hrow as (ps & p & Hps & Hp & Htotal & Hfilter & ->).
    exists product_id, ps, p. cbn [fst snd] in HP.
    split; [exact Hps|]. split; [exact Hp|]. split; [exact Htotal|].
    split; [exact Hfilter | exact HP].
  - intros (product_id & ps & p & Hps & Hp & Htotal & Hfilter & HP).
    exists (product_id, Predictions.period_dict ps p). split; [|exact HP].
    apply period_rows_elem. exists ps, p.
    split; [exact Hps|]. split; [exact Hp|]. split; [exact Htotal|].
    split; [exact Hfilter | reflexivity].
Qed.

Lemma get_predictions_for_period_elem (now : string -> Z) (days_ahead : Z)
    (category_filter : option string) (min_confidence : Q) (include_overdue : bool)
    (d : db) (period : list Predictions.RepurchasePrediction)
    (pred : Predictions.RepurchasePrediction) :
  Predictions.get_predictions_for_period now days_ahead category_filter
    min_confidence include_overdue d
  = Returned period ->
  pred ∈ period
  <-> exists product_id ps p,
        product_statistics d !! product_id = Some ps
        /\ products d !! product_id = Some p
        /\ 2 <= ProductStatistics.total_purchases ps
        /\ (truthy_str category_filter = true ->
            Products.category_type p = category_filter)
        /\ Predictions.predict_repurchase_date (now product_id) product_id
             (Some (Predictions.period_dict ps p)) d
           = Returned pred
        /\ (min_confidence <= Predictions.confidence pred)%Q
        /\ exists days_until,
             Predictions.days_until pred = Some days_until
             /\ days_until <= days_ahead
             /\ (include_overdue = false -> 0 <= days_until).
Proof.
  unfold Predictions.get_predictions_for_period.
  destruct (map_outcome _ _) as [predictions|e] eqn:Hall; [|discriminate].
  cbn [bind]. intros [= <-].
  rewrite (merge_sort_Permutation Predictions.by_urgency).
  rewrite list_elem_of_filter, in_period_true.
  rewrite (map_outcome_elem _ _ _ pred Hall).
  rewrite (period_rows_predicted now category_filter d (fun o => o = Returned pred)).
  split.
  - intros (Hkept & product_id & ps & p & Hps & Hp & Htotal & Hfilter & Hpred).
    exists product_id, ps, p. destruct Hkept as [Hconfidence Hdays].
    split; [exact Hps|]. split; [exact Hp|]. split; [exact Htotal|].
    split; [exact Hfilter|]. split; [exact Hpred|].
    split; [exact Hconfidence | exact Hdays].
  - intros (product_id & ps & p & Hps & Hp & Htotal & Hfilter & Hpred & Hconfidence
            & Hdays).
    split; [split; assumption|].
    exists product_id, ps, p.
    split; [exact Hps|]. split; [exact Hp|]. split; [exact Htotal|].
    split; [exact Hfilter | exact Hpred].
Qed.

(** [get_predictions_for_period] returns exactly when the prediction of
    every product of its query returns: of every product that has a row of
    statistics with at least two purchases and a row of [products] (of the
    category of the filter, when one is given); else it raises what one of
    these predictions raises.  The list that it returns has the
    prediction of such a product exactly when the prediction has a
    confidence of at least [min_confidence] and a [days_until] of at most
    [days_ahead] that is not negative unless [include_overdue] is set.
    The list is sorted by urgency, the most urgent first. *)
Theorem predictions_for_period (now : string -> Z) (days_ahead : Z)
    (category_filter : option string) (min_confidence : Q) (include_overdue : bool)
    (d : db) :
  let run :=
    Predictions.get_predictions_for_period now days_ahead category_filter
      min_confidence include_overdue d in
  ((exists period, run = Returned period)
   <-> forall product_id ps p,
         product_statistics d !! product_id = Some ps ->
         products d !! product_id = Some p ->
         2 <= ProductStatistics.total_purchases ps ->
         (truthy_str category_filter = true ->
          Products.category_type p = category_filter) ->
         exists pred,
           Predictions.predict_repurchase_date (now product_id) product_id
             (Some (Predictions.period_dict ps p)) d
           = Returned pred)
  /\ (forall e,
         run = Raised e ->
         exists product_id ps p,
           product_statistics d !! product_id = Some ps
           /\ products d !! product_id = Some p
           /\ 2 <= ProductStatistics.total_purchases ps
           /\ (truthy_str category_filter = true ->
               Products.category_type p = category_filter)
           /\ Predictions.predict_repurchase_date (now product_id) product_id
                (Some (Predictions.period_dict ps p)) d
              = Raised e)
  /\ (forall period,
         run = Returned period ->
         (forall pred,
             pred ∈ period
             <-> exists product_id ps p,
                   product_statistics d !! product_id = Some ps
                   /\ products d !! product_id = Some p
                   /\ 2 <= ProductStatistics.total_purchases ps
                   /\ (truthy_str category_filter = true ->
                       Products.category_type p = category_filter)
                   /\ Predictions.predict_repurchase_date (now product_id)
                        product_id (Some (Predictions.period_dict ps p)) d
                      = Returned pred
                   /\ (min_confidence <= Predictions.confidence pred)%Q
                   /\ exists days_until,
                        Predictions.days_until pred = Some days_until
                        /\ days_until <= days_ahead
                        /\ (include_overdue = false -> 0 <= days_until))
         /\ Sorted (fun a b => (Predictions.urgency b <= Predictions.urgency a)%Q)
              period).
Proof.
  intros run. split; [|split].
  - subst run. unfold Predictions.get_predictions_for_period. split.
    + intros [period Hrun] product_id ps p Hps Hp Htotal Hfilter.
      destruct (map_outcome _ _) as [predictions|e] eqn:Hall; [|discriminate].
      apply map_outcome_returned in Hall.
      assert ((product_id, Predictions.period_dict ps p)
              ∈ Predictions.period_rows category_filter d) as Hrow.
      { apply period_rows_elem. exists ps, p.
        split; [exact Hps|]. split; [exact Hp|]. split; [exact Htotal|].
        split; [exact Hfilter | reflexivity]. }
      clear Hrun. induction Hall as [|kv pred rows preds Hkv Hrest IH];
        [inversion Hrow|].
      apply elem_of_cons in Hrow as [<- | Hrow]; [exists pred; exact Hkv|].
      apply IH, Hrow.
    + intros Hreturns.
      destruct (map_outcome_returns
                  (fun kv => Predictions.predict_repurchase_date (now kv.1) kv.1
                               (Some kv.2) d)
                  (Predictions.period_rows category_filter d)) as [preds Hall].
      * intros [product_id stats] Hrow.
        apply period_rows_elem in Hrow
          as (ps & p & Hps & Hp & Htotal & Hfilter & ->).
        exact (Hreturns product_id ps p Hps Hp Htotal Hfilter).
      * rewrite Hall. cbn [bind]. eexists. reflexivity.
  - intros e Hrun. subst run. unfold Predictions.get_predictions_for_period in Hrun.
    destruct (map_outcome _ _) as [predictions|e'] eqn:Hall; [discriminate|].
    cbn [bind] in Hrun. injection Hrun as ->.
    apply map_outcome_raised in Hall.
    apply (period_rows_predicted now category_filter d (fun o => o = Raised e)).
    exact Hall.
  - intros period Hrun. split.
    + intros pred. apply (get_predictions_for_period_elem _ _ _ _ _ _ _ _ Hrun).
    + subst run. unfold Predictions.get_predictions_for_period in Hrun.
      destruct (map_outcome _ _) as [predictions|e]; [|discriminate].
      cbn [bind] in Hrun. injection Hrun as <-.
      apply (Sorted_weaken Predictions.by_urgency).
      * intros a b Hab. apply Qle_bool_iff, Hab.
      * apply Sorted_merge_sort, by_urgency_total.
Qed.

(** Every prediction that [get_overdue_items] returns is overdue and
    critical: its predicted date is before the clock of the prediction,
    its [days_until] is negative, its urgency is 1.0 and its label
    'critical', whatever its category. *)
Theorem overdue_items_are_critical (now : string -> Z)
    (category_filter : option string) (d : db)
    (items : list Predictions.RepurchasePrediction)
    (pred : Predictions.RepurchasePrediction) :
  Predictions.get_overdue_items now category_filter d = Returned items ->
  pred ∈ items ->
  (exists days_until predicted,
     Predictions.days_until pred = Some days_until
     /\ days_until < 0
     /\ Predictions.predicted_date pred = Some predicted
     /\ predicted < now (Predictions.product_id pred))
  /\ (Predictions.urgency pred == 1.0)%Q
  /\ Predictions.urgency_label pred = "critical"%string.
Proof.
  unfold Predictions.get_overdue_items.
  destruct (Predictions.get_predictions_for_period now 0 category_filter 0.0 true d)
    as [period|e] eqn:Hperiod; [|discriminate].
  cbn [bind]. intros [= <-]. rewrite list_elem_of_filter.
  intros [Hoverdue Hin].
  apply (get_predictions_for_period_elem _ _ _ _ _ _ _ _ Hperiod)
    in Hin as (product_id & ps & p & _ & _ & _ & _ & Hpred & _ & _).
  unfold Predictions.overdue in Hoverdue.
  destruct (Predictions.days_until pred) as [days_until|] eqn:Hdays; [|discriminate].
  apply Z.ltb_lt in Hoverdue.
  destruct (predict_repurchase_date_predicted _ _ _ _ _ _ Hpred Hdays)
    as (Hid & (predicted & Hpredicted & Hwhole) & Hurgency & Hlabel).
  destruct (urgency_of_cases days_until (Predictions.category pred))
    as (Hover & _).
  cbv zeta in Hover. specialize (Hover Hoverdue).
  split; [|split].
  - exists days_until, predicted. split; [reflexivity|]. split; [exact Hoverdue|].
    split; [exact Hpredicted|]. rewrite Hid.
    subst days_until. unfold td_days in Hoverdue.
    destruct (Z_lt_ge_dec (predicted - now product_id) 0) as [Hbefore|Hafter]; [lia|].
    assert (0 <= (predicted - now product_id) / US_PER_DAY)
      by (apply Z.div_pos; [lia | reflexivity]).
    lia.
  - rewrite Hurgency. exact Hover.
  - rewrite Hlabel. unfold Predictions.get_urgency_label, Predictions.urgency_of.
    replace (days_until <? 0) with true by (symmetry; apply Z.ltb_lt; exact Hoverdue).
    destruct (_ && _); reflexivity.
Qed.

End PredictionsOfPeriod.

(* ===================================================================== *)
(** * Theorems: the products of a category (categories.py) *)
(* ===================================================================== *)

Section CategoryListings.
Context `{Runtime}.

(** A key of the summary that one group alone has holds the count of the
    group. *)
Lemma summary_lookup_unique (groups : list (option string * Z)) (c : string)
    (g : option string * Z) :
  forall result : gmap string Z,
    g ∈ groups ->
    Categories.summary_key g.1 = c ->
    (forall g', g' ∈ groups -> Categories.summary_key g'.1 = c -> g' = g) ->
    fold_left (fun (result : gmap string Z) g => <[Categories.summary_key g.1 := g.2]> result)
      groups result !! c
    = Some g.2.
Proof.
  induction groups as [|h groups IH]; intros result Hin Hkey Hunique.
  - apply elem_of_nil in Hin. contradiction.
  - cbn [fold_left]. destruct (decide (g ∈ groups)) as [Hrest|Hrest].
    + apply IH; [exact Hrest | exact Hkey|].
      intros g' Hg'. apply Hunique. right. exact Hg'.
    + apply elem_of_cons in Hin as [->|Hin]; [|contradiction].
      assert (forall acc : gmap string Z,
                fold_left
                  (fun (result : gmap string Z) g =>
                     <[Categories.summary_key g.1 := g.2]> result) groups acc !! c
                = acc !! c) as ->.
      { clear IH. induction groups as [|g' groups IH]; intros acc; [reflexivity|].
        cbn [fold_left]. rewrite IH.
        - apply lookup_insert_ne. intros Hsame. apply Hrest.
          rewrite <- (Hunique g'); [left | right; left | exact Hsame].
        - intros Hin. apply Hrest. right. exact Hin.
        - intros g'' Hg'' Hsame. apply Hunique; [|exact Hsame].
          apply elem_of_cons in Hg'' as [->|Hg'']; [left | right; right; exact Hg'']. }
      rewrite Hkey. apply lookup_insert_eq.
Qed.

(** A key that no group has is not in the summary. *)
Lemma summary_lookup_none (groups : list (option string * Z)) (c : string) :
  forall result : gmap string Z,
    (forall g, g ∈ groups -> Categories.summary_key g.1 <> c) ->
    fold_left (fun (result : gmap string Z) g => <[Categories.summary_key g.1 := g.2]> result)
      groups result !! c
    = result !! c.
Proof.
  induction groups as [|h groups IH]; intros result Hnone; [reflexivity|].
  cbn [fold_left]. rewrite IH.
  - apply lookup_insert_ne. apply Hnone. left.
  - intros g Hg. apply Hnone. right. exact Hg.
Qed.

Lemma category_groups_elem (d : db) (g : option string * Z) :
  g ∈ Categories.category_groups d
  <-> g.2 = Notions.products_of_category d g.1 /\ 0 < g.2.
Proof.
  unfold Categories.category_groups, Notions.products_of_category.
  rewrite list_elem_of_fmap. split.
  - intros (c & -> & Hc). cbn [fst snd]. split; [reflexivity|].
    rewrite (merge_sort_Permutation Categories.by_text), elem_of_remove_dups in Hc.
    apply list_elem_of_fmap in Hc as (kv & -> & Hkv).
    assert (kv ∈ filter
              (fun kv' : string * Products.row =>
                 Products.category_type kv'.2 = Products.category_type kv.2)
              (map_to_list (products d))) as Hfiltered
      by (apply list_elem_of_filter; split; [reflexivity | exact Hkv]).
    unfold len. destruct (filter _ _); [apply elem_of_nil in Hfiltered; contradiction|].
    cbn [length]. lia.
  - destruct g as [c n]. cbn [fst snd]. intros [-> Hpositive]. exists c.
    split; [reflexivity|].
    rewrite (merge_sort_Permutation Categories.by_text), elem_of_remove_dups.
    unfold len in Hpositive.
    destruct (filter _ _) as [|kv rest] eqn:Hfilter; [cbn in Hpositive; lia|].
    assert (kv ∈ filter
              (fun kv' : string * Products.row => Products.category_type kv'.2 = c)
              (map_to_list (products d))) as Hin by (rewrite Hfilter; left).
    apply list_elem_of_filter in Hin as [<- Hin].
    apply list_elem_of_fmap. exists kv. split; [reflexivity | exact Hin].
Qed.

Lemma summary_key_Some (c : string) :
  c <> ""%string -> Categories.summary_key (Some c) = c.
Proof.
  intros Hc. unfold Categories.summary_key.
  rewrite (proj2 (truthy_str_Some c) Hc). reflexivity.
Qed.

Lemma summary_key_uncategorized (category_type : option string) :
  Categories.summary_key category_type = "uncategorized"%string
  <-> category_type = None \/ category_type = Some ""%string
      \/ category_type = Some "uncategorized"%string.
Proof.
  unfold Categories.summary_key. destruct category_type as [[|a c]|]; cbn.
  - split; [intros _; right; left; reflexivity | reflexivity].
  - split; [intros ->; right; right; reflexivity|].
    intros [Hnone | [Hempty | Hsame]]; congruence.
  - split; [intros _; left; reflexivity | reflexivity].
Qed.

(** [get_category_summary] counts the products of a category: for a
    category other than 'uncategorized', the summary has the category
    exactly when a product has it, with the number of these products.  For
    'uncategorized' it does so when no product has [category_type] [NULL]
    or empty; the key is never the empty string. *)
Theorem category_summary_counts (d : db) (c : string) :
  let n := Notions.products_of_category d (Some c) in
  (c <> "uncategorized"%string
   \/ (Notions.products_of_category d None = 0
       /\ Notions.products_of_category d (Some ""%string) = 0) ->
   Categories.get_category_summary d !! c
   = if (0 <? n) && negb (String.eqb c "") then Some n else None).
Proof.
  intros n Hclean. unfold Categories.get_category_summary.
  destruct (String.eqb_spec c "") as [->|Hc]; [rewrite andb_false_r|rewrite andb_true_r].
  - rewrite summary_lookup_none; [apply lookup_empty|].
    intros [[[|a s]|] m] _; cbn; discriminate.
  - assert (forall g, g ∈ Categories.category_groups d ->
                      Categories.summary_key g.1 = c -> g = (Some c, n)) as Hunique.
    { intros [t m] Hg Hkey. apply category_groups_elem in Hg as [Hm Hpositive].
      cbn [fst snd] in *.
      assert (t = Some c) as ->; [|subst m; reflexivity].
      destruct Hclean as [Hother | [Hnull Hempty]].
      - unfold Categories.summary_key in Hkey.
        destruct t as [[|a s]|]; cbn in Hkey; congruence.
      - destruct t as [[|a s]|].
        + rewrite Hempty in Hm. lia.
        + cbn in Hkey. congruence.
        + rewrite Hnull in Hm. lia. }
    destruct (0 <? n) eqn:Hpositive.
    + apply Z.ltb_lt in Hpositive.
      rewrite (summary_lookup_unique _ c (Some c, n)); [reflexivity | | |exact Hunique].
      * apply category_groups_elem. split; [reflexivity | exact Hpositive].
      * apply summary_key_Some, Hc.
    + apply Z.ltb_ge in Hpositive.
      rewrite summary_lookup_none; [apply lookup_empty|].
      intros g Hg Hkey. rewrite (Hunique g Hg Hkey) in Hg.
      apply category_groups_elem in Hg as [_ Hn]. cbn in Hn. lia.
Qed.

Lemma get_items_by_category_listed (category : string) (include_stats : bool)
    (d : db) (product_id : string) :
  (exists item,
     item ∈ Categories.get_items_by_category category include_stats d
     /\ Categories.item_product_id item = product_id)
  <-> Categories.get_product_category product_id d = Some category.
Proof.
  unfold Categories.get_items_by_category, Categories.get_product_category. split.
  - intros (item & Hin & <-). apply list_elem_of_fmap in Hin as ([k row] & -> & Hin).
    rewrite (merge_sort_Permutation Categories.by_description) in Hin.
    apply list_elem_of_filter in Hin as [Hcategory Hin].
    apply elem_of_map_to_list in Hin. cbn [Categories.item_product_id fst].
    rewrite Hin. exact Hcategory.
  - destruct (products d !! product_id) as [row|] eqn:Hrow; [|discriminate].
    intros Hcategory. eexists. split.
    + apply list_elem_of_fmap. exists (product_id, row). split; [reflexivity|].
      rewrite (merge_sort_Permutation Categories.by_description).
      apply list_elem_of_filter. split; [exact Hcategory|].
      apply elem_of_map_to_list, Hrow.
    + reflexivity.
Qed.

Lemma text_leb_total (a b : option string) :
  Categories.text_leb a b = true \/ Categories.text_leb b a = true.
Proof.
  destruct a as [x|], b as [y|]; cbn; auto. apply String.leb_total.
Qed.

(** [get_items_by_category] lists a product under a category exactly
    when [get_product_category] reads this category for it; it lists no
    product twice, and in the order of the descriptions, those without one
    first.  With [include_stats] an item has the columns of the statistics
    of its product, and without it none. *)
Theorem items_by_category (category : string) (include_stats : bool) (d : db) :
  let items := Categories.get_items_by_category category include_stats d in
  (forall product_id,
     (exists item, item ∈ items /\ Categories.item_product_id item = product_id)
     <-> Categories.get_product_category product_id d = Some category)
  /\ (forall item,
        item ∈ items ->
        products d !! Categories.item_product_id item
        = Some (Categories.item_product item)
        /\ (is_Some (Categories.item_stats item) <-> include_stats = true))
  /\ NoDup (Categories.item_product_id <$> items)
  /\ Sorted
       (fun a b =>
          Categories.text_leb (Products.description (Categories.item_product a))
            (Products.description (Categories.item_product b)) = true)
       items.
Proof.
  intros items. subst items. split; [|split; [|split]].
  - intros product_id. apply get_items_by_category_listed.
  - intros item Hin. unfold Categories.get_items_by_category in Hin.
    apply list_elem_of_fmap in Hin as ([k row] & -> & Hin).
    rewrite (merge_sort_Permutation Categories.by_description) in Hin.
    apply list_elem_of_filter in Hin as [_ Hin]. apply elem_of_map_to_list in Hin.
    cbn [Categories.item_product_id Categories.item_product Categories.item_stats
         fst snd].
    split; [exact Hin|]. destruct include_stats; split; try discriminate.
    + intros _. reflexivity.
    + intros _. eexists. reflexivity.
    + intros Hsome. apply is_Some_None in Hsome. contradiction.
  - unfold Categories.get_items_by_category. rewrite <- list_fmap_compose.
    apply NoDup_fmap_2_strong.
    + intros [k1 r1] [k2 r2] H1 H2. cbn. intros <-.
      rewrite (merge_sort_Permutation Categories.by_description) in H1, H2.
      apply list_elem_of_filter in H1 as [_ H1]. apply list_elem_of_filter in H2 as [_ H2].
      apply elem_of_map_to_list in H1, H2. congruence.
    + rewrite (merge_sort_Permutation Categories.by_description).
      apply NoDup_filter, NoDup_map_to_list.
  - unfold Categories.get_items_by_category.
    apply (Sorted_fmap _ Categories.by_description).
    + intros a b Hab. exact Hab.
    + apply Sorted_merge_sort. intros a b. apply text_leb_total.
Qed.

(** [set_product_category] raises [ValueError] for a category that
    is not 'routine', 'regular', 'treat' or 'uncategorized', and then
    changes nothing.  For one of these it returns, with the category the
    product had in [previous_category]; after it the product has the
    category, is listed under it and under no other, and every other
    product has the category it had. *)
Theorem set_product_category_listed (now : Z) (current_timestamp : string)
    (product_id category : string) (is_override : bool) (d : db) :
  let run :=
    Categories.set_product_category now current_timestamp product_id category
      is_override d in
  (category ∉ Categories.valid_categories -> run = (d, Raised ValueError))
  /\ (category ∈ Categories.valid_categories ->
      (exists result,
         run.2 = Returned result
         /\ Categories.previous_category result
            = Categories.get_product_category product_id d)
      /\ Categories.get_product_category product_id run.1 = Some category
      /\ (forall listing include_stats,
            (exists item,
               item ∈ Categories.get_items_by_category listing include_stats run.1
               /\ Categories.item_product_id item = product_id)
            <-> listing = category)
      /\ (forall other,
            other <> product_id ->
            Categories.get_product_category other run.1
            = Categories.get_product_category other d)).
Proof.
  intros run. subst run. unfold Categories.set_product_category. split.
  - intros Hinvalid. rewrite (bool_decide_eq_false_2 _ Hinvalid). reflexivity.
  - intros Hvalid. rewrite (bool_decide_eq_true_2 _ Hvalid). cbn [negb].
    assert (forall row' result,
              let d' := set_products d (<[product_id := row']> (products d)) in
              Products.category_type row' = Some category ->
              Categories.previous_category result
              = Categories.get_product_category product_id d ->
              (exists r,
                 (d', Returned result).2 = Returned r
                 /\ Categories.previous_category r
                    = Categories.get_product_category product_id d)
              /\ Categories.get_product_category product_id (d', Returned result).1
                 = Some category
              /\ (forall listing include_stats,
                    (exists item,
                       item ∈ Categories.get_items_by_category listing include_stats
                                (d', Returned result).1
                       /\ Categories.item_product_id item = product_id)
                    <-> listing = category)
              /\ (forall other,
                    other <> product_id ->
                    Categories.get_product_category other (d', Returned result).1
                    = Categories.get_product_category other d)) as Hwritten.
    { intros row' result d' Hcategory Hprevious. cbn [fst snd].
      assert (Categories.get_product_category product_id d' = Some category) as Hread.
      { unfold Categories.get_product_category. subst d'. cbn.
        rewrite lookup_insert_eq. exact Hcategory. }
      split; [exists result; split; [reflexivity | exact Hprevious]|].
      split; [exact Hread|]. split.
      - intros listing include_stats. rewrite get_items_by_category_listed, Hread.
        split; congruence.
      - intros other Hother. unfold Categories.get_product_category. subst d'. cbn.
        rewrite lookup_insert_ne by congruence. reflexivity. }
    unfold Categories.get_product_category in Hwritten |- *.
    destruct (products d !! product_id) as [row|] eqn:Hrow;
      apply Hwritten; reflexivity.
Qed.

End CategoryListings.

(* ===================================================================== *)
(** * Theorems: recording cart additions and orders (purchase_tracker.py) *)
(* ===================================================================== *)

Section PurchaseTracking.
Context `{Runtime}.

Lemma restock_item_tracked (now : Z) (product_id : string) (level : Z)
    (description : option string) (d : db) (old : PantryItems.row) :
  pantry_items d !! product_id = Some old ->
  exists row result,
    Pantry.restock_item now product_id level description d
    = (set_pantry_items d (<[product_id := row]> (pantry_items d)), Returned result)
    /\ PantryItems.level_percent row = Pantry.clamp_level level
    /\ PantryItems.last_restocked_at row = Some (isoformat now)
    /\ PantryItems.last_updated_at row = Some (isoformat now)
    /\ PantryItems.auto_deplete row = PantryItems.auto_deplete old
    /\ PantryItems.low_threshold row = PantryItems.low_threshold old.
Proof.
  intros Hold. unfold Pantry.restock_item. rewrite Hold.
  eexists _, _. split; [reflexivity|]. repeat split.
Qed.

(** What the restocking of the items of an order changes: rows of
    [pantry_items] that exist. *)
Lemma _restock_from_frame (now_status now_restock : nat -> Z)
    (cart_items : list PurchaseTracker.CartItem) :
  forall (i : nat) (d : db),
    let d' := PurchaseTracker._restock_from now_status now_restock i cart_items d in
    products d' = products d
    /\ purchase_events d' = purchase_events d
    /\ product_statistics d' = product_statistics d
    /\ dom (pantry_items d') = dom (pantry_items d).
Proof.
  induction cart_items as [|item rest IH]; intros i d; [repeat split|].
  cbn [PurchaseTracker._restock_from].
  destruct (truthy_str (PurchaseTracker.product_id item)); [|apply IH].
  rewrite get_pantry_item_row.
  destruct (pantry_items d !! default ""%string (PurchaseTracker.product_id item))
    as [old|] eqn:Hold; cbn [fmap option_fmap option_map]; [|apply IH].
  destruct (restock_item_tracked (now_restock i) _ 100
              (PurchaseTracker.description item) d old Hold)
    as (row & result & -> & _).
  destruct (IH (S i) (set_pantry_items d
                        (<[default ""%string (PurchaseTracker.product_id item) := row]>
                           (pantry_items d))))
    as (Hproducts & Hevents & Hstats & Hdom).
  cbn zeta. rewrite Hproducts, Hevents, Hstats, Hdom. cbn.
  repeat split. rewrite dom_insert_L.
  apply subseteq_union_1_L, singleton_subseteq_l. apply elem_of_dom_2 in Hold.
  exact Hold.
Qed.

(** The conclusion of [_restock_from_rows] for the items after one that
    does not name the product is the one for the items with it. *)
Local Ltac skip_item IH i d old Hold :=
  let Hrestocked := fresh "Hrestocked" in
  let Hkept := fresh "Hkept" in
  destruct (IH (S i) d old Hold) as [Hrestocked Hkept]; split;
  [ let item' := fresh "item'" in
    let Hin := fresh "Hin" in
    let Hid := fresh "Hid" in
    let Hne := fresh "Hne" in
    intros (item' & Hin & Hid & Hne);
    apply elem_of_cons in Hin as [->|Hin]; [congruence|];
    let row := fresh "row" in
    let j := fresh "j" in
    destruct Hrestocked as (row & j & ? & ? & ? & ? & ? & ? & ?);
    [ exists item'; repeat split; assumption
    | exists row, j; cbn [length]; repeat split; try assumption; lia ]
  | let Hnone := fresh "Hnone" in
    let item' := fresh "item'" in
    let Hin := fresh "Hin" in
    intros Hnone; apply Hkept; intros item' Hin; apply Hnone; right; exact Hin ].

(** The tracked items of an order are restocked, the others are not
    touched. *)
Lemma _restock_from_rows (now_status now_restock : nat -> Z)
    (cart_items : list PurchaseTracker.CartItem) (product_id : string) :
  forall (i : nat) (d : db) (old : PantryItems.row),
    pantry_items d !! product_id = Some old ->
    let d' := PurchaseTracker._restock_from now_status now_restock i cart_items d in
    ((exists item,
        item ∈ cart_items
        /\ PurchaseTracker.product_id item = Some product_id
        /\ product_id <> ""%string) ->
     exists row (j : nat),
       pantry_items d' !! product_id = Some row
       /\ PantryItems.level_percent row = 100
       /\ PantryItems.last_restocked_at row = Some (isoformat (now_restock j))
       /\ PantryItems.last_updated_at row = Some (isoformat (now_restock j))
       /\ PantryItems.auto_deplete row = PantryItems.auto_deplete old
       /\ PantryItems.low_threshold row = PantryItems.low_threshold old
       /\ (i <= j < i + length cart_items)%nat)
    /\ ((forall item,
           item ∈ cart_items ->
           PurchaseTracker.product_id item <> Some product_id
           \/ product_id = ""%string) ->
        pantry_items d' !! product_id = Some old).
Proof.
  induction cart_items as [|item rest IH]; intros i d old Hold d'; subst d'.
  - split; [|intros _; exact Hold].
    intros (item & Hin & _). apply elem_of_nil in Hin. contradiction.
  - cbn [PurchaseTracker._restock_from].
    destruct (PurchaseTracker.product_id item) as [q|] eqn:Hq;
      [|cbn [truthy_str]; skip_item IH i d old Hold].
    destruct (String.eqb_spec q "") as [->|Hq_ne];
      [cbn [truthy_str]; skip_item IH i d old Hold|].
    rewrite (proj2 (truthy_str_Some q) Hq_ne).
    change (default ""%string (Some q)) with q.
    rewrite get_pantry_item_row.
    destruct (pantry_items d !! q) as [old_q|] eqn:Hold_q;
      cbn [fmap option_fmap option_map]; [|skip_item IH i d old Hold].
    destruct (restock_item_tracked (now_restock i) q 100
                (PurchaseTracker.description item) d old_q Hold_q)
      as (row_q & result & -> & Hlevel & Hrestocked_at & Hupdated_at & Hauto & Hlow).
    set (d1 := set_pantry_items d (<[q := row_q]> (pantry_items d))).
    destruct (decide (q = product_id)) as [->|Hother].
    + assert (pantry_items d1 !! product_id = Some row_q) as Hrow_q
        by (subst d1; cbn; apply lookup_insert_eq).
      rewrite Hold in Hold_q. injection Hold_q as <-.
      destruct (IH (S i) d1 row_q Hrow_q) as [Hrestocked Hkept]. split.
      * intros _.
        destruct (decide (Exists
                            (fun item' =>
                               PurchaseTracker.product_id item' = Some product_id)
                            rest)) as [Hlater|Hnone].
        -- apply Exists_exists in Hlater as (item' & Hin & Hid).
           destruct Hrestocked as (row & j & Hrow & Hl & Hr & Hu & Ha & Ht & Hj);
             [exists item'; repeat split; assumption|].
           exists row, j. split; [exact Hrow|]. cbn [length].
           repeat split; try assumption; try congruence; lia.
        -- exists row_q, i. rewrite Hkept.
           ++ cbn [length]. repeat split; try assumption; lia.
           ++ intros item' Hin. left. intros Hid. apply Hnone.
              apply Exists_exists. exists item'. split; assumption.
      * intros Hnone. exfalso. destruct (Hnone item) as [Hid|Hempty];
          [left | congruence | congruence].
    + assert (pantry_items d1 !! product_id = Some old) as Hold1
        by (subst d1; cbn; rewrite lookup_insert_ne by exact Hother; exact Hold).
      skip_item IH i d1 old Hold1.
Qed.

Lemma known_product (d : db) (item : PurchaseTracker.CartItem) :
  PurchaseTracker.known d item = true
  <-> exists product_id,
        PurchaseTracker.product_id item = Some product_id
        /\ is_Some (products d !! product_id).
Proof.
  unfold PurchaseTracker.known, references_product.
  destruct (PurchaseTracker.product_id item) as [product_id|].
  - rewrite bool_decide_eq_true. split.
    + intros Hproduct. exists product_id. split; [reflexivity | exact Hproduct].
    + intros (k & [= <-] & Hproduct). exact Hproduct.
  - split; [discriminate | intros (k & Hnone & _); discriminate].
Qed.

Lemma all_known (d : db) (cart_items : list PurchaseTracker.CartItem) :
  forallb (PurchaseTracker.known d) cart_items = true
  <-> forall item, item ∈ cart_items -> PurchaseTracker.known d item = true.
Proof.
  rewrite forallb_forall. split; intros Hall item Hin; apply Hall;
    apply list_elem_of_In; exact Hin.
Qed.

Lemma record_order_known (now : Z) (now_status now_restock : nat -> Z)
    (cart_items : list PurchaseTracker.CartItem) (order_notes : option string)
    (orders : list PurchaseTracker.Order) (d : db) :
  (forall item, item ∈ cart_items -> PurchaseTracker.known d item = true) ->
  PurchaseTracker.record_order now now_status now_restock cart_items order_notes
    orders d
  = (orders
       ++ [PurchaseTracker.mk_order (isoformat now) (len cart_items)
             (isum (map (fun item => default 1 (PurchaseTracker.quantity item))
                      cart_items))
             order_notes],
     PurchaseTracker._restock_pantry_items now_status now_restock cart_items
       (set_purchase_events d
          (purchase_events d ++ map (PurchaseTracker.order_event now) cart_items)),
     PurchaseTracker.Recorded (len orders + 1)).
Proof.
  intros Hknown. unfold PurchaseTracker.record_order.
  rewrite (proj2 (all_known d cart_items) Hknown). reflexivity.
Qed.

(** What [record_order] writes when it records the order. *)
Lemma record_order_frame (now : Z) (now_status now_restock : nat -> Z)
    (cart_items : list PurchaseTracker.CartItem) (order_notes : option string)
    (orders : list PurchaseTracker.Order) (d : db) :
  (forall item, item ∈ cart_items -> PurchaseTracker.known d item = true) ->
  let d' :=
    (PurchaseTracker.record_order now now_status now_restock cart_items order_notes
       orders d).1.2 in
  purchase_events d'
  = purchase_events d ++ map (PurchaseTracker.order_event now) cart_items
  /\ products d' = products d
  /\ product_statistics d' = product_statistics d
  /\ dom (pantry_items d') = dom (pantry_items d)
  /\ (Spec.foreign_keys_hold d -> Spec.foreign_keys_hold d').
Proof.
  intros Hall d'. subst d'.
  rewrite (record_order_known _ _ _ _ _ _ _ Hall). cbn [fst snd].
  unfold PurchaseTracker._restock_pantry_items.
  match goal with
  | |- context [PurchaseTracker._restock_from ?s ?r ?i ?c ?d1] =>
      pose proof (_restock_from_frame s r c i d1)
        as (Hproducts & Hevents & Hstats & Hdom)
  end.
  cbn zeta in *. rewrite Hproducts, Hevents, Hstats, Hdom.
  cbn [products purchase_events product_statistics pantry_items
       set_purchase_events].
  split; [reflexivity|]. split; [reflexivity|]. split; [reflexivity|].
  split; [reflexivity|].
  intros (Hpantry & Hstatistics & Hledger).
  split; [|split].
  - rewrite Hdom, Hproducts. exact Hpantry.
  - rewrite Hstats, Hproducts. exact Hstatistics.
  - rewrite Hevents, Hproducts.
    cbn [products purchase_events set_purchase_events].
    apply Forall_app. split; [exact Hledger|].
    apply Forall_forall. intros e He. apply list_elem_of_fmap in He as (item & -> & Hin).
    destruct (proj1 (known_product d item) (Hall item Hin))
      as (product_id & Hid & Hproduct).
    unfold PurchaseTracker.order_event. cbn [PurchaseEvents.product_id].
    rewrite Hid. apply elem_of_dom. exact Hproduct.
Qed.

(** [record_order] leaves with 'database is locked', and records
    nothing, when an item of the cart has no [product_id] or names a
    product that is not in [products]: its own transaction locks out the
    insertion of the product.  When every item names a product of
    [products], it returns the id of the order, which is appended to
    [orders], and appends one 'order_placed' event for each item, in the
    order of the cart, dated at the time of the call; it adds no product,
    no statistics and no pantry item, and keeps the foreign keys. *)
Theorem record_order_records (now : Z) (now_status now_restock : nat -> Z)
    (cart_items : list PurchaseTracker.CartItem) (order_notes : option string)
    (orders : list PurchaseTracker.Order) (d : db) :
  let run :=
    PurchaseTracker.record_order now now_status now_restock cart_items order_notes
      orders d in
  ((exists item,
      item ∈ cart_items
      /\ (PurchaseTracker.product_id item = None
          \/ exists product_id,
               PurchaseTracker.product_id item = Some product_id
               /\ products d !! product_id = None)) ->
   run = (orders, d, PurchaseTracker.DatabaseLocked))
  /\ ((forall item,
         item ∈ cart_items ->
         exists product_id,
           PurchaseTracker.product_id item = Some product_id
           /\ is_Some (products d !! product_id)) ->
      run.2 = PurchaseTracker.Recorded (len orders + 1)
      /\ (exists order,
            run.1.1 = orders ++ [order]
            /\ PurchaseTracker.placed_at order = isoformat now
            /\ PurchaseTracker.item_count order = len cart_items)
      /\ purchase_events run.1.2
         = purchase_events d
             ++ map
                  (fun item =>
                     PurchaseEvents.mk
                       (default ""%string (PurchaseTracker.product_id item))
                       (default 1 (PurchaseTracker.quantity item))
                       "order_placed" (date_str now) (isoformat now))
                  cart_items
      /\ products run.1.2 = products d
      /\ product_statistics run.1.2 = product_statistics d
      /\ dom (pantry_items run.1.2) = dom (pantry_items d)
      /\ (Spec.foreign_keys_hold d -> Spec.foreign_keys_hold run.1.2)).
Proof.
  intros run. subst run. split.
  - intros (item & Hin & Hunknown). unfold PurchaseTracker.record_order.
    destruct (forallb (PurchaseTracker.known d) cart_items) eqn:Hall; [|reflexivity].
    exfalso. pose proof (proj1 (all_known d cart_items) Hall item Hin) as Hknown.
    apply known_product in Hknown as (product_id & Hid & Hproduct).
    destruct Hunknown as [Hnone | (k & Hk & Hmissing)]; [congruence|].
    rewrite Hid in Hk. injection Hk as <-. rewrite Hmissing in Hproduct.
    apply is_Some_None in Hproduct. contradiction.
  - intros Hknown.
    assert (forall item, item ∈ cart_items -> PurchaseTracker.known d item = true)
      as Hall by (intros item Hin; apply known_product, Hknown, Hin).
    pose proof (record_order_frame now now_status now_restock cart_items order_notes
                  orders d Hall) as (Hevents & Hproducts & Hstats & Hdom & Hkeys).
    cbn zeta in *.
    split; [|split; [|split; [exact Hevents|]; split; [exact Hproducts|];
                      split; [exact Hstats|]; split; [exact Hdom | exact Hkeys]]].
    + rewrite (record_order_known _ _ _ _ _ _ _ Hall). reflexivity.
    + rewrite (record_order_known _ _ _ _ _ _ _ Hall). cbn [fst snd].
      eexists. repeat split.
Qed.

(** When [record_order] records an order, a tracked pantry item that
    an item of the cart names is restocked: its level is 100 and its
    restock and update times are the time of one of the restocks of the
    call; its threshold and its [auto_deplete] flag are kept.  A tracked
    item that no item of the cart names is not changed, and a product
    that is not tracked is not tracked after the call. *)
Theorem record_order_restocks (now : Z) (now_status now_restock : nat -> Z)
    (cart_items : list PurchaseTracker.CartItem) (order_notes : option string)
    (orders : list PurchaseTracker.Order) (d : db) (product_id : string) :
  (forall item, item ∈ cart_items -> PurchaseTracker.known d item = true) ->
  let d' :=
    (PurchaseTracker.record_order now now_status now_restock cart_items order_notes
       orders d).1.2 in
  (forall old,
     pantry_items d !! product_id = Some old ->
     ((exists item,
         item ∈ cart_items /\ PurchaseTracker.product_id item = Some product_id) ->
      product_id <> ""%string ->
      exists row (j : nat),
        pantry_items d' !! product_id = Some row
        /\ PantryItems.level_percent row = 100
        /\ PantryItems.last_restocked_at row = Some (isoformat (now_restock j))
        /\ PantryItems.last_updated_at row = Some (isoformat (now_restock j))
        /\ PantryItems.auto_deplete row = PantryItems.auto_deplete old
        /\ PantryItems.low_threshold row = PantryItems.low_threshold old
        /\ (j < length cart_items)%nat)
     /\ ((forall item,
            item ∈ cart_items ->
            PurchaseTracker.product_id item <> Some product_id) ->
         pantry_items d' !! product_id = Some old))
  /\ (pantry_items d !! product_id = None -> pantry_items d' !! product_id = None).
Proof.
  intros Hknown d'. subst d'.
  rewrite (record_order_known _ _ _ _ _ _ _ Hknown). cbn [fst snd].
  unfold PurchaseTracker._restock_pantry_items. split.
  - intros old Hold.
    match goal with
    | |- context [PurchaseTracker._restock_from ?s ?r ?i ?c ?d1] =>
        destruct (_restock_from_rows s r c product_id i d1 old Hold)
          as [Hrestocked Hkept]
    end.
    cbn zeta in *. split.
    + intros (item & Hin & Hid) Hne.
      destruct Hrestocked as (row & j & Hrow & Hl & Hr & Hu & Ha & Ht & Hj);
        [exists item; repeat split; assumption|].
      exists row, j. repeat split; try assumption. lia.
    + intros Hnone. apply Hkept. intros item Hin. left. apply Hnone, Hin.
  - intros Hnone.
    match goal with
    | |- context [PurchaseTracker._restock_from ?s ?r ?i ?c ?d1] =>
        pose proof (_restock_from_frame s r c i d1) as (_ & _ & _ & Hdom)
    end.
    cbn zeta in Hdom. apply not_elem_of_dom. rewrite Hdom.
    apply not_elem_of_dom. exact Hnone.
Qed.

End PurchaseTracking.

(* ===================================================================== *)
(** * Theorems: from the cart to the statistics *)
(* ===================================================================== *)

Section CartToStatistics.
Context `{Runtime}.

Lemma ensure_product_exists_product (now : Z) (current_timestamp : string)
    (product_id : string) (description : option string) (d : db) :
  let d' :=
    PurchaseTracker.ensure_product_exists now current_timestamp product_id
      description d in
  is_Some (products d' !! product_id)
  /\ (forall other row, products d !! other = Some row -> products d' !! other = Some row)
  /\ dom (products d) ⊆ dom (products d')
  /\ purchase_events d' = purchase_events d
  /\ product_statistics d' = product_statistics d
  /\ pantry_items d' = pantry_items d.
Proof.
  unfold PurchaseTracker.ensure_product_exists.
  destruct (products d !! product_id) as [row|] eqn:Hrow; cbn zeta.
  - rewrite Hrow. repeat split; eauto.
  - cbn. rewrite lookup_insert_eq. split; [eauto|]. split; [|repeat split].
    + intros other row Hother. rewrite lookup_insert_ne by congruence. exact Hother.
    + rewrite dom_insert_L. apply union_subseteq_r.
Qed.

Lemma cart_add_does_not_qualify (product_id event_product_id : string) (quantity : Z)
    (event_date event_timestamp : string) :
  Statistics.qualifying product_id
    (PurchaseEvents.mk event_product_id quantity "cart_add" event_date event_timestamp)
  = false.
Proof. unfold Statistics.qualifying. cbn. apply andb_false_r. Qed.

(** [record_cart_add] appends one 'cart_add' event and returns its
    id.  It inserts the product when [products] does not have it, and then
    only, so it keeps the foreign keys.  A cart addition is no purchase:
    the events that the statistics of any product are computed from are
    the same after it as before, and on a database whose foreign keys hold
    [update_product_stats] returns and stores the same after it as before. *)
Theorem record_cart_add_keeps_statistics (now_product now : Z)
    (current_timestamp : string) (product_id : string) (quantity : Z)
    (description : option string) (d : db) :
  let run :=
    PurchaseTracker.record_cart_add now_product now current_timestamp product_id
      quantity description d in
  run.2 = len (purchase_events d) + 1
  /\ purchase_events run.1
     = purchase_events d
         ++ [PurchaseEvents.mk product_id quantity "cart_add" (date_str now)
               (isoformat now)]
  /\ is_Some (products run.1 !! product_id)
  /\ (forall other row,
        products d !! other = Some row -> products run.1 !! other = Some row)
  /\ (forall other,
        Statistics.qualifying_events other run.1 = Statistics.qualifying_events other d)
  /\ (Spec.foreign_keys_hold d ->
      Spec.foreign_keys_hold run.1
      /\ forall config at_time other,
           (Statistics.update_product_stats config at_time other run.1).2
           = (Statistics.update_product_stats config at_time other d).2
           /\ product_statistics
                (Statistics.update_product_stats config at_time other run.1).1
              = product_statistics
                  (Statistics.update_product_stats config at_time other d).1).
Proof.
  intros run. subst run. unfold PurchaseTracker.record_cart_add.
  pose proof (ensure_product_exists_product now_product current_timestamp product_id
                description d) as (Hproduct & Hkept & Hdom & Hevents & Hstats & Hpantry).
  cbn zeta in *.
  set (d1 := PurchaseTracker.ensure_product_exists now_product current_timestamp
               product_id description d) in *.
  cbn [fst snd products purchase_events product_statistics pantry_items
       set_purchase_events].
  unfold PurchaseTracker.lastrowid. rewrite Hevents.
  assert (forall other,
            Statistics.qualifying_events other
              (set_purchase_events d1
                 (purchase_events d
                    ++ [PurchaseEvents.mk product_id quantity "cart_add"
                          (date_str now) (isoformat now)]))
            = Statistics.qualifying_events other d) as Hqualifying.
  { intros other. unfold Statistics.qualifying_events.
    cbn [purchase_events set_purchase_events]. rewrite filter_app.
    rewrite (filter_none _ [_]); [rewrite app_nil_r; reflexivity|].
    intros e He. apply list_elem_of_singleton in He as ->.
    rewrite cart_add_does_not_qualify. discriminate. }
  split; [reflexivity|]. split; [reflexivity|]. split; [exact Hproduct|].
  split; [exact Hkept|]. split; [exact Hqualifying|].
  intros (Hfk_pantry & Hfk_stats & Hfk_ledger).
  assert (Spec.foreign_keys_hold
            (set_purchase_events d1
               (purchase_events d
                  ++ [PurchaseEvents.mk product_id quantity "cart_add"
                        (date_str now) (isoformat now)]))) as Hkeys.
  { split; [|split]; cbn [products purchase_events product_statistics pantry_items
                          set_purchase_events].
    - rewrite Hpantry. etransitivity; [exact Hfk_pantry | exact Hdom].
    - rewrite Hstats. etransitivity; [exact Hfk_stats | exact Hdom].
    - apply Forall_app. split.
      + eapply Forall_impl; [exact Hfk_ledger|]. intros e He. apply Hdom, He.
      + constructor; [|constructor]. cbn. apply elem_of_dom, Hproduct. }
  split; [exact Hkeys|].
  intros config at_time other.
  pose proof (update_product_stats_returns config at_time other _ Hkeys)
    as (result' & Hresult' & Hreported').
  pose proof (update_product_stats_returns config at_time other d
                (conj Hfk_pantry (conj Hfk_stats Hfk_ledger)))
    as (result & Hresult & Hreported).
  cbn zeta in *. rewrite Hqualifying in Hreported'.
  assert (result' = result) as ->.
  { destruct result as [id|id row c], result' as [id'|id' row' c'].
    - destruct Hreported as [-> _], Hreported' as [-> _]. reflexivity.
    - destruct Hreported as [_ Hnone], Hreported' as (_ & Hsome & _). congruence.
    - destruct Hreported' as [_ Hnone], Hreported as (_ & Hsome & _). congruence.
    - destruct Hreported as (-> & _ & -> & ->), Hreported' as (-> & _ & -> & ->).
      reflexivity. }
  split; [congruence|].
  destruct (update_product_stats_cases config at_time other d)
    as [(_ & Hcase) | [(_ & _ & Hcase) | (_ & _ & _ & Hcase)]];
    rewrite Hcase in Hresult |- *; cbn [fst snd] in *; try discriminate;
    match goal with
    | |- context [Statistics.update_product_stats ?c ?t ?p ?d2] =>
        destruct (update_product_stats_cases c t p d2)
          as [(_ & Hcase') | [(_ & _ & Hcase') | (_ & _ & _ & Hcase')]];
        rewrite Hcase' in Hresult' |- *; cbn [fst snd] in *; try discriminate;
        try congruence
    end.
  - cbn [product_statistics set_purchase_events]. exact Hstats.
  - cbn [product_statistics set_purchase_events set_product_statistics].
    rewrite Hstats, Hqualifying. reflexivity.
Qed.

(** The statistics of a product after [update_all_product_stats]. *)
Lemma update_all_from_stored (config : Config.PredictionConfig) (now : nat -> Z)
    (d : db) (product_id : string) (product_ids : list string) :
  forall (i : nat) (results : list Statistics.StatsResult) (d' : db),
    Spec.foreign_keys_hold d' ->
    purchase_events d' = purchase_events d ->
    let events := Statistics.qualifying_events product_id d in
    let stored (d'' : db) :=
      exists at_time,
        product_statistics d'' !! product_id
        = Some (Statistics.compute_stats config at_time events).1 in
    let run := Statistics.update_all_from config now i product_ids results d' in
    (stored d' -> stored run.1)
    /\ (product_id ∈ product_ids -> events <> [] -> stored run.1).
Proof.
  induction product_ids as [|id rest IH]; intros i results d' Hkeys Hledger events
    stored run; subst run; set (E := events) in *; subst stored; cbn beta.
  - split; [intros Hstored; exact Hstored|].
    intros Hin. apply elem_of_nil in Hin. contradiction.
  - cbn [Statistics.update_all_from].
    pose proof (update_product_stats_returns config (now i) id d' Hkeys)
      as (result & Hresult & Hreported).
    pose proof (update_product_stats_foreign_keys config (now i) id d' Hkeys)
      as Hkeys'.
    pose proof (update_product_stats_frame config (now i) id d')
      as (_ & Hevents & _).
    assert ((exists at_time,
               product_statistics d' !! product_id
               = Some (Statistics.compute_stats config at_time E).1)
            \/ (id = product_id /\ E <> [])
            -> exists at_time,
                 product_statistics
                   (Statistics.update_product_stats config (now i) id d').1
                 !! product_id
                 = Some (Statistics.compute_stats config at_time E).1)
      as Hstep.
    { destruct (update_product_stats_cases config (now i) id d')
        as [(Hnone & Hcase) | [(_ & _ & Hcase) | (_ & _ & _ & Hcase)]];
        rewrite Hcase in *; cbn [fst snd] in *.
      - intros [Hstored | [-> Hsome]]; [exact Hstored|].
        exfalso. apply Hsome. subst E events.
        rewrite <- (qualifying_events_ledger product_id d d' Hledger). exact Hnone.
      - cbn [product_statistics set_product_statistics].
        destruct (decide (id = product_id)) as [->|Hother].
        + intros _. exists (now i). rewrite lookup_insert_eq.
          rewrite (qualifying_events_ledger product_id d d' Hledger). reflexivity.
        + intros [Hstored | [Hid _]]; [|congruence].
          destruct Hstored as [at_time Hstored]. exists at_time.
          rewrite lookup_insert_ne by exact Hother. exact Hstored.
      - discriminate. }
    destruct (Statistics.update_product_stats config (now i) id d') as [d'' o].
    cbn [fst snd] in *. subst o.
    destruct (IH (S i) (results ++ [result]) d'' Hkeys' (eq_trans Hevents Hledger))
      as [Hpreserved Hestablished].
    cbn zeta in *. split.
    + intros Hstored. apply Hpreserved, Hstep. left. exact Hstored.
    + intros Hin Hsome. apply elem_of_cons in Hin as [->|Hin].
      * apply Hpreserved, Hstep. right. split; [reflexivity | exact Hsome].
      * apply Hestablished; assumption.
Qed.

Lemma reported_updated (config : Config.PredictionConfig) (d : db)
    (product_ids : list string) (results : list Statistics.StatsResult) :
  Forall2 (Notions.reported config d) product_ids results ->
  (forall product_id,
     product_id ∈ product_ids -> Statistics.qualifying_events product_id d <> []) ->
  Forall2
    (fun product_id result =>
       exists row confidence, result = Statistics.Updated product_id row confidence)
    product_ids results.
Proof.
  induction 1 as [|product_id result ids results Hhead _ IH]; intros Hsome;
    [constructor|].
  constructor.
  - unfold Notions.reported in Hhead. destruct result as [id|id row confidence].
    + destruct Hhead as [_ Hnone]. exfalso. apply (Hsome product_id); [left|].
      exact Hnone.
    + destruct Hhead as [-> _]. eexists _, _. reflexivity.
  - apply IH. intros id Hin. apply Hsome. right. exact Hin.
Qed.

(** The analytics of a placed order: on a database whose foreign
    keys hold, after [record_order] has recorded a cart whose items name
    products of [products], [update_all_product_stats] on the product ids
    of the cart returns, reports statistics for every item (none with
    [total_purchases] 0), and leaves for the product of every item a row
    of statistics whose [total_purchases] is the number of its order and
    depletion events, this order included.  The foreign keys hold after
    it. *)
Theorem order_then_statistics (config : Config.PredictionConfig) (now : Z)
    (now_status now_restock clock : nat -> Z)
    (cart_items : list PurchaseTracker.CartItem) (order_notes : option string)
    (orders : list PurchaseTracker.Order) (d : db) :
  Spec.foreign_keys_hold d ->
  (forall item, item ∈ cart_items -> PurchaseTracker.known d item = true) ->
  let d1 :=
    (PurchaseTracker.record_order now now_status now_restock cart_items order_notes
       orders d).1.2 in
  let product_ids :=
    map (fun item => default ""%string (PurchaseTracker.product_id item)) cart_items in
  let run := Statistics.update_all_product_stats config clock product_ids d1 in
  (exists results,
     run.2 = Returned (Statistics.mk_all (len cart_items) results)
     /\ Forall2
          (fun product_id result =>
             exists row confidence,
               result = Statistics.Updated product_id row confidence)
          product_ids results)
  /\ (forall product_id,
        product_id ∈ product_ids ->
        exists row,
          product_statistics run.1 !! product_id = Some row
          /\ ProductStatistics.total_purchases row
             = len (Statistics.qualifying_events product_id d1)
          /\ 0 < ProductStatistics.total_purchases row)
  /\ Spec.foreign_keys_hold run.1.
Proof.
  intros Hkeys Hknown d1 product_ids run.
  destruct (record_order_frame now now_status now_restock cart_items order_notes
              orders d Hknown) as (Hevents & _ & _ & _ & Hkeys1).
  specialize (Hkeys1 Hkeys). fold d1 in Hevents, Hkeys1.
  assert (forall product_id,
            product_id ∈ product_ids ->
            Statistics.qualifying_events product_id d1 <> []) as Hsome.
  { intros product_id Hin. subst product_ids.
    apply list_elem_of_fmap in Hin as (item & -> & Hin).
    assert (PurchaseTracker.order_event now item
              ∈ Statistics.qualifying_events
                  (default ""%string (PurchaseTracker.product_id item)) d1) as Hevent.
    { apply qualifying_events_elem. split.
      - unfold Statistics.qualifying, PurchaseTracker.order_event. cbn.
        rewrite String.eqb_refl. reflexivity.
      - rewrite Hevents. apply elem_of_app. right.
        apply list_elem_of_fmap. exists item. split; [reflexivity | exact Hin]. }
    intros Hnone. rewrite Hnone in Hevent. apply elem_of_nil in Hevent. contradiction. }
  subst run. unfold Statistics.update_all_product_stats.
  destruct (update_all_from_returns config clock d1 product_ids 0%nat [] d1 Hkeys1
              eq_refl)
    as (results & Hrun & Hreported & Hkeys2 & _).
  split; [|split; [|exact Hkeys2]].
  - exists results. cbn [app] in Hrun. split.
    + rewrite Hrun. unfold len. rewrite <- (Forall2_length _ _ _ Hreported).
      subst product_ids. rewrite length_map. reflexivity.
    + apply (reported_updated config d1); assumption.
  - intros product_id Hin.
    destruct (update_all_from_stored config clock d1 product_id product_ids 0%nat []
                d1 Hkeys1 eq_refl) as [_ Hstored].
    destruct (Hstored Hin (Hsome product_id Hin)) as [at_time Hrow].
    eexists. split; [exact Hrow|]. cbn [Statistics.compute_stats fst
      ProductStatistics.total_purchases]. split; [reflexivity|].
    pose proof (Hsome product_id Hin) as Hevents_some. unfold len.
    destruct (Statistics.qualifying_events product_id d1); [congruence|].
    cbn [length]. lia.
Qed.

End CartToStatistics.

(* ===================================================================== *)
(** * Theorems: categories are valid *)
(* ===================================================================== *)

Section ValidCategories.
Context `{Runtime}.

Lemma detect_category_valid (config : Config.PredictionConfig) (avg_days : option Q)
    (seasonality_score : Q) (total_purchases : Z) :
  Categories.detect_category config avg_days seasonality_score total_purchases
  ∈ Categories.valid_categories.
Proof.
  unfold Categories.detect_category, Categories.valid_categories.
  repeat match goal with
         | |- context [if ?c then _ else _] => destruct c
         | |- context [match ?o with Some _ => _ | None => _ end] => destruct o
         end;
    apply list_elem_of_In; cbn; tauto.
Qed.

Lemma categories_valid_insert (d : db) (product_id : string) (row : Products.row)
    (c : string) :
  Products.category_type row = Some c ->
  c ∈ Categories.valid_categories ->
  Invariants.categories_valid d ->
  Invariants.categories_valid (set_products d (<[product_id := row]> (products d))).
Proof.
  intros Hrow Hvalid Hall. unfold Invariants.categories_valid. cbn.
  apply map_Forall_insert_2; [|exact Hall]. exists c. split; assumption.
Qed.

Lemma categories_valid_products (d d' : db) :
  products d' = products d ->
  Invariants.categories_valid d -> Invariants.categories_valid d'.
Proof. unfold Invariants.categories_valid. intros ->. trivial. Qed.

Lemma ensure_product_exists_valid (now : Z) (current_timestamp : string)
    (product_id : string) (description : option string) (d : db) :
  Invariants.categories_valid d ->
  Invariants.categories_valid
    (PurchaseTracker.ensure_product_exists now current_timestamp product_id
       description d).
Proof.
  intros Hall. unfold PurchaseTracker.ensure_product_exists.
  destruct (products d !! product_id); [exact Hall|].
  apply (categories_valid_insert d product_id _ "uncategorized");
    [reflexivity | | exact Hall].
  apply list_elem_of_In. cbn. tauto.
Qed.

(** Every call that writes [products] keeps its categories valid:
    when every product has one of the categories 'routine', 'regular',
    'treat' and 'uncategorized' before [set_product_category] (whether it
    returns or raises), [auto_categorize_all], [ensure_product_exists],
    [record_cart_add] or [record_order], every product has one of them
    after it. *)
Theorem categories_stay_valid (config : Config.PredictionConfig)
    (now now_product : Z) (now_at : string -> Z) (now_status now_restock : nat -> Z)
    (current_timestamp product_id category : string) (is_override : bool)
    (description : option string) (quantity : Z)
    (cart_items : list PurchaseTracker.CartItem) (order_notes : option string)
    (orders : list PurchaseTracker.Order) (d : db) :
  Invariants.categories_valid d ->
  Invariants.categories_valid
    (Categories.set_product_category now current_timestamp product_id category
       is_override d).1
  /\ Invariants.categories_valid (Categories.auto_categorize_all config now_at d).1
  /\ Invariants.categories_valid
       (PurchaseTracker.ensure_product_exists now current_timestamp product_id
          description d)
  /\ Invariants.categories_valid
       (PurchaseTracker.record_cart_add now_product now current_timestamp product_id
          quantity description d).1
  /\ Invariants.categories_valid
       (PurchaseTracker.record_order now now_status now_restock cart_items
          order_notes orders d).1.2.
Proof.
  intros Hall. split; [|split; [|split; [|split]]].
  - unfold Categories.set_product_category.
    destruct (decide (category ∈ Categories.valid_categories)) as [Hvalid|Hinvalid].
    + rewrite (bool_decide_eq_true_2 _ Hvalid). cbn [negb].
      destruct (products d !! product_id); cbn [fst];
        apply (categories_valid_insert d product_id _ category);
        try reflexivity; assumption.
    + rewrite (bool_decide_eq_false_2 _ Hinvalid). exact Hall.
  - intros k row. rewrite auto_categorize_all_lookup.
    destruct (products d !! k) as [old|] eqn:Hold; [|discriminate].
    cbn. intros [= <-]. destruct (Categories.without_override old).
    + eexists. split; [reflexivity|]. apply detect_category_valid.
    + exact (Hall k old Hold).
  - apply ensure_product_exists_valid, Hall.
  - unfold PurchaseTracker.record_cart_add. cbn [fst].
    eapply categories_valid_products; [|apply ensure_product_exists_valid, Hall].
    reflexivity.
  - unfold PurchaseTracker.record_order.
    destruct (forallb (PurchaseTracker.known d) cart_items); [|exact Hall].
    cbn [fst snd]. unfold PurchaseTracker._restock_pantry_items.
    match goal with
    | |- context [PurchaseTracker._restock_from ?s ?r ?i ?c ?d1] =>
        pose proof (_restock_from_frame s r c i d1) as (Hproducts & _)
    end.
    eapply categories_valid_products; [exact Hproducts | exact Hall].
Qed.

End ValidCategories.

(* ===================================================================== *)
(** * Theorems: the holidays of every year *)
(* ===================================================================== *)

Section HolidayYears.

Lemma shop_by_all_years :
  YearCheck.forall_from YearCheck.shop_by_ok MINYEAR (Z.to_nat MAXYEAR) = true.
Proof. vm_compute. reflexivity. Qed.

Lemma next_year_all_years :
  YearCheck.forall_from YearCheck.next_year_ok MINYEAR (Z.to_nat (MAXYEAR - 1)) = true.
Proof. vm_compute. reflexivity. Qed.

End HolidayYears.

(* ===================================================================== *)
(** * Theorems: upcoming holidays (seasonal.py) *)
(* ===================================================================== *)

Section UpcomingHolidays.

Lemma shop_by_date_of (y : Z) (holiday : string) (patterns : Seasonal.HolidayPattern) :
  MINYEAR <= y <= MAXYEAR ->
  (holiday, patterns) ∈ Seasonal.HOLIDAY_PATTERNS ->
  exists holiday_date shop_by_date,
    Seasonal.get_holiday_date holiday y = Returned (Some holiday_date)
    /\ date_add_days holiday_date (- Seasonal.days_before patterns)
       = Returned shop_by_date
    /\ toordinal shop_by_date
       = toordinal holiday_date - Seasonal.days_before patterns
    /\ year holiday_date = y.
Proof.
  intros Hy Hin.
  pose proof (forall_from_spec _ _ _ shop_by_all_years y) as Hok.
  unfold YearCheck.shop_by_ok in Hok. rewrite forallb_forall in Hok.
  specialize (Hok ltac:(unfold MINYEAR, MAXYEAR in *; lia) (holiday, patterns)
                (proj1 (list_elem_of_In _ _) Hin)).
  cbn [fst snd] in Hok.
  destruct (Seasonal.get_holiday_date holiday y) as [[holiday_date|]|]; try discriminate.
  destruct (date_add_days holiday_date (- Seasonal.days_before patterns))
    as [shop_by_date|] eqn:Hshop; [|discriminate].
  apply andb_prop in Hok as [Hordinal Hyear].
  apply Z.eqb_eq in Hordinal, Hyear. exists holiday_date, shop_by_date.
  repeat split; assumption || reflexivity.
Qed.

(** What an iteration of [get_upcoming_holidays] appends. *)
Lemma upcoming_holiday_value (today : date) (days_ahead : Z) (holiday : string)
    (patterns : Seasonal.HolidayPattern) (y : Z) :
  MINYEAR <= y <= MAXYEAR ->
  (holiday, patterns) ∈ Seasonal.HOLIDAY_PATTERNS ->
  exists holiday_date shop_by_date,
    Seasonal.get_holiday_date holiday y = Returned (Some holiday_date)
    /\ year holiday_date = y
    /\ Seasonal.upcoming_holiday today days_ahead holiday patterns y
       = Returned
           (let days_until_shopping :=
              toordinal holiday_date - Seasonal.days_before patterns
              - toordinal today in
            if (0 <=? days_until_shopping) && (days_until_shopping <=? days_ahead)
            then
              Some
                (Seasonal.mk_upcoming holiday (Seasonal.isoformat_date holiday_date)
                   (Seasonal.isoformat_date shop_by_date) days_until_shopping
                   (toordinal holiday_date - toordinal today)
                   (if days_until_shopping =? 0 then "critical"%string
                    else if days_until_shopping <=? 2 then "high"%string
                         else if days_until_shopping <=? 5 then "medium"%string
                              else "low"%string)
                   (Seasonal.keywords patterns))
            else None).
Proof.
  intros Hy Hin.
  destruct (shop_by_date_of y holiday patterns Hy Hin)
    as (holiday_date & shop_by_date & Hdate & Hshop & Hordinal & Hyear).
  exists holiday_date, shop_by_date. split; [exact Hdate|]. split; [exact Hyear|].
  unfold Seasonal.upcoming_holiday. rewrite Hdate. cbn [bind]. rewrite Hshop.
  cbn [bind]. rewrite Hordinal. cbn zeta.
  destruct (0 <=? _) eqn:Hlow; [|reflexivity]. cbn [andb].
  destruct (_ <=? days_ahead); [|reflexivity].
  apply Z.leb_le in Hlow.
  destruct (Z.eqb_spec (toordinal holiday_date - Seasonal.days_before patterns
                        - toordinal today) 0) as [Hzero|Hpositive].
  - rewrite Hzero. reflexivity.
  - replace (toordinal holiday_date - Seasonal.days_before patterns
             - toordinal today <=? 0) with false
      by (symmetry; apply Z.leb_gt; lia).
    reflexivity.
Qed.

(** The loops of [get_upcoming_holidays] return, with the dicts of their
    iterations. *)
Lemma upcoming_from_elem (today : date) (days_ahead : Z)
    (iterations : list (string * Seasonal.HolidayPattern * Z)) :
  Forall
    (fun i : string * Seasonal.HolidayPattern * Z =>
       (i.1.1, i.1.2) ∈ Seasonal.HOLIDAY_PATTERNS /\ MINYEAR <= i.2 <= MAXYEAR)
    iterations ->
  exists upcoming,
    Seasonal.upcoming_from today days_ahead iterations = Returned upcoming
    /\ forall e,
         e ∈ upcoming
         <-> exists i,
               i ∈ iterations
               /\ Seasonal.upcoming_holiday today days_ahead i.1.1 i.1.2 i.2
                  = Returned (Some e).
Proof.
  induction 1 as [|[[holiday patterns] y] rest [Hin Hy] _ IH].
  - exists []. split; [reflexivity|]. intros e. split.
    + intros He. apply elem_of_nil in He. contradiction.
    + intros (i & Hi & _). apply elem_of_nil in Hi. contradiction.
  - destruct IH as (upcoming & Hrest & Helem).
    cbn [fst snd] in Hin, Hy.
    destruct (upcoming_holiday_value today days_ahead holiday patterns y Hy Hin)
      as (holiday_date & shop_by_date & _ & _ & Hentry).
    cbn [Seasonal.upcoming_from]. rewrite Hentry, Hrest. cbn [bind].
    eexists. split; [reflexivity|]. intros e.
    match goal with
    | |- context [match ?entry with Some _ => _ | None => _ end] =>
        destruct entry as [e'|] eqn:Hvalue
    end.
    + rewrite elem_of_cons, Helem. split.
      * intros [->|(i & Hi & Hreturned)].
        -- exists (holiday, patterns, y). split; [left | exact Hentry].
        -- exists i. split; [right; exact Hi | exact Hreturned].
      * intros (i & Hi & Hreturned). apply elem_of_cons in Hi as [->|Hi].
        -- left. cbn [fst snd] in Hreturned. congruence.
        -- right. exists i. split; assumption.
    + rewrite Helem. split.
      * intros (i & Hi & Hreturned). exists i. split; [right; exact Hi | exact Hreturned].
      * intros (i & Hi & Hreturned). apply elem_of_cons in Hi as [->|Hi].
        -- cbn [fst snd] in Hreturned. congruence.
        -- exists i. split; assumption.
Qed.

Lemma iterations_elem (today : date) (i : string * Seasonal.HolidayPattern * Z) :
  i ∈ flat_map
        (fun hp : string * Seasonal.HolidayPattern =>
           [(hp.1, hp.2, year today); (hp.1, hp.2, year today + 1)])
        Seasonal.HOLIDAY_PATTERNS
  <-> (i.1.1, i.1.2) ∈ Seasonal.HOLIDAY_PATTERNS
      /\ (i.2 = year today \/ i.2 = year today + 1).
Proof.
  rewrite list_elem_of_In, in_flat_map. split.
  - intros ([h p] & Hin & Hi). cbn [fst snd] in Hi.
    destruct Hi as [<- | [<- | []]]; cbn [fst snd];
      (split; [apply list_elem_of_In; exact Hin | auto]).
  - destruct i as [[h p] y]. cbn [fst snd]. intros [Hin Hy].
    exists (h, p). split; [apply list_elem_of_In; exact Hin|].
    cbn [fst snd]. destruct Hy as [-> | ->]; [left | right; left]; reflexivity.
Qed.

(** In every year of the calendar but the last, [get_upcoming_holidays]
    returns: the list has a dict for a holiday of this year or of the next
    exactly when the day to shop for it, [days_before] days before the
    holiday, is today or at most [days_ahead] days ahead.  A dict has the
    dates of the holiday and of the shopping day, the days until both, and
    the urgency of the shopping day: 'critical' today, 'high' in 1 or 2
    days, 'medium' in 3 to 5 and 'low' later.  The list is sorted by the
    days until the shopping day.  In the year 9999 the call raises
    [ValueError]. *)
Theorem upcoming_holidays (today : date) (days_ahead : Z) :
  (MINYEAR <= year today < MAXYEAR ->
   exists upcoming,
     Seasonal.get_upcoming_holidays today days_ahead = Returned upcoming
     /\ Sorted
          (fun a b =>
             Seasonal.days_until_shopping a <= Seasonal.days_until_shopping b)
          upcoming
     /\ (forall e,
           e ∈ upcoming ->
           exists patterns y holiday_date,
             (Seasonal.holiday e, patterns) ∈ Seasonal.HOLIDAY_PATTERNS
             /\ (y = year today \/ y = year today + 1)
             /\ Seasonal.get_holiday_date (Seasonal.holiday e) y
                = Returned (Some holiday_date)
             /\ Seasonal.holiday_date e = Seasonal.isoformat_date holiday_date
             /\ Seasonal.holiday_keywords e = Seasonal.keywords patterns
             /\ Seasonal.days_until_holiday e
                = toordinal holiday_date - toordinal today
             /\ Seasonal.days_until_shopping e
                = Seasonal.days_until_holiday e - Seasonal.days_before patterns
             /\ 0 <= Seasonal.days_until_shopping e <= days_ahead
             /\ Seasonal.urgency e
                = (if Seasonal.days_until_shopping e =? 0 then "critical"%string
                   else if Seasonal.days_until_shopping e <=? 2 then "high"%string
                        else if Seasonal.days_until_shopping e <=? 5
                             then "medium"%string
                             else "low"%string))
     /\ (forall holiday patterns y holiday_date,
           (holiday, patterns) ∈ Seasonal.HOLIDAY_PATTERNS ->
           y = year today \/ y = year today + 1 ->
           Seasonal.get_holiday_date holiday y = Returned (Some holiday_date) ->
           0 <= toordinal holiday_date - Seasonal.days_before patterns
                - toordinal today <= days_ahead ->
           exists e,
             e ∈ upcoming
             /\ Seasonal.holiday e = holiday
             /\ Seasonal.holiday_date e = Seasonal.isoformat_date holiday_date))
  /\ (year today = MAXYEAR ->
      Seasonal.get_upcoming_holidays today days_ahead = Raised ValueError).
Proof.
  split.
  - intros Hyear. unfold Seasonal.get_upcoming_holidays.
    destruct (upcoming_from_elem today days_ahead
                (flat_map
                   (fun hp : string * Seasonal.HolidayPattern =>
                      [(hp.1, hp.2, year today); (hp.1, hp.2, year today + 1)])
                   Seasonal.HOLIDAY_PATTERNS))
      as (upcoming & Hreturned & Helem).
    { apply Forall_forall. intros i Hi. apply iterations_elem in Hi as [Hin Hy].
      split; [exact Hin|]. unfold MINYEAR, MAXYEAR in *. lia. }
    rewrite Hreturned. cbn [bind]. eexists. split; [reflexivity|].
    split; [apply Sorted_merge_sort; intros a b;
            unfold Seasonal.by_days_until_shopping; lia|].
    split.
    + intros e He.
      rewrite (merge_sort_Permutation Seasonal.by_days_until_shopping) in He.
      apply Helem in He as ([[holiday patterns] y] & Hi & Hentry).
      apply iterations_elem in Hi as [Hin Hy]. cbn [fst snd] in *.
      destruct (upcoming_holiday_value today days_ahead holiday patterns y
                  ltac:(unfold MINYEAR, MAXYEAR in *; lia) Hin)
        as (holiday_date & shop_by_date & Hdate & _ & Hvalue).
      rewrite Hvalue in Hentry. cbn zeta in Hentry.
      destruct (_ && _) eqn:Hwindow; [|discriminate].
      injection Hentry as <-.
      cbn [Seasonal.holiday Seasonal.holiday_keywords Seasonal.days_until_shopping
           Seasonal.days_until_holiday Seasonal.urgency Seasonal.holiday_date].
      apply andb_prop in Hwindow as [Hlow Hhigh]. apply Z.leb_le in Hlow, Hhigh.
      exists patterns, y, holiday_date.
      repeat split; try assumption; try reflexivity; lia.
    + intros holiday patterns y holiday_date Hin Hy Hdate Hwindow.
      destruct (upcoming_holiday_value today days_ahead holiday patterns y
                  ltac:(unfold MINYEAR, MAXYEAR in *; lia) Hin)
        as (holiday_date' & shop_by_date & Hdate' & _ & Hvalue).
      rewrite Hdate in Hdate'. injection Hdate' as <-. cbn zeta in Hvalue.
      replace (0 <=? toordinal holiday_date - Seasonal.days_before patterns
                     - toordinal today) with true in Hvalue
        by (symmetry; apply Z.leb_le; lia).
      replace (toordinal holiday_date - Seasonal.days_before patterns
               - toordinal today <=? days_ahead) with true in Hvalue
        by (symmetry; apply Z.leb_le; lia).
      cbn [andb] in Hvalue. eexists. split.
      * rewrite (merge_sort_Permutation Seasonal.by_days_until_shopping).
        apply Helem. exists (holiday, patterns, y). split; [|exact Hvalue].
        apply iterations_elem. split; assumption.
      * split; reflexivity.
  - intros Hlast. unfold Seasonal.get_upcoming_holidays. rewrite Hlast.
    cbn [flat_map Seasonal.HOLIDAY_PATTERNS app fst snd Seasonal.upcoming_from].
    destruct (upcoming_holiday_value today days_ahead "thanksgiving"
                (Seasonal.mk_pattern [10; 11] [45; 46; 47]
                   ["turkey"; "stuffing"; "cranberry"; "pie"; "gravy"]%string 2)
                MAXYEAR ltac:(unfold MINYEAR, MAXYEAR; lia) ltac:(left))
      as (holiday_date & shop_by_date & _ & _ & ->).
    reflexivity.
Qed.

End UpcomingHolidays.

(* ===================================================================== *)
(** * Theorems: a holiday is upcoming once *)
(* ===================================================================== *)

Section UpcomingOnce.

Lemma next_year_gap (y : Z) (holiday : string) (patterns : Seasonal.HolidayPattern)
    (this_year next_year : date) :
  MINYEAR <= y < MAXYEAR ->
  (holiday, patterns) ∈ Seasonal.HOLIDAY_PATTERNS ->
  Seasonal.get_holiday_date holiday y = Returned (Some this_year) ->
  Seasonal.get_holiday_date holiday (y + 1) = Returned (Some next_year) ->
  350 <= toordinal next_year - toordinal this_year.
Proof.
  intros Hy Hin Hthis Hnext.
  pose proof (forall_from_spec _ _ _ next_year_all_years y) as Hok.
  unfold YearCheck.next_year_ok in Hok. rewrite forallb_forall in Hok.
  specialize (Hok ltac:(unfold MINYEAR, MAXYEAR in *; lia) (holiday, patterns)
                (proj1 (list_elem_of_In _ _) Hin)).
  cbn [fst snd] in Hok. rewrite Hthis, Hnext in Hok. apply Z.leb_le, Hok.
Qed.

(** The two iterations of a holiday append one dict at most when the
    window is shorter than 350 days. *)
Lemma upcoming_pair (today : date) (days_ahead : Z) (holiday : string)
    (patterns : Seasonal.HolidayPattern) :
  MINYEAR <= year today < MAXYEAR ->
  days_ahead < 350 ->
  (holiday, patterns) ∈ Seasonal.HOLIDAY_PATTERNS ->
  exists of_holiday,
    (Seasonal.holiday <$> of_holiday = [] \/ Seasonal.holiday <$> of_holiday = [holiday])
    /\ forall rest,
         Seasonal.upcoming_from today days_ahead
           ((holiday, patterns, year today)
              :: (holiday, patterns, year today + 1) :: rest)
         = try! upcoming := Seasonal.upcoming_from today days_ahead rest in
           Returned (of_holiday ++ upcoming).
Proof.
  intros Hyear Hshort Hin.
  destruct (upcoming_holiday_value today days_ahead holiday patterns (year today)
              ltac:(unfold MINYEAR, MAXYEAR in *; lia) Hin)
    as (this_year & shop_this & Hthis & _ & Hvalue_this).
  destruct (upcoming_holiday_value today days_ahead holiday patterns (year today + 1)
              ltac:(unfold MINYEAR, MAXYEAR in *; lia) Hin)
    as (next_year & shop_next & Hnext & _ & Hvalue_next).
  pose proof (next_year_gap (year today) holiday patterns this_year next_year
                Hyear Hin Hthis Hnext) as Hgap.
  cbn zeta in Hvalue_this, Hvalue_next.
  destruct ((0 <=? toordinal this_year - Seasonal.days_before patterns
                   - toordinal today)
            && (toordinal this_year - Seasonal.days_before patterns
                - toordinal today <=? days_ahead)) eqn:Hwindow_this;
    destruct ((0 <=? toordinal next_year - Seasonal.days_before patterns
                     - toordinal today)
              && (toordinal next_year - Seasonal.days_before patterns
                  - toordinal today <=? days_ahead)) eqn:Hwindow_next.
  - exfalso. apply andb_prop in Hwindow_this as [Hlow _].
    apply andb_prop in Hwindow_next as [_ Hhigh].
    apply Z.leb_le in Hlow, Hhigh. lia.
  - eexists [_]. split; cycle 1.
    + intros rest.
      cbn [Seasonal.upcoming_from]. rewrite Hvalue_this, Hvalue_next. cbn [bind].
      destruct (Seasonal.upcoming_from today days_ahead rest); reflexivity.
    + right. reflexivity.
  - eexists [_]. split; cycle 1.
    + intros rest.
      cbn [Seasonal.upcoming_from]. rewrite Hvalue_this, Hvalue_next. cbn [bind].
      destruct (Seasonal.upcoming_from today days_ahead rest); reflexivity.
    + right. reflexivity.
  - exists []. split; [left; reflexivity|]. intros rest.
    cbn [Seasonal.upcoming_from]. rewrite Hvalue_this, Hvalue_next. cbn [bind].
    destruct (Seasonal.upcoming_from today days_ahead rest); reflexivity.
Qed.

(** With a window of less than 350 days, [get_upcoming_holidays]
    lists no holiday twice, in any year of the calendar but the last: two
    Easters, and two holidays of one name in general, are at least 350
    days apart. *)
Theorem upcoming_holidays_once (today : date) (days_ahead : Z)
    (upcoming : list Seasonal.UpcomingHoliday) :
  MINYEAR <= year today < MAXYEAR ->
  days_ahead < 350 ->
  Seasonal.get_upcoming_holidays today days_ahead = Returned upcoming ->
  NoDup (Seasonal.holiday <$> upcoming).
Proof.
  intros Hyear Hshort. unfold Seasonal.get_upcoming_holidays.
  cbn [flat_map Seasonal.HOLIDAY_PATTERNS app fst snd].
  repeat match goal with
         | |- context [Seasonal.upcoming_from today days_ahead
                         ((?h, ?p, year today) :: _)] =>
             let l := fresh "of_holiday" in
             let Hl := fresh "Hholiday" in
             let Heq := fresh "Hloop" in
             destruct (upcoming_pair today days_ahead h p Hyear Hshort
                         ltac:(apply list_elem_of_In; cbn; tauto))
               as (l & Hl & Heq);
             rewrite Heq; clear Heq
         end.
  cbn [Seasonal.upcoming_from bind]. intros [= <-].
  rewrite (merge_sort_Permutation Seasonal.by_days_until_shopping).
  rewrite !fmap_app.
  repeat match goal with
         | Hl : _ <$> ?l = [] \/ _ <$> ?l = [_] |- _ => destruct Hl as [-> | ->]
         end;
    cbn [fmap list_fmap app];
    apply (bool_decide_unpack _); vm_compute; reflexivity.
Qed.

End UpcomingOnce.

(* ===================================================================== *)
(** * The theorems on sample data *)
(* ===================================================================== *)

Section PantryExamples.
#[local] Existing Instance Reference.runtime.

(** Milk, tracked at 80%, is added again at 10%: the call reports 10 and
    the stored level stays 80 ([add_to_pantry_tracked]). *)
Lemma milk_added_again :
  exists result row,
    Pantry.add_to_pantry (datetime_new 2024 3 10 9 0 0 0) "milk" None 10 30 false
      Reference.milk_db
    = (set_pantry_items Reference.milk_db
         (<["milk"%string := row]> (pantry_items Reference.milk_db)),
       Returned result)
    /\ Pantry.add_level_percent result = 10
    /\ PantryItems.level_percent row = 80.
Proof.
  destruct (add_to_pantry_tracked (datetime_new 2024 3 10 9 0 0 0) "milk" None 10 30
              false Reference.milk_db Reference.item_at_80 eq_refl)
    as (result & row & Hrun & Hreported & Hlevel & _).
  exists result, row. repeat split; assumption.
Defined.

(** Milk, a product that is not tracked in [ten_day_db], is added and
    removed ([add_then_remove]). *)
Lemma milk_added_and_removed :
  Pantry.remove_from_pantry "milk"
    (Pantry.add_to_pantry (datetime_new 2024 3 10 9 0 0 0) "milk" None 100 20 true
       Reference.ten_day_db).1
  = (Reference.ten_day_db, Pantry.Removed "milk").
Proof.
  refine (proj2 (proj2 (proj2 (add_then_remove (datetime_new 2024 3 10 9 0 0 0) "milk"
                                 None 100 20 true Reference.ten_day_db eq_refl) _))).
  eexists. reflexivity.
Defined.

(** Milk in [milk_db], at 80% and losing 7 a day since 2024-03-05 09:00,
    read on 2024-03-13 at 09:00: 24%, not low at the threshold 20, and
    low at the threshold 30 of the call ([low_inventory_items]). *)
Lemma milk_is_low_at_30 :
  let now := datetime_new 2024 3 13 9 0 0 0 in
  let st := Pantry.pantry_status true now "milk" Reference.item_at_80 in
  Pantry.level_percent st = 24
  /\ st ∈ Pantry.get_low_inventory_items (Some 30) now Reference.milk_db
  /\ st ∉ Pantry.get_low_inventory_items None now Reference.milk_db.
Proof.
  intros now st.
  pose proof (low_inventory_items (Some 30) now "milk" Reference.milk_db
                Reference.item_at_80 eq_refl) as (Hcall & _).
  pose proof (low_inventory_items None now "milk" Reference.milk_db
                Reference.item_at_80 eq_refl) as (Hitem & _).
  cbn zeta in *.
  assert (Pantry.level_percent st = 24) as Hlevel by (vm_compute; reflexivity).
  split; [exact Hlevel|]. split.
  - apply Hcall. fold st. rewrite Hlevel. cbn. lia.
  - intros Hlisted. apply Hitem in Hlisted. fold st in Hlisted.
    rewrite Hlevel in Hlisted. cbn in Hlisted. lia.
Defined.

(** The clock 2024-03-13 09:00 is read back from its [isoformat], and the
    depletion of [milk_db] is stored at this time: the read of milk is 24
    before and after ([apply_daily_depletion_reads]). *)
Lemma milk_depletion_stored :
  let now := datetime_new 2024 3 13 9 0 0 0 in
  let run := Pantry.apply_daily_depletion now Reference.milk_db in
  Pantry.level_percent <$> Pantry.get_pantry_item now "milk" run.1
  = Pantry.level_percent <$> Pantry.get_pantry_item now "milk" Reference.milk_db
  /\ Pantry.apply_daily_depletion now run.1
     = (run.1, Pantry.mk_summary true 0 (isoformat now)).
Proof.
  intros now run.
  assert (fromisoformat (isoformat now) = Some now) as Hclock
    by (vm_compute; reflexivity).
  destruct (apply_daily_depletion_reads now Reference.milk_db Hclock)
    as [Hreads Hagain].
  split; [apply Hreads | exact Hagain].
Defined.

Lemma milk_db_levels : Invariants.levels_in_range Reference.milk_db.
Proof.
  unfold Invariants.levels_in_range, Reference.milk_db. cbn [pantry_items].
  apply map_Forall_insert_2; [cbn; lia | apply map_Forall_empty].
Qed.

(** The level of milk in [milk_db] is set to 300: the stored levels stay
    within 0..100 ([pantry_levels_in_range]). *)
Lemma milk_db_levels_after_update :
  Invariants.levels_in_range
    (Pantry.update_pantry_level Config.default (datetime_new 2024 3 10 9 0 0 0)
       (datetime_new 2024 3 10 9 0 0 0) "milk" 300 Reference.milk_db).1.
Proof.
  exact (proj1 (proj2 (pantry_levels_in_range Config.default
                         (datetime_new 2024 3 10 9 0 0 0)
                         (datetime_new 2024 3 10 9 0 0 0) "milk" None 300 20 true
                         Reference.milk_db milk_db_levels))).
Defined.

End PantryExamples.

Section StatisticsExamples.
#[local] Existing Instance Reference.runtime.

(** The statistics of milk and of eggs in [milk_db], updated in both
    orders ([update_product_stats_commute]). *)
Lemma milk_and_eggs_commute :
  let now := datetime_new 2024 3 10 9 0 0 0 in
  (Statistics.update_product_stats Config.default now "eggs"
     (Statistics.update_product_stats Config.default now "milk" Reference.milk_db).1).1
  = (Statistics.update_product_stats Config.default now "milk"
       (Statistics.update_product_stats Config.default now "eggs" Reference.milk_db).1).1.
Proof.
  intros now.
  refine (proj1 (update_product_stats_commute Config.default now now "milk" "eggs"
                   Reference.milk_db _)).
  discriminate.
Defined.

(** The statistics of milk, of eggs, which has no event, and of milk again
    in [milk_db]: three are counted ([update_all_product_stats_counts]). *)
Lemma three_ids_are_counted :
  exists results,
    (Statistics.update_all_product_stats Config.default
       (fun _ => datetime_new 2024 3 10 9 0 0 0) ["milk"; "eggs"; "milk"]%string
       Reference.milk_db).2
    = Returned (Statistics.mk_all 3 results).
Proof.
  destruct (update_all_product_stats_counts Config.default
              (fun _ => datetime_new 2024 3 10 9 0 0 0) ["milk"; "eggs"; "milk"]%string
              Reference.milk_db milk_db_foreign_keys) as (results & Hrun & _).
  exists results. exact Hrun.
Defined.

(** The statistics of milk in [weekly_orders_db] are read as they were
    returned: 3 purchases, 7 days apart ([updated_statistics_are_read]). *)
Lemma weekly_statistics_are_read :
  let now := datetime_new 2024 1 20 0 0 0 0 in
  let run :=
    Statistics.update_product_stats Config.default now "milk"
      Reference.weekly_orders_db in
  exists stats,
    Statistics.get_product_statistics "milk" run.1 = Some stats
    /\ Statistics.total_purchases stats = 3
    /\ Statistics.last_purchase_date stats = Some "2024-01-15"%string.
Proof.
  intros now run.
  destruct (Statistics.compute_stats Config.default now
              (Statistics.qualifying_events "milk" Reference.weekly_orders_db))
    as [row confidence] eqn:Hstats.
  assert (run = (set_product_statistics Reference.weekly_orders_db
                   (<["milk"%string := row]>
                      (product_statistics Reference.weekly_orders_db)),
                 Returned (Statistics.Updated "milk" row confidence))) as Hrun.
  { subst run. unfold Statistics.update_product_stats. rewrite Hstats.
    vm_compute. reflexivity. }
  destruct (updated_statistics_are_read Config.default now now "milk"
              Reference.weekly_orders_db _ row confidence Hrun)
    as (stats & Hread & Htotal & _ & _ & Hlast & _).
  exists stats. rewrite Hrun. split; [exact Hread|].
  rewrite Htotal, Hlast.
  replace row
    with (Statistics.compute_stats Config.default now
            (Statistics.qualifying_events "milk" Reference.weekly_orders_db)).1
    by (rewrite Hstats; reflexivity).
  split; vm_compute; reflexivity.
Defined.

End StatisticsExamples.

Section PredictionExamples.
#[local] Existing Instance Reference.runtime.

(** The products of [two_products], bought every 7 days and last on
    2024-01-29, seen on 2024-03-01: [get_overdue_items] returns, and a
    prediction of its list is 25 days overdue, and critical
    ([overdue_items_are_critical]). *)
Lemma milk_is_overdue :
  let now := fun _ : string => datetime_new 2024 3 1 0 0 0 0 in
  exists items pred,
    Predictions.get_overdue_items now None Reference.two_products = Returned items
    /\ pred ∈ items
    /\ Predictions.days_until pred = Some (-25)
    /\ (Predictions.urgency pred == 1.0)%Q
    /\ Predictions.urgency_label pred = "critical"%string.
Proof.
  intros now.
  assert (exists items,
            Predictions.get_overdue_items now None Reference.two_products
            = Returned items
            /\ exists pred,
                 pred ∈ items /\ Predictions.days_until pred = Some (-25))
    as (items & Hrun & pred & Hin & Hdays).
  { vm_compute. eexists. split; [reflexivity|]. eexists.
    split; [constructor | reflexivity]. }
  exists items, pred. split; [exact Hrun|]. split; [exact Hin|].
  split; [exact Hdays|].
  exact (proj2 (overdue_items_are_critical now None Reference.two_products items
                  pred Hrun Hin)).
Defined.

End PredictionExamples.

Section CategoryExamples.
#[local] Existing Instance Reference.runtime.

(** The two products of [two_products] are 'uncategorized'
    ([category_summary_counts]). *)
Lemma two_uncategorized_products :
  Categories.get_category_summary Reference.two_products !! "uncategorized"%string
  = Some 2.
Proof.
  refine (category_summary_counts Reference.two_products "uncategorized" _).
  right. split; vm_compute; reflexivity.
Defined.

Lemma two_products_valid : Invariants.categories_valid Reference.two_products.
Proof.
  unfold Invariants.categories_valid, Reference.two_products. cbn [products].
  repeat (apply map_Forall_insert_2;
          [exists "uncategorized"%string; split;
           [reflexivity | apply list_elem_of_In; cbn; tauto]|]).
  apply map_Forall_empty.
Qed.

(** The products of [two_products] are categorized from their statistics:
    their categories are valid ([categories_stay_valid]). *)
Lemma two_products_stay_valid :
  Invariants.categories_valid
    (Categories.auto_categorize_all Config.default
       (fun _ => datetime_new 2024 3 10 9 0 0 0) Reference.two_products).1.
Proof.
  exact (proj1 (proj2 (categories_stay_valid Config.default
                         (datetime_new 2024 3 10 9 0 0 0)
                         (datetime_new 2024 3 10 9 0 0 0)
                         (fun _ => datetime_new 2024 3 10 9 0 0 0)
                         (fun _ => datetime_new 2024 3 10 9 0 0 0)
                         (fun _ => datetime_new 2024 3 10 9 0 0 0)
                         "2024-03-10 09:00:00" "milk" "routine" true None 1 [] None []
                         Reference.two_products two_products_valid))).
Defined.

End CategoryExamples.

Section PurchaseExamples.
#[local] Existing Instance Reference.runtime.

(** An order of two units of milk, which is tracked at 80% in [milk_db]:
    milk is at 100% after it ([record_order_restocks]). *)
Lemma ordered_milk_is_restocked :
  let now := datetime_new 2024 3 10 9 0 0 0 in
  let cart := [PurchaseTracker.mk_item (Some "milk"%string) (Some 2) None] in
  exists row,
    pantry_items
      (PurchaseTracker.record_order now (fun _ => now) (fun _ => now) cart None []
         Reference.milk_db).1.2
    !! "milk"%string = Some row
    /\ PantryItems.level_percent row = 100.
Proof.
  intros now cart.
  assert (forall item, item ∈ cart -> PurchaseTracker.known Reference.milk_db item = true)
    as Hknown.
  { intros item Hin. apply list_elem_of_singleton in Hin as ->. vm_compute. reflexivity. }
  destruct (proj1 (record_order_restocks now (fun _ => now) (fun _ => now) cart None []
                     Reference.milk_db "milk" Hknown)
              Reference.item_at_80 eq_refl) as [Hrestocked _].
  destruct Hrestocked as (row & j & Hrow & Hlevel & _).
  - eexists. split; [left | reflexivity].
  - discriminate.
  - exists row. split; assumption.
Defined.

(** The same order, and the statistics of its products: milk has 4
    purchases ([order_then_statistics]). *)
Lemma ordered_milk_has_statistics :
  let now := datetime_new 2024 3 10 9 0 0 0 in
  let cart := [PurchaseTracker.mk_item (Some "milk"%string) (Some 2) None] in
  let d1 :=
    (PurchaseTracker.record_order now (fun _ => now) (fun _ => now) cart None []
       Reference.milk_db).1.2 in
  exists row,
    product_statistics
      (Statistics.update_all_product_stats Config.default (fun _ => now)
         ["milk"%string] d1).1
    !! "milk"%string = Some row
    /\ ProductStatistics.total_purchases row = 4.
Proof.
  intros now cart d1.
  assert (forall item, item ∈ cart -> PurchaseTracker.known Reference.milk_db item = true)
    as Hknown.
  { intros item Hin. apply list_elem_of_singleton in Hin as ->. vm_compute. reflexivity. }
  destruct (order_then_statistics Config.default now (fun _ => now) (fun _ => now)
              (fun _ => now) cart None [] Reference.milk_db milk_db_foreign_keys
              Hknown) as (_ & Hstored & _).
  cbn zeta in Hstored.
  destruct (Hstored "milk"%string ltac:(left)) as (row & Hrow & Htotal & _).
  exists row. split; [exact Hrow|]. rewrite Htotal. vm_compute. reflexivity.
Defined.

End PurchaseExamples.

Section HolidayExamples.

(** On 2024-11-20, with a window of 40 days, Thanksgiving and Christmas
    are upcoming, each once ([upcoming_holidays_once]). *)
Lemma holidays_of_late_2024 :
  exists upcoming,
    Seasonal.get_upcoming_holidays (mk_date 2024 11 20) 40 = Returned upcoming
    /\ Seasonal.holiday <$> upcoming = ["thanksgiving"; "christmas"]%string
    /\ NoDup (Seasonal.holiday <$> upcoming).
Proof.
  eexists. split; [vm_compute; reflexivity|]. split; [reflexivity|].
  refine (upcoming_holidays_once (mk_date 2024 11 20) 40 _ _ _ _).
  - vm_compute. split; discriminate || reflexivity.
  - lia.
  - vm_compute. reflexivity.
Defined.

End HolidayExamples.

(* ===================================================================== *)
(** * Theorems: trend analysis *)
(* ===================================================================== *)

Section Hundredths.

Lemma hundredths_value (x : Q) :
  (round_ndigits x 2 * 100 == float (round (x * 100)))%Q.
Proof.
  unfold round_ndigits. change (float (10 ^ Z.of_nat 2)) with 100%Q. field.
Qed.

Lemma hundredths_ge (x : Q) (k : Z) :
  (float k <= x * 100)%Q -> (float k <= round_ndigits x 2 * 100)%Q.
Proof.
  intros Hx. rewrite hundredths_value, <- Zle_Qle. apply round_ge, Hx.
Qed.

Lemma hundredths_le (x : Q) (k : Z) :
  (x * 100 <= float k)%Q -> (round_ndigits x 2 * 100 <= float k)%Q.
Proof.
  intros Hx. rewrite hundredths_value, <- Zle_Qle. apply round_le, Hx.
Qed.

Lemma hundredths_monotone (x y : Q) :
  (x <= y)%Q -> (round_ndigits x 2 <= round_ndigits y 2)%Q.
Proof.
  intros Hxy. pose proof (hundredths_value x) as Hx.
  pose proof (hundredths_value y) as Hy.
  assert (round (x * 100) <= round (y * 100)) as Hround
    by (apply round_monotone; lra).
  rewrite Zle_Qle in Hround.
  set (r := float (round (x * 100))) in *.
  set (s := float (round (y * 100))) in *. clearbody r s. lra.
Qed.

(** A number above 0.165 rounds to 0.17 at least. *)
Lemma hundredths_above (x : Q) : (0.165 < x)%Q -> (0.17 <= round_ndigits x 2)%Q.
Proof.
  intros Hx. pose proof (round_above (x * 100)) as Habove.
  pose proof (hundredths_value x) as Hvalue.
  assert (16 < round (x * 100)) as Hround.
  { rewrite Zlt_Qlt. set (r := float (round (x * 100))) in *. clearbody r.
    change (float 16) with 16%Q. lra. }
  assert (17 <= round (x * 100)) as Hround' by lia.
  rewrite Zle_Qle in Hround'. change (float 17) with 17%Q in Hround'.
  set (r := float (round (x * 100))) in *. clearbody r. lra.
Qed.

Lemma unit_hundredths (x : Q) :
  (0 <= x <= 1)%Q -> (0 <= round_ndigits x 2 <= 1)%Q.
Proof.
  intros [H0 H1].
  pose proof (hundredths_ge x 0) as Hge. pose proof (hundredths_le x 100) as Hle.
  change (float 0) with 0%Q in Hge. change (float 100) with 100%Q in Hle.
  split; [assert (0 <= round_ndigits x 2 * 100)%Q by (apply Hge; lra)
         |assert (round_ndigits x 2 * 100 <= 100)%Q by (apply Hle; lra)]; lra.
Qed.

End Hundredths.

Section TrendDetection.

Lemma slice_from_last {A} (older recent : list A) :
  recent <> [] ->
  TrendAnalysis.slice_from (- len recent) (older ++ recent) = recent.
Proof.
  intros Hne. unfold TrendAnalysis.slice_from, len.
  destruct recent as [|x recent]; [congruence|].
  set (l := x :: recent).
  assert (0 < Z.of_nat (length l)) as Hpos by (cbn [l length]; lia).
  destruct (Z.ltb_spec (- Z.of_nat (length l)) 0) as [_|Hge]; [|lia].
  rewrite length_app.
  replace (Z.to_nat (Z.max 0 (Z.of_nat (length older + length l)
                              + - Z.of_nat (length l))))
    with (length older) by lia.
  apply drop_app_length.
Qed.

Lemma slice_from_window {A} (window : Z) (xs : list A) :
  0 < window <= len xs -> len (TrendAnalysis.slice_from (- window) xs) = window.
Proof.
  unfold TrendAnalysis.slice_from, len. intros Hwindow.
  destruct (Z.ltb_spec (- window) 0) as [_|Hge]; [|lia].
  rewrite length_drop. lia.
Qed.

Lemma slice_from_all {A} (xs : list A) :
  TrendAnalysis.slice_from (- len xs) xs = xs.
Proof.
  destruct xs as [|x xs]; [reflexivity|].
  apply (slice_from_last [] (x :: xs)). congruence.
Qed.

Lemma slice_from_zero {A} (xs : list A) :
  TrendAnalysis.slice_from (- 0) xs = xs.
Proof.
  unfold TrendAnalysis.slice_from, len. cbn [Z.opp Z.ltb Z.compare].
  rewrite Z.min_r by lia. reflexivity.
Qed.

(** The direction and the strength that [detect_trend] makes of a
    normalized slope. *)
Lemma trend_of_slope (slope : Q) :
  let result :=
    if Qltb 0.05 slope
    then ("decreasing"%string, Qmin 1.0 (Qabs slope / 0.3))
    else if Qltb slope (- 0.05)
         then ("increasing"%string, Qmin 1.0 (Qabs slope / 0.3))
         else ("stable"%string, 0.0%Q) in
  let direction := result.1 in
  let strength := round_ndigits result.2 2 in
  (direction = "increasing" \/ direction = "decreasing"
   \/ direction = "stable")%string
  /\ (0 <= strength <= 1)%Q
  /\ (direction = "stable"%string <-> (strength == 0)%Q)
  /\ (direction <> "stable"%string -> (0.17 <= strength)%Q).
Proof.
  assert (forall direction : string, direction <> "stable"%string ->
          (0.05 < Qabs slope)%Q ->
          let strength := round_ndigits (Qmin 1.0 (Qabs slope / 0.3)) 2 in
          (0 <= strength <= 1)%Q
          /\ (direction = "stable"%string <-> (strength == 0)%Q)
          /\ (direction <> "stable"%string -> (0.17 <= strength)%Q)) as Htrend.
  { intros direction Hdirection Hslope strength.
    assert (Qabs slope / 0.3 * 0.3 == Qabs slope)%Q as Hq by field.
    set (q := (Qabs slope / 0.3)%Q) in *.
    assert (0.165 < Qmin 1.0 q)%Q as Hlow by (apply Q.min_glb_lt; lra).
    pose proof (Q.le_min_l 1.0 q) as Hhigh.
    pose proof (hundredths_above _ Hlow) as Hstrength.
    pose proof (unit_hundredths (Qmin 1.0 q)) as Hunit.
    fold strength in Hstrength, Hunit.
    split; [apply Hunit; lra|]. split; [|intros _; exact Hstrength].
    split; [intros Hstable; contradiction|intros Hzero; lra]. }
  destruct (Qltb 0.05 slope) eqn:Hup.
  - apply Qltb_lt in Hup. cbn zeta. cbn [fst snd].
    split; [right; left; reflexivity|].
    apply Htrend; [discriminate|]. rewrite Qabs_pos; lra.
  - apply Qltb_ge in Hup. destruct (Qltb slope (- 0.05)) eqn:Hdown.
    + apply Qltb_lt in Hdown. cbn zeta. cbn [fst snd].
      split; [left; reflexivity|].
      apply Htrend; [discriminate|]. rewrite Qabs_neg; lra.
    + cbn zeta. cbn [fst snd]. split; [right; right; reflexivity|].
      assert (round_ndigits 0.0 2 == 0)%Q as Hzero by reflexivity.
      split; [lra|]. split; [split; [intros _; exact Hzero|reflexivity]|].
      intros Hstable. contradiction.
Qed.

(** The direction and the strength of any result of [detect_trend]. *)
Lemma trend_of_detect_trend (intervals : list Q) (window : Z) :
  let result := TrendAnalysis.detect_trend intervals window in
  ((result.1 = "increasing" \/ result.1 = "decreasing"
    \/ result.1 = "stable")%string
   /\ (result.1 = "stable"%string <-> (result.2 == 0)%Q)
   /\ (result.1 <> "stable"%string -> (0.17 <= result.2)%Q)
   /\ (len intervals < 3 \/ 0 < window < 3 -> result.1 = "stable"%string))
  /\ (0 <= result.2 <= 1)%Q.
Proof.
  assert ((("stable"%string, 0.0%Q).1 = "increasing"
           \/ ("stable"%string, 0.0%Q).1 = "decreasing"
           \/ ("stable"%string, 0.0%Q).1 = "stable")%string
          /\ (0 <= ("stable"%string, 0.0%Q).2 <= 1)%Q
          /\ (("stable"%string, 0.0%Q).1 = "stable"%string
              <-> (("stable"%string, 0.0%Q).2 == 0)%Q)
          /\ (("stable"%string, 0.0%Q).1 <> "stable"%string
              -> (0.17 <= ("stable"%string, 0.0%Q).2)%Q)) as Hstable.
  { cbn [fst snd]. split; [right; right; reflexivity|].
    split; [lra|]. split; [split; reflexivity|]. intros Hne. contradiction. }
  assert (forall result : string * Q,
            (result.1 = "increasing" \/ result.1 = "decreasing"
             \/ result.1 = "stable")%string
            /\ (0 <= result.2 <= 1)%Q
            /\ (result.1 = "stable"%string <-> (result.2 == 0)%Q)
            /\ (result.1 <> "stable"%string -> (0.17 <= result.2)%Q) ->
            (len intervals < 3 \/ 0 < window < 3 -> result.1 = "stable"%string) ->
            ((result.1 = "increasing" \/ result.1 = "decreasing"
              \/ result.1 = "stable")%string
             /\ (result.1 = "stable"%string <-> (result.2 == 0)%Q)
             /\ (result.1 <> "stable"%string -> (0.17 <= result.2)%Q)
             /\ (len intervals < 3 \/ 0 < window < 3
                 -> result.1 = "stable"%string))
            /\ (0 <= result.2 <= 1)%Q) as Hshape.
  { intros result (Hdir & Hunit & Hzero & Hlow) Hwindow.
    split; [|exact Hunit]. split; [exact Hdir|]. split; [exact Hzero|].
    split; [exact Hlow|exact Hwindow]. }
  cbv zeta. unfold TrendAnalysis.detect_trend.
  destruct (Z.ltb_spec (len intervals) 3) as [Hfew|Hmany];
    [apply Hshape; [exact Hstable|reflexivity]|].
  set (recent := if window <=? len intervals
                 then TrendAnalysis.slice_from (- window) intervals
                 else intervals).
  cbv zeta.
  destruct (Z.ltb_spec (len recent) 3) as [Hshort|Hlong];
    [apply Hshape; [exact Hstable|reflexivity]|].
  destruct (_ =? 0); [apply Hshape; [exact Hstable|reflexivity]|].
  apply Hshape; [apply trend_of_slope|].
  intros [Hfew|Hwindow]; [lia|]. exfalso.
  subst recent. destruct (Z.leb_spec window (len intervals)) as [_|Hgt]; [|lia].
  rewrite slice_from_window in Hlong by lia. lia.
Qed.

(** [detect_trend] returns one of the directions 'increasing',
    'decreasing' and 'stable' with a strength within 0..1, which is 0 for
    'stable', and the only case of it, and at least 0.17 for the two others.
    The trend is 'stable' for fewer than three intervals, whatever the
    window, and for a window of 1 or 2.  With a window that is at least 1
    the result is the one of the last [window] intervals alone; a window of
    0 is no window: every interval then counts. *)
Theorem detect_trend_result (intervals : list Q) (window : Z) :
  let direction := (TrendAnalysis.detect_trend intervals window).1 in
  let strength := (TrendAnalysis.detect_trend intervals window).2 in
  (direction = "increasing" \/ direction = "decreasing"
   \/ direction = "stable")%string
  /\ (0 <= strength <= 1)%Q
  /\ (direction = "stable"%string <-> (strength == 0)%Q)
  /\ (direction <> "stable"%string -> (0.17 <= strength)%Q)
  /\ (len intervals < 3 \/ 0 < window < 3 -> direction = "stable"%string)
  /\ (forall older recent : list Q,
        intervals = older ++ recent -> window = len recent -> 0 < window ->
        TrendAnalysis.detect_trend intervals window
        = TrendAnalysis.detect_trend recent window)
  /\ (window = 0 ->
      TrendAnalysis.detect_trend intervals window
      = TrendAnalysis.detect_trend intervals (len intervals)).
Proof.
  cbv zeta.
  destruct (trend_of_detect_trend intervals window)
    as [(Hdir & Hzero & Hlow & Hstable) Hunit].
  split; [exact Hdir|]. split; [exact Hunit|]. split; [exact Hzero|].
  split; [exact Hlow|]. split; [exact Hstable|]. split.
  - intros older recent -> -> Hwindow.
    assert (recent <> []) as Hne
      by (intros ->; unfold len in Hwindow; cbn in Hwindow; lia).
    unfold TrendAnalysis.detect_trend.
    assert (len recent <= len (older ++ recent)) as Hle
      by (unfold len; rewrite length_app; lia).
    destruct (Z.leb_spec (len recent) (len (older ++ recent))) as [_|Hgt]; [|lia].
    rewrite Z.leb_refl, slice_from_last, slice_from_all by exact Hne.
    destruct (Z.ltb_spec (len (older ++ recent)) 3) as [Hfew|_];
      destruct (Z.ltb_spec (len recent) 3) as [Hshort|Hlong];
      try reflexivity; lia.
  - intros ->. unfold TrendAnalysis.detect_trend.
    rewrite Z.leb_refl, slice_from_all, slice_from_zero.
    destruct (Z.leb_spec 0 (len intervals)) as [_|Hneg]; [|unfold len in Hneg; lia].
    reflexivity.
Qed.

End TrendDetection.

Section TrendAdjustment.

(** The adjustment of a prediction, for any direction and a strength
    within 0..1. *)
Lemma predict_with_trend_adjustment_range (base factor strength : Q)
    (direction : string) :
  (0 <= base)%Q -> (0 <= factor)%Q -> (0 <= strength <= 1)%Q ->
  let adjusted :=
    TrendAnalysis.predict_with_trend_adjustment base direction strength factor in
  (base * (1 - factor) <= adjusted <= base * (1 + factor))%Q
  /\ (direction = "increasing"%string -> (adjusted <= base)%Q)
  /\ (direction <> "increasing"%string -> (base <= adjusted)%Q)
  /\ (direction = "stable"%string \/ (strength < 0.2)%Q -> adjusted = base)
  /\ ((0.2 <= strength)%Q ->
      (direction = "increasing"%string ->
       (adjusted == base - base * factor * strength)%Q)
      /\ (direction <> "increasing"%string -> direction <> "stable"%string ->
          (adjusted == base + base * factor * strength)%Q)).
Proof.
  intros Hbase Hfactor [Hlow Hhigh] adjusted. subst adjusted.
  unfold TrendAnalysis.predict_with_trend_adjustment.
  assert (0 <= base * factor)%Q as Hproduct by (apply Qmult_le_0_compat; assumption).
  assert (0 <= base * factor * strength)%Q as Hmin
    by (apply Qmult_le_0_compat; assumption).
  assert (base * factor * strength <= base * factor)%Q as Hmax.
  { pose proof (Qmult_le_compat_r strength 1 (base * factor) Hhigh Hproduct)
      as Hle.
    rewrite Qmult_1_l in Hle. rewrite (Qmult_comm (base * factor) strength).
    exact Hle. }
  set (max_adjustment := (base * factor * strength)%Q) in *.
  assert (base * (1 - factor) == base - base * factor)%Q as Hdown by ring.
  assert (base * (1 + factor) == base + base * factor)%Q as Hup by ring.
  set (product := (base * factor)%Q) in *.
  destruct (String.eqb_spec direction "stable") as [->|Hstable].
  - cbn [orb String.eqb]. split; [lra|]. split; [discriminate|].
    split; [lra|]. split; [reflexivity|]. intros _. split; [discriminate|].
    intros _ Hne. contradiction.
  - cbn [orb]. destruct (Qltb strength 0.2) eqn:Hweak.
    + apply Qltb_lt in Hweak. split; [lra|]. split; [lra|]. split; [lra|].
      split; [reflexivity|]. intros Hstrong. lra.
    + apply Qltb_ge in Hweak.
      destruct (String.eqb_spec direction "increasing") as [->|Hother].
      * split; [lra|]. split; [lra|]. split; [intros Hne; contradiction|].
        split; [intros [Heq|Hlt]; [discriminate|lra]|].
        intros _. split; [reflexivity|]. intros Hne. contradiction.
      * split; [lra|]. split; [intros Heq; contradiction|]. split; [lra|].
        split; [intros [Heq|Hlt]; [contradiction|lra]|].
        intros _. split; [intros Heq; contradiction|reflexivity].
Qed.

(** A prediction that is adjusted by the trend that [detect_trend] finds
    stays within the adjustment factor of the base prediction, for a base
    and a factor that are not negative: it is the base prediction for a
    'stable' trend and for a strength under 0.2, earlier by the share
    [adjustment_factor * strength] for 'increasing' and later by it for
    'decreasing'. *)
Theorem trend_adjusted_prediction (base factor : Q) (intervals : list Q)
    (window : Z) :
  (0 <= base)%Q -> (0 <= factor)%Q ->
  let trend := TrendAnalysis.detect_trend intervals window in
  let adjusted :=
    TrendAnalysis.predict_with_trend_adjustment base trend.1 trend.2 factor in
  (base * (1 - factor) <= adjusted <= base * (1 + factor))%Q
  /\ (trend.1 = "stable"%string \/ (trend.2 < 0.2)%Q -> adjusted = base)
  /\ ((0.2 <= trend.2)%Q ->
      (trend.1 = "increasing"%string ->
       (adjusted == base - base * factor * trend.2)%Q /\ (adjusted <= base)%Q)
      /\ (trend.1 = "decreasing"%string ->
          (adjusted == base + base * factor * trend.2)%Q /\ (base <= adjusted)%Q)).
Proof.
  intros Hbase Hfactor trend adjusted.
  destruct (trend_of_detect_trend intervals window) as [_ Hunit].
  fold trend in Hunit.
  destruct (predict_with_trend_adjustment_range base factor trend.2 trend.1
              Hbase Hfactor Hunit) as (Hrange & Hless & Hmore & Hsame & Hshare).
  fold adjusted in Hrange, Hless, Hmore, Hsame, Hshare.
  split; [exact Hrange|]. split; [exact Hsame|].
  intros Hstrong. destruct (Hshare Hstrong) as [Hincreasing Hdecreasing].
  split.
  - intros Hdirection. split; [apply Hincreasing|apply Hless]; exact Hdirection.
  - intros Hdirection. split; [apply Hdecreasing|apply Hmore];
      rewrite Hdirection; discriminate.
Qed.

End TrendAdjustment.

Section ConfidenceScores.
Context `{Runtime}.

(** The score of a purchase [days_ago] days ago. *)
Lemma recency_of_days_unit (days_ago : Z) :
  (0 <= (if days_ago <=? 0 then 1.0
         else if 180 <=? days_ago then 0.0
              else 1.0 - float days_ago / 180) <= 1)%Q.
Proof.
  destruct (Z.leb_spec days_ago 0) as [_|Hpast]; [lra|].
  destruct (Z.leb_spec 180 days_ago) as [_|Hrecent]; [lra|].
  rewrite Zlt_Qlt in Hpast, Hrecent.
  assert (float days_ago / 180 * 180 == float days_ago)%Q as Hshare by field.
  set (share := (float days_ago / 180)%Q) in *.
  set (days := float days_ago) in *.
  change (float 0) with 0%Q in Hpast. change (float 180) with 180%Q in Hrecent.
  clearbody share days. lra.
Qed.

Lemma recency_of_days_falls (days_ago days_later : Z) :
  days_ago <= days_later ->
  ((if days_later <=? 0 then 1.0
    else if 180 <=? days_later then 0.0
         else 1.0 - float days_later / 180)
   <= (if days_ago <=? 0 then 1.0
       else if 180 <=? days_ago then 0.0
            else 1.0 - float days_ago / 180))%Q.
Proof.
  intros Hdays.
  assert (forall days : Z, (float days / 180 * 180 == float days)%Q) as Hshare
    by (intros days; field).
  pose proof (Hshare days_ago) as Hnow. pose proof (Hshare days_later) as Hthen.
  destruct (Z.leb_spec days_ago 0) as [Hn0|Hn0];
    destruct (Z.leb_spec days_later 0) as [Hl0|Hl0];
    destruct (Z.leb_spec 180 days_ago) as [Hn1|Hn1];
    destruct (Z.leb_spec 180 days_later) as [Hl1|Hl1];
    try lia; try lra;
    repeat match goal with
           | Hz : (_ < _)%Z |- _ => rewrite Zlt_Qlt in Hz
           | Hz : (_ <= _)%Z |- _ => rewrite Zle_Qle in Hz
           end;
    change (float 0) with 0%Q in *; change (float 180) with 180%Q in *;
    set (share := (float days_ago / 180)%Q) in *;
    set (share' := (float days_later / 180)%Q) in *;
    set (days := float days_ago) in *;
    set (days' := float days_later) in *;
    clearbody share share' days days'; lra.
Qed.

(** A date that parses to an aware [datetime] does not parse to a naive
    one, and is not empty. *)
Lemma parse_last_purchase_aware_only (s : string) (t : Z) :
  TrendAnalysis.parse_last_purchase_aware s = Some t ->
  TrendAnalysis.parse_last_purchase s = None /\ truthy_str (Some s) = true.
Proof.
  unfold TrendAnalysis.parse_last_purchase_aware, TrendAnalysis.parse_last_purchase.
  destruct (contains_char "T" s) eqn:Hcontains; [|discriminate].
  intros Haware. split.
  - apply fromisoformat_aware_not_naive. rewrite Haware. eexists. reflexivity.
  - destruct s; [discriminate | reflexivity].
Qed.

Lemma calculate_recency_score_unit (now : datetime)
    (last_purchase_date : option string) :
  let run := TrendAnalysis.calculate_recency_score now last_purchase_date in
  (forall score, run = Returned score -> (0 <= score <= 1)%Q)
  /\ (forall e, run = Raised e -> e = TypeError)
  /\ (run = Raised TypeError
      <-> exists s t,
            last_purchase_date = Some s
            /\ TrendAnalysis.parse_last_purchase_aware s = Some t).
Proof.
  cbv zeta. unfold TrendAnalysis.calculate_recency_score.
  destruct (truthy_str last_purchase_date) eqn:Htruthy; cbn [negb].
  - destruct last_purchase_date as [s|]; [|discriminate].
    change (default ""%string (Some s)) with s.
    destruct (TrendAnalysis.parse_last_purchase s) as [last_date|] eqn:Hnaive.
    + split; [|split].
      * intros score Hrun.
        pose proof (recency_of_days_unit (td_days (now - last_date))) as Hunit.
        destruct (td_days (now - last_date) <=? 0);
          [injection Hrun as <-; exact Hunit|].
        destruct (180 <=? td_days (now - last_date));
          injection Hrun as <-; exact Hunit.
      * intros e Hrun.
        destruct (td_days (now - last_date) <=? 0); [discriminate|].
        destruct (180 <=? td_days (now - last_date)); discriminate.
      * split.
        -- intros Hrun.
           destruct (td_days (now - last_date) <=? 0); [discriminate|].
           destruct (180 <=? td_days (now - last_date)); discriminate.
        -- intros (s' & t & [= <-] & Haware).
           apply parse_last_purchase_aware_only in Haware as [Hnone _].
           rewrite Hnone in Hnaive. discriminate.
    + destruct (TrendAnalysis.parse_last_purchase_aware s) as [t|] eqn:Haware.
      * split; [discriminate|]. split; [intros e [= <-]; reflexivity|].
        split; [intros _; exists s, t; split; [reflexivity | exact Haware]
               |reflexivity].
      * split; [intros score [= <-]; lra|]. split; [discriminate|].
        split; [discriminate|].
        intros (s' & t & [= <-] & Haware'). rewrite Haware' in Haware. discriminate.
  - split; [intros score [= <-]; lra|]. split; [discriminate|].
    split; [discriminate|].
    intros (s & t & -> & Haware).
    apply parse_last_purchase_aware_only in Haware as [_ Hs].
    rewrite Hs in Htruthy. discriminate.
Qed.

Lemma calculate_recency_score_falls (now later : datetime)
    (last_purchase_date : option string) :
  now <= later ->
  match TrendAnalysis.calculate_recency_score now last_purchase_date,
        TrendAnalysis.calculate_recency_score later last_purchase_date with
  | Returned score, Returned score' => (score' <= score)%Q
  | Raised e, Raised e' => e = e'
  | _, _ => False
  end.
Proof.
  intros Hlater. unfold TrendAnalysis.calculate_recency_score.
  destruct (negb (truthy_str last_purchase_date)); [lra|].
  destruct (TrendAnalysis.parse_last_purchase _) as [last_date|].
  - assert (td_days (now - last_date) <= td_days (later - last_date)) as Hdays
      by (unfold td_days; apply Z.div_le_mono; [reflexivity|lia]).
    pose proof (recency_of_days_falls _ _ Hdays) as Hfalls.
    destruct (td_days (now - last_date) <=? 0);
      destruct (td_days (later - last_date) <=? 0);
      destruct (180 <=? td_days (now - last_date));
      destruct (180 <=? td_days (later - last_date)); exact Hfalls.
  - destruct (TrendAnalysis.parse_last_purchase_aware _); [reflexivity | lra].
Qed.

Lemma calculate_quantity_consistency_range (quantities : list Z) :
  let score := TrendAnalysis.calculate_quantity_consistency quantities in
  (0 <= score)%Q
  /\ (0 <= isum quantities -> (score <= 1)%Q)
  /\ (isum quantities < 0 -> 2 <= len quantities -> (1 <= score)%Q).
Proof.
  cbv zeta. unfold TrendAnalysis.calculate_quantity_consistency.
  destruct (Z.ltb_spec (len quantities) 2) as [Hfew|Hmany];
    [split; [lra|]; split; [intros _; lra|intros _ Hlen; lia]|].
  assert (0 < float (len quantities))%Q as Hlen
    by (change 0%Q with (float 0); rewrite <- Zlt_Qlt; lia).
  assert (mean quantities * float (len quantities) == float (isum quantities))%Q
    as Hmean by (unfold mean; field; lra).
  destruct (Qeqb0 (mean quantities)) eqn:Hzero.
  { split; [lra|]. split; [intros _; lra|]. intros Hsum _.
    apply Qeqb0_true in Hzero. rewrite Hzero, Qmult_0_l in Hmean.
    change 0%Q with (float 0) in Hmean. unfold Qeq in Hmean. cbn in Hmean. lia. }
  assert (~ mean quantities == 0)%Q as Hnonzero
    by (intros Heq; apply Qeqb0_true in Heq; congruence).
  set (variance := (sum_sq_dev quantities / float (len quantities))%Q).
  assert (0 <= variance)%Q as Hvariance.
  { unfold variance. apply Qle_shift_div_l; [exact Hlen|].
    rewrite Qmult_0_l. apply sum_sq_dev_nonneg. }
  pose proof (fsqrt_nonneg variance Hvariance) as Hstd.
  set (std_dev := fsqrt variance) in *.
  assert (std_dev / mean quantities * mean quantities == std_dev)%Q as Hcv
    by (field; exact Hnonzero).
  set (cv := (std_dev / mean quantities)%Q) in *.
  set (consistency := Qmax 0.0 (1.0 - cv)).
  assert (0 <= consistency)%Q as Hlow
    by (apply Qle_trans with 0.0%Q; [lra|apply Q.le_max_l]).
  pose proof (hundredths_ge consistency 0) as Hge.
  change (float 0) with 0%Q in Hge.
  split; [assert (0 <= round_ndigits consistency 2 * 100)%Q
            by (apply Hge; lra); lra|].
  split.
  - intros Hsum. rewrite Zle_Qle in Hsum. change (float 0) with 0%Q in Hsum.
    assert (0 < mean quantities)%Q as Hpositive.
    { destruct (Qlt_le_dec 0 (mean quantities)) as [Hpos|Hneg]; [exact Hpos|].
      exfalso. apply Hnonzero.
      assert (mean quantities * float (len quantities) <= 0)%Q as Hle.
      { rewrite <- (Qmult_0_l (float (len quantities))).
        apply Qmult_le_compat_r; [exact Hneg|lra]. }
      assert (mean quantities * float (len quantities) == 0)%Q as Heq by lra.
      apply Qmult_integral in Heq. destruct Heq as [Heq|Heq]; [exact Heq|lra]. }
    assert (0 <= cv)%Q as Hcv0.
    { destruct (Qlt_le_dec cv 0) as [Hneg|Hpos]; [|exact Hpos]. exfalso.
      assert (cv * mean quantities <= 0 * mean quantities)%Q as Hle
        by (apply Qmult_le_compat_r; lra).
      rewrite Qmult_0_l in Hle.
      assert (cv * mean quantities == 0)%Q as Heq by lra.
      apply Qmult_integral in Heq. destruct Heq as [Heq|Heq]; lra. }
    assert (consistency <= 1)%Q as Hhigh by (apply Q.max_lub; lra).
    pose proof (hundredths_le consistency 100) as Hle.
    change (float 100) with 100%Q in Hle.
    assert (round_ndigits consistency 2 * 100 <= 100)%Q by (apply Hle; lra). lra.
  - intros Hsum _. rewrite Zlt_Qlt in Hsum. change (float 0) with 0%Q in Hsum.
    assert (mean quantities < 0)%Q as Hnegative.
    { destruct (Qlt_le_dec (mean quantities) 0) as [Hneg|Hpos]; [exact Hneg|].
      exfalso.
      assert (0 * float (len quantities)
              <= mean quantities * float (len quantities))%Q as Hle
        by (apply Qmult_le_compat_r; [exact Hpos|lra]).
      rewrite Qmult_0_l in Hle. lra. }
    assert (cv <= 0)%Q as Hcv0.
    { destruct (Qlt_le_dec 0 cv) as [Hpos|Hneg]; [|exact Hneg]. exfalso.
      assert (0 < (- mean quantities) * cv)%Q as Hlt
        by (apply Qmult_lt_0_compat; lra).
      assert ((- mean quantities) * cv == - (cv * mean quantities))%Q as Heq by ring.
      lra. }
    assert (1 <= consistency)%Q as Hhigh.
    { apply Qle_trans with (1.0 - cv)%Q; [lra|apply Q.le_max_r]. }
    pose proof (hundredths_ge consistency 100) as Hge'.
    change (float 100) with 100%Q in Hge'.
    assert (100 <= round_ndigits consistency 2 * 100)%Q by (apply Hge'; lra). lra.
Qed.

Lemma calculate_enhanced_confidence_unit (sample_size max_samples : Z)
    (interval_consistency recency_score quantity_consistency : Q) :
  match TrendAnalysis.calculate_enhanced_confidence sample_size
          interval_consistency recency_score quantity_consistency max_samples with
  | Some confidence => max_samples <> 0 /\ (0 <= confidence <= 1)%Q
  | None => max_samples = 0
  end.
Proof.
  unfold TrendAnalysis.calculate_enhanced_confidence.
  destruct (Z.eqb_spec max_samples 0) as [Hzero|Hnonzero]; [exact Hzero|].
  split; [exact Hnonzero|]. apply unit_hundredths. split.
  - apply Q.min_glb; [lra|]. apply Qle_trans with 0.0%Q; [lra|apply Q.le_max_l].
  - apply Qle_trans with 1.0%Q; [apply Q.le_min_l|lra].
Qed.

Lemma calculate_enhanced_confidence_monotone (sample_size sample_size' : Z)
    (max_samples : Z)
    (interval_consistency interval_consistency' : Q)
    (recency_score recency_score' : Q)
    (quantity_consistency quantity_consistency' : Q) :
  0 < max_samples -> sample_size <= sample_size' ->
  (interval_consistency <= interval_consistency')%Q ->
  (recency_score <= recency_score')%Q ->
  (quantity_consistency <= quantity_consistency')%Q ->
  exists confidence confidence',
    TrendAnalysis.calculate_enhanced_confidence sample_size
      interval_consistency recency_score quantity_consistency max_samples
    = Some confidence
    /\ TrendAnalysis.calculate_enhanced_confidence sample_size'
         interval_consistency' recency_score' quantity_consistency' max_samples
       = Some confidence'
    /\ (confidence <= confidence')%Q.
Proof.
  intros Hmax Hsize Hinterval Hrecency Hquantity.
  unfold TrendAnalysis.calculate_enhanced_confidence.
  destruct (Z.eqb_spec max_samples 0) as [Hzero|_]; [lia|].
  eexists. eexists. split; [reflexivity|]. split; [reflexivity|].
  rewrite Zlt_Qlt in Hmax. rewrite Zle_Qle in Hsize.
  change (float 0) with 0%Q in Hmax.
  assert (float sample_size / float max_samples
          <= float sample_size' / float max_samples)%Q as Hshare.
  { unfold Qdiv. apply Qmult_le_compat_r; [exact Hsize|].
    apply Qinv_le_0_compat. lra. }
  pose proof (Q.min_le_compat_l _ _ 1.0%Q Hshare) as Hdata.
  set (data := Qmin 1.0 (float sample_size / float max_samples)) in *.
  set (data' := Qmin 1.0 (float sample_size' / float max_samples)) in *.
  apply hundredths_monotone, Q.min_le_compat_l, Q.max_le_compat_l.
  clearbody data data'. lra.
Qed.

(** The scores of the confidence are within 0..1, but for one case.  The
    recency score raises [TypeError] exactly when the date parses to an
    aware [datetime], and no other exception; the score it returns is
    within 0..1, whatever the date and the clock, and does not rise as
    time passes.  The quantity consistency is not negative, and at most 1
    when the quantities do not sum to less than 0; for two or more
    quantities of a negative sum it is 1 or more.  The enhanced confidence
    raises [ZeroDivisionError] when [max_samples] is 0 and is otherwise
    within 0..1, whatever the scores it is given; for a [max_samples] above
    0 it does not fall when the sample size or a score rises. *)
Theorem confidence_scores :
  (forall (now : datetime) (last_purchase_date : option string),
     let run := TrendAnalysis.calculate_recency_score now last_purchase_date in
     (forall score, run = Returned score -> (0 <= score <= 1)%Q)
     /\ (forall e, run = Raised e -> e = TypeError)
     /\ (run = Raised TypeError
         <-> exists s t,
               last_purchase_date = Some s
               /\ TrendAnalysis.parse_last_purchase_aware s = Some t))
  /\ (forall (now later : datetime) (last_purchase_date : option string),
        now <= later ->
        match TrendAnalysis.calculate_recency_score now last_purchase_date,
              TrendAnalysis.calculate_recency_score later last_purchase_date with
        | Returned score, Returned score' => (score' <= score)%Q
        | Raised e, Raised e' => e = e'
        | _, _ => False
        end)
  /\ (forall quantities : list Z,
        let score := TrendAnalysis.calculate_quantity_consistency quantities in
        (0 <= score)%Q
        /\ (0 <= isum quantities -> (score <= 1)%Q)
        /\ (isum quantities < 0 -> 2 <= len quantities -> (1 <= score)%Q))
  /\ (forall (sample_size max_samples : Z)
             (interval_consistency recency_score quantity_consistency : Q),
        match TrendAnalysis.calculate_enhanced_confidence sample_size
                interval_consistency recency_score quantity_consistency
                max_samples with
        | Some confidence => max_samples <> 0 /\ (0 <= confidence <= 1)%Q
        | None => max_samples = 0
        end)
  /\ (forall (sample_size sample_size' max_samples : Z)
             (interval_consistency interval_consistency' : Q)
             (recency_score recency_score' : Q)
             (quantity_consistency quantity_consistency' : Q),
        0 < max_samples -> sample_size <= sample_size' ->
        (interval_consistency <= interval_consistency')%Q ->
        (recency_score <= recency_score')%Q ->
        (quantity_consistency <= quantity_consistency')%Q ->
        exists confidence confidence',
          TrendAnalysis.calculate_enhanced_confidence sample_size
            interval_consistency recency_score quantity_consistency max_samples
          = Some confidence
          /\ TrendAnalysis.calculate_enhanced_confidence sample_size'
               interval_consistency' recency_score' quantity_consistency'
               max_samples
             = Some confidence'
          /\ (confidence <= confidence')%Q).
Proof.
  split; [exact calculate_recency_score_unit|].
  split; [exact calculate_recency_score_falls|].
  split; [exact calculate_quantity_consistency_range|].
  split; [exact calculate_enhanced_confidence_unit|].
  exact calculate_enhanced_confidence_monotone.
Qed.

End ConfidenceScores.

Section TrendExamples.

(** Intervals that lengthen from 7 to 12 days: the trend of the last five
    is 'decreasing' with the strength 0.43, and a base prediction of 10 days
    with the factor 0.15 becomes one of 10.645 days
    ([trend_adjusted_prediction]). *)
Lemma lengthening_intervals :
  (0 <= 10)%Q /\ (0 <= 0.15)%Q
  /\ TrendAnalysis.detect_trend [7; 7; 7; 8; 9; 10; 12]%Q 5
     = ("decreasing"%string, 0.43%Q)
  /\ (10 * (1 - 0.15)
      <= TrendAnalysis.predict_with_trend_adjustment 10
           (TrendAnalysis.detect_trend [7; 7; 7; 8; 9; 10; 12]%Q 5).1
           (TrendAnalysis.detect_trend [7; 7; 7; 8; 9; 10; 12]%Q 5).2 0.15
      <= 10 * (1 + 0.15))%Q
  /\ (TrendAnalysis.predict_with_trend_adjustment 10
        (TrendAnalysis.detect_trend [7; 7; 7; 8; 9; 10; 12]%Q 5).1
        (TrendAnalysis.detect_trend [7; 7; 7; 8; 9; 10; 12]%Q 5).2 0.15
      == 10.645)%Q.
Proof.
  assert (0 <= 10)%Q as Hbase by lra. assert (0 <= 0.15)%Q as Hfactor by lra.
  split; [exact Hbase|]. split; [exact Hfactor|].
  split; [vm_compute; reflexivity|].
  split; [|vm_compute; reflexivity].
  exact (proj1 (trend_adjusted_prediction 10 0.15 [7; 7; 7; 8; 9; 10; 12]%Q 5
                  Hbase Hfactor)).
Defined.

End TrendExamples.
